(** * jerotaxyz/server: campaign participation and reward ledger

    A shallow embedding of the controllers and services that decide how a
    campaign's reward rules, a participant's action history and a user's
    earned-rewards ledger interact:

    - [services/verification.js]  (class VerificationService)
    - [services/blockchain.js]    (class BlockchainService)
    - [controllers/campaignController.js]
    - [controllers/rewardController.js]
    - [middleware/auth.js]
    - [connectDB], the connection to the database

    Conventions of the embedding.
    - A JS string is kept as the sequence of bytes of its UTF-8 encoding
      ([string], one [ascii] per byte).  This is what [Buffer.from(str)]
      produces, and string concatenation with a decimal number commutes
      with the encoding.
    - A [Date] and the value of [Date.now()] are the number of milliseconds
      since the epoch, in [Z].  Every reading of the clock is an explicit
      argument, one argument per reading, in program order.
    - A Mongo collection is the list of its documents in insertion order;
      an [ObjectId] is a number and [a.toString() === b.toString()] is
      equality of ids.
    - A document array ([campaign.participants], [participant.actions]) is a
      JS array: [push] appends the object itself, and a participant obtained
      from the array is a reference into it, kept here as its index.
    - [async]/[await] is sequential composition; an exception is the [Throw]
      completion of a call. *)

From Stdlib Require Import ZArith NArith QArith List String Ascii Bool.
From Stdlib Require Import DecimalString Lia Permutation Sorted.
Import ListNotations.

Open Scope string_scope.
Open Scope Z_scope.

(* ================================================================== *)
(** ** JS values shared by the services and the controllers *)

Module Js.

(** The completion of a call: a normal return or a thrown [Error] or
    [AppError], which the controllers hand to [next]. *)
Inductive Completion (E A : Type) : Type :=
| Return (a : A)
| Throw (e : E).
Arguments Return {E A} a.
Arguments Throw {E A} e.

(** [try { body } catch (error) { return handler(error) }] *)
Definition try_catch {E A : Type} (body : Completion E A) (handler : E -> A)
  : A :=
  match body with
  | Return a => a
  | Throw e => handler e
  end.

(** [String(n)] for an integral number, as in [proof + Date.now()]. *)
Definition number_toString (n : Z) : string :=
  NilEmpty.string_of_int (Z.to_int n).

(** [s.includes(needle)] *)
Fixpoint includes (s needle : string) : bool :=
  String.prefix needle s
  || match s with
     | EmptyString => false
     | String _ s' => includes s' needle
     end.

(** [s.toLowerCase()] on the ASCII letters; token and wallet addresses
    are hexadecimal. *)
Definition lower_ascii (c : ascii) : ascii :=
  let n := N_of_ascii c in
  if ((65 <=? n) && (n <=? 90))%N then ascii_of_N (n + 32) else c.

Fixpoint toLowerCase (s : string) : string :=
  match s with
  | EmptyString => EmptyString
  | String c s' => String (lower_ascii c) (toLowerCase s')
  end.

(** The base64 alphabet of [Buffer.prototype.toString('base64')]. *)
Definition base64_alphabet : string :=
  "ABCDEFGHIJKLMNOPQRSTUVWXYZabcdefghijklmnopqrstuvwxyz0123456789+/".

Definition base64_digit (n : N) : ascii :=
  match String.get (N.to_nat n) base64_alphabet with
  | Some c => c
  | None => "="%char
  end.

(** [Buffer.from(s).toString('base64')]: three bytes give four digits, a
    tail of one or two bytes is padded with [=]. *)
Fixpoint base64 (s : string) : string :=
  match s with
  | EmptyString => EmptyString
  | String a EmptyString =>
      let n := (N_of_ascii a * 65536)%N in
      String (base64_digit (n / 262144))
        (String (base64_digit ((n / 4096) mod 64)) "==")
  | String a (String b EmptyString) =>
      let n := (N_of_ascii a * 65536 + N_of_ascii b * 256)%N in
      String (base64_digit (n / 262144))
        (String (base64_digit ((n / 4096) mod 64))
           (String (base64_digit ((n / 64) mod 64)) "="))
  | String a (String b (String c rest)) =>
      let n := (N_of_ascii a * 65536 + N_of_ascii b * 256 + N_of_ascii c)%N in
      String (base64_digit (n / 262144))
        (String (base64_digit ((n / 4096) mod 64))
           (String (base64_digit ((n / 64) mod 64))
              (String (base64_digit (n mod 64)) (base64 rest))))
  end.

(** [xs.findIndex(p)], [-1] being [None]. *)
Fixpoint findIndex {A : Type} (p : A -> bool) (xs : list A) : option nat :=
  match xs with
  | [] => None
  | x :: xs' =>
      if p x then Some 0%nat
      else option_map S (findIndex p xs')
  end.

(** [xs[i] = f(xs[i])] for an index inside the array. *)
Fixpoint update_at {A : Type} (i : nat) (f : A -> A) (xs : list A) : list A :=
  match xs, i with
  | [], _ => []
  | x :: xs', O => f x :: xs'
  | x :: xs', S i' => x :: update_at i' f xs'
  end.

End Js.

Import Js.

(* ================================================================== *)
(** ** services/verification.js *)

Module VerificationService.

(** The object a verifier returns: either
    [{verified: true, platform, action, timestamp, proofHash}] or, from a
    [catch] block, [{verified: false, error}]. *)
Inductive VerificationResult : Type :=
| Verified (platform action : string) (timestamp : Z) (proofHash : string)
| NotVerified (error : string).

Definition verified (r : VerificationResult) : bool :=
  match r with
  | Verified _ _ _ _ => true
  | NotVerified _ => false
  end.

(** [r.proofHash], [undefined] on the failure object. *)
Definition proofHash (r : VerificationResult) : option string :=
  match r with
  | Verified _ _ _ h => Some h
  | NotVerified _ => None
  end.

Definition platform (r : VerificationResult) : option string :=
  match r with
  | Verified p _ _ _ => Some p
  | NotVerified _ => None
  end.

(** The two clock readings of one verification: [new Date()] for the
    [timestamp] field, then [Date.now()] inside [generateProofHash]. *)
Record Clock : Type := mkClock { timestamp_at : Z; hash_at : Z }.

Definition getPlatformFromUrl (contentUrl : string) : string :=
  if includes contentUrl "spotify.com" then "spotify"
  else if includes contentUrl "youtube.com" || includes contentUrl "youtu.be"
  then "youtube"
  else if includes contentUrl "twitter.com" || includes contentUrl "x.com"
  then "twitter"
  else if includes contentUrl "instagram.com" then "instagram"
  else "unknown".

(** [Buffer.from(proof + Date.now()).toString('base64').substring(0, 32)] *)
Definition generateProofHash (proof : string) (now : Z) : string :=
  String.substring 0 32 (base64 (proof ++ number_toString now)).

(** The seven platform verifiers differ only in the two constants. *)
Definition platformVerification (platform action proof : string) (clk : Clock)
  : Completion string VerificationResult :=
  Return (Verified platform action (timestamp_at clk)
            (generateProofHash proof (hash_at clk))).

Definition verifySpotifyStream (contentUrl proof userWallet : string) :=
  platformVerification "spotify" "stream" proof.
Definition verifyYouTubeStream (contentUrl proof userWallet : string) :=
  platformVerification "youtube" "stream" proof.
Definition verifyTwitterShare (contentUrl proof userWallet : string) :=
  platformVerification "twitter" "share" proof.
Definition verifyTwitterFollow (contentUrl proof userWallet : string) :=
  platformVerification "twitter" "follow" proof.
Definition verifySpotifyFollow (contentUrl proof userWallet : string) :=
  platformVerification "spotify" "follow" proof.
Definition verifyYouTubeLike (contentUrl proof userWallet : string) :=
  platformVerification "youtube" "like" proof.
Definition verifyYouTubeComment (contentUrl proof userWallet : string) :=
  platformVerification "youtube" "comment" proof.

(** The generic verifier hashes [`mock-${action}-${platform}`], not the
    proof it was called for. *)
Definition mockVerification (action platform : string) (clk : Clock)
  : Completion string VerificationResult :=
  Return (Verified platform action (timestamp_at clk)
            (generateProofHash ("mock-" ++ action ++ "-" ++ platform)
               (hash_at clk))).

Definition failed (error : string) : VerificationResult := NotVerified error.

Definition verifyStream (contentUrl proof userWallet : string) (clk : Clock)
  : VerificationResult :=
  let platform := getPlatformFromUrl contentUrl in
  try_catch
    (if String.eqb platform "spotify"
     then verifySpotifyStream contentUrl proof userWallet clk
     else if String.eqb platform "youtube"
     then verifyYouTubeStream contentUrl proof userWallet clk
     else mockVerification "stream" platform clk)
    failed.

Definition verifyShare (contentUrl proof userWallet : string) (clk : Clock)
  : VerificationResult :=
  let platform := getPlatformFromUrl contentUrl in
  try_catch
    (if String.eqb platform "twitter"
     then verifyTwitterShare contentUrl proof userWallet clk
     else mockVerification "share" platform clk)
    failed.

Definition verifyFollow (contentUrl proof userWallet : string) (clk : Clock)
  : VerificationResult :=
  let platform := getPlatformFromUrl contentUrl in
  try_catch
    (if String.eqb platform "twitter"
     then verifyTwitterFollow contentUrl proof userWallet clk
     else if String.eqb platform "spotify"
     then verifySpotifyFollow contentUrl proof userWallet clk
     else mockVerification "follow" platform clk)
    failed.

Definition verifyLike (contentUrl proof userWallet : string) (clk : Clock)
  : VerificationResult :=
  let platform := getPlatformFromUrl contentUrl in
  try_catch
    (if String.eqb platform "youtube"
     then verifyYouTubeLike contentUrl proof userWallet clk
     else mockVerification "like" platform clk)
    failed.

Definition verifyComment (contentUrl proof userWallet : string) (clk : Clock)
  : VerificationResult :=
  let platform := getPlatformFromUrl contentUrl in
  try_catch
    (if String.eqb platform "youtube"
     then verifyYouTubeComment contentUrl proof userWallet clk
     else mockVerification "comment" platform clk)
    failed.

(** The message of the [Error] thrown for an unknown action. *)
Definition unsupported (action : string) : string :=
  "Unsupported action type: " ++ action.

Definition verifyAction (action contentUrl proof userWallet : string)
    (clk : Clock) : Completion string VerificationResult :=
  if String.eqb action "stream"
  then Return (verifyStream contentUrl proof userWallet clk)
  else if String.eqb action "share"
  then Return (verifyShare contentUrl proof userWallet clk)
  else if String.eqb action "follow"
  then Return (verifyFollow contentUrl proof userWallet clk)
  else if String.eqb action "like"
  then Return (verifyLike contentUrl proof userWallet clk)
  else if String.eqb action "comment"
  then Return (verifyComment contentUrl proof userWallet clk)
  else Throw (unsupported action).

End VerificationService.

(* ================================================================== *)
(** ** The Campaign and User schemas

    One module per schema and sub-document, with the schema's field names.
    Fields that the controllers below never read (email, twitter,
    instagram, the user's createdAt) are left out.  Amounts are JS numbers
    that are stored and copied but never computed with; they are kept as
    rationals. *)

Definition ObjectId : Type := N.

Module Token.
Record t : Type := mk { address : string; name : string }.
End Token.

Module RewardRule.
(** [maxClaims] is an optional [Number] with [min: 0]; it is compared with
    array lengths only, and kept as a natural number. [None] is a rule
    stored without the field. *)
Record t : Type := mk {
  action : string;
  rewardAmount : Q;
  token : Token.t;
  maxClaims : option N
}.
End RewardRule.

Module Action.
Record t : Type := mk {
  actionType : string;
  verifiedAt : Z;
  proof : string
}.
End Action.

Module Participant.
Record t : Type := mk { userId : ObjectId; actions : list Action.t }.
End Participant.

Module Budget.
Record t : Type := mk { amount : Q; token : Token.t }.
End Budget.

Module Status.
Inductive t : Type := draft | active | completed | paused.

Definition toString (s : t) : string :=
  match s with
  | draft => "draft"
  | active => "active"
  | completed => "completed"
  | paused => "paused"
  end.

Definition eqb (a b : t) : bool :=
  match a, b with
  | draft, draft | active, active | completed, completed | paused, paused =>
      true
  | _, _ => false
  end.
End Status.

Module Campaign.
Record t : Type := mk {
  _id : ObjectId;
  creatorId : ObjectId;
  title : string;
  description : option string;
  budget : Budget.t;
  rewardRules : list RewardRule.t;
  status : Status.t;
  startDate : Z;
  endDate : Z;
  contentUrl : string;
  totalTVL : Z;
  participants : list Participant.t;
  createdAt : Z
}.

Definition with_participants (c : t) (ps : list Participant.t) : t :=
  mk (_id c) (creatorId c) (title c) (description c) (budget c)
     (rewardRules c) (status c) (startDate c) (endDate c) (contentUrl c)
     (totalTVL c) ps (createdAt c).
End Campaign.

Module RewardEntry.
Record t : Type := mk {
  campaignId : ObjectId;
  amount : Q;
  token : Token.t;
  claimedAt : Z
}.
End RewardEntry.

Module Role.
Inductive t : Type := creator | fan.

Definition eqb (a b : t) : bool :=
  match a, b with
  | creator, creator | fan, fan => true
  | _, _ => false
  end.
End Role.

Module User.
Record t : Type := mk {
  _id : ObjectId;
  walletAddress : string;
  username : string;
  role : Role.t;
  campaignsCreated : list ObjectId;
  campaignsParticipated : list ObjectId;
  rewardsEarned : list RewardEntry.t
}.

Definition with_campaignsCreated (u : t) (cs : list ObjectId) : t :=
  mk (_id u) (walletAddress u) (username u) (role u) cs
     (campaignsParticipated u) (rewardsEarned u).

Definition with_campaignsParticipated (u : t) (cs : list ObjectId) : t :=
  mk (_id u) (walletAddress u) (username u) (role u) (campaignsCreated u)
     cs (rewardsEarned u).

Definition with_rewardsEarned (u : t) (rs : list RewardEntry.t) : t :=
  mk (_id u) (walletAddress u) (username u) (role u) (campaignsCreated u)
     (campaignsParticipated u) rs.
End User.

(* ================================================================== *)
(** ** The document store behind the two models *)

Module Db.

Record t : Type := mk {
  campaigns : list Campaign.t;
  users : list User.t
}.

Definition is_campaign (id : ObjectId) (c : Campaign.t) : bool :=
  (Campaign._id c =? id)%N.

Definition is_user (id : ObjectId) (u : User.t) : bool :=
  (User._id u =? id)%N.

(** [Campaign.findById(id)] *)
Definition Campaign_findById (db : t) (id : ObjectId) : option Campaign.t :=
  List.find (is_campaign id) (campaigns db).

(** [User.findById(id)] *)
Definition User_findById (db : t) (id : ObjectId) : option User.t :=
  List.find (is_user id) (users db).

(** [User.findOne({ username })] *)
Definition User_findOne_username (db : t) (username : string)
  : option User.t :=
  List.find (fun u => String.eqb (User.username u) username) (users db).

(** First document that satisfies [p] replaced by its image under [f]. *)
Fixpoint update_first {A : Type} (p : A -> bool) (f : A -> A) (xs : list A)
  : list A :=
  match xs with
  | [] => []
  | x :: xs' => if p x then f x :: xs' else x :: update_first p f xs'
  end.

(** [campaign.save()] for a document that came from [findById]. *)
Definition Campaign_save (db : t) (c : Campaign.t) : t :=
  mk (update_first (is_campaign (Campaign._id c)) (fun _ => c) (campaigns db))
     (users db).

(** [Campaign.create(doc)] *)
Definition Campaign_create (db : t) (c : Campaign.t) : t :=
  mk (campaigns db ++ [c]) (users db).

(** [User.findByIdAndUpdate(id, update)] *)
Definition User_findByIdAndUpdate (db : t) (id : ObjectId)
    (update : User.t -> User.t) : t :=
  mk (campaigns db) (update_first (is_user id) update (users db)).

(** The update operators used by the controllers. *)
Definition push_campaignsCreated (c : ObjectId) (u : User.t) : User.t :=
  User.with_campaignsCreated u (User.campaignsCreated u ++ [c]).

Definition addToSet_campaignsParticipated (c : ObjectId) (u : User.t)
  : User.t :=
  if List.existsb (N.eqb c) (User.campaignsParticipated u) then u
  else User.with_campaignsParticipated u (User.campaignsParticipated u ++ [c]).

Definition push_rewardsEarned (r : RewardEntry.t) (u : User.t) : User.t :=
  User.with_rewardsEarned u (User.rewardsEarned u ++ [r]).

End Db.

(* ================================================================== *)
(** ** utils/errorHandler.js: the errors handed to [next]

    An [AppError(message, statusCode)] or a plain [Error(message)] is kept
    as its kind and the values interpolated into its message. *)

Module AppError.

Inductive TokenUse : Type := BudgetToken | RewardToken.

Inductive t : Type :=
| Forbidden (message : string)
| NotFound
| ValidationError
| TokenNotAllowed (use : TokenUse) (address : string)
| SchemaValidation
| CampaignNotActive
| OutsideDateWindow
| ActionNotRewarded (action : string)
| UnsupportedAction (action : string)
| VerificationFailed
| MaxClaimsReached (maxClaims : N) (action : string)
| NotParticipated
| ActionNotVerified
| MaxRewardsClaimed (maxClaims : N).

Definition message (e : t) : string :=
  match e with
  | Forbidden m => m
  | NotFound => "Campaign not found"
  | ValidationError => "End date must be after start date"
  | TokenNotAllowed BudgetToken a => "Budget token " ++ a ++ " is not allowed"
  | TokenNotAllowed RewardToken a => "Reward token " ++ a ++ " is not allowed"
  | SchemaValidation => "Campaign validation failed"
  | CampaignNotActive => "Campaign is not active"
  | OutsideDateWindow => "Campaign is not within active date range"
  | ActionNotRewarded a =>
      "Action '" ++ a ++ "' is not rewarded in this campaign"
  | UnsupportedAction a => VerificationService.unsupported a
  | VerificationFailed => "Action verification failed"
  | MaxClaimsReached n a =>
      "Maximum claims (" ++ number_toString (Z.of_N n)
      ++ ") reached for action '" ++ a ++ "'"
  | NotParticipated => "User has not participated in this campaign"
  | ActionNotVerified => "Action not found or not verified"
  | MaxRewardsClaimed n =>
      "Maximum rewards (" ++ number_toString (Z.of_N n)
      ++ ") already claimed for this action"
  end.

(** [statusCode]; a plain [Error] has none and is answered with 500. *)
Definition statusCode (e : t) : Z :=
  match e with
  | Forbidden _ => 403
  | NotFound => 404
  | TokenNotAllowed _ _ | UnsupportedAction _ => 500
  | _ => 400
  end.

End AppError.

Definition Result (A : Type) : Type := Completion AppError.t A.

(* ================================================================== *)
(** ** services/blockchain.js *)

Module BlockchainService.

(** The singleton's mutable fields; both start as [null]. *)
Record t : Type := mk {
  allowedTokensCache : option (list Token.t);
  cacheExpiry : option Z
}.

Definition initial : t := mk None None.

Definition CACHE_DURATION : Z := 5 * 60 * 1000.

(** The two [Date.now()] readings of [getAllowedTokens]: in the test of
    the cache, and when the expiry is stored. *)
Record Clock : Type := mkClock { checked_at : Z; cached_at : Z }.

(** The token list of the stand-in for the contract call. *)
Definition mockAllowedTokens : list Token.t :=
  [ Token.mk "0x1234567890123456789012345678901234567890" "USDC";
    Token.mk "0xdAC17F958D2ee523a2206206994597C13D831ec7" "USDT";
    Token.mk "0x6033F7f88332B8db6ad452b7C6d5bb643990ae3f" "LSK";
    Token.mk "0x1f9840a85d5aF5bf1D1762F925BDADdC4201F984" "UNI" ].

(** [this.allowedTokensCache && this.cacheExpiry && Date.now() < this.cacheExpiry]:
    an array is truthy, a number is truthy unless it is zero. *)
Definition cache_hit (svc : t) (now : Z) : option (list Token.t) :=
  match allowedTokensCache svc, cacheExpiry svc with
  | Some cache, Some expiry =>
      if negb (expiry =? 0) && (now <? expiry) then Some cache else None
  | _, _ => None
  end.

Definition getAllowedTokens (svc : t) (clk : Clock)
  : Completion string (list Token.t) * t :=
  match cache_hit svc (checked_at clk) with
  | Some cache => (Return cache, svc)
  | None =>
      (Return mockAllowedTokens,
       mk (Some mockAllowedTokens) (Some (cached_at clk + CACHE_DURATION)))
  end.

(** [allowedTokens.some(token => token.address.toLowerCase() === tokenAddress.toLowerCase())] *)
Definition some_address (tokens : list Token.t) (tokenAddress : string)
  : bool :=
  List.existsb
    (fun token =>
       String.eqb (toLowerCase (Token.address token))
         (toLowerCase tokenAddress))
    tokens.

Definition isTokenAllowed (svc : t) (tokenAddress : string) (clk : Clock)
  : bool * t :=
  let (allowedTokens, svc') := getAllowedTokens svc clk in
  (try_catch
     (match allowedTokens with
      | Return tokens => Return (some_address tokens tokenAddress)
      | Throw e => Throw e
      end)
     (fun _ => false),
   svc').

(** [allowedTokens.find(...) || null] *)
Definition getTokenInfo (svc : t) (tokenAddress : string) (clk : Clock)
  : option Token.t * t :=
  let (allowedTokens, svc') := getAllowedTokens svc clk in
  (try_catch
     (match allowedTokens with
      | Return tokens =>
          Return
            (List.find
               (fun token =>
                  String.eqb (toLowerCase (Token.address token))
                    (toLowerCase tokenAddress))
               tokens)
      | Throw e => Throw e
      end)
     (fun _ => None),
   svc').

(** The [for (const rule of campaignData.rewardRules)] loop; [clock k] is
    the pair of readings of the [k]-th call of [isTokenAllowed]. *)
Fixpoint validateRewardTokens (svc : t) (rules : list RewardRule.t)
    (clock : nat -> Clock) (k : nat) : Result bool * t :=
  match rules with
  | [] => (Return true, svc)
  | rule :: rules' =>
      let address := Token.address (RewardRule.token rule) in
      let (rewardTokenValid, svc') := isTokenAllowed svc address (clock k) in
      if negb rewardTokenValid
      then (Throw (AppError.TokenNotAllowed AppError.RewardToken address), svc')
      else validateRewardTokens svc' rules' clock (S k)
  end.

(** The [catch] block logs and rethrows. *)
Definition validateCampaignTokens (svc : t) (budget : Budget.t)
    (rewardRules : list RewardRule.t) (clock : nat -> Clock)
  : Result bool * t :=
  let address := Token.address (Budget.token budget) in
  let (budgetTokenValid, svc') := isTokenAllowed svc address (clock 0%nat) in
  if negb budgetTokenValid
  then (Throw (AppError.TokenNotAllowed AppError.BudgetToken address), svc')
  else validateRewardTokens svc' rewardRules clock 1%nat.

End BlockchainService.

(* ================================================================== *)
(** ** controllers/campaignController.js *)

Module CampaignController.

(** *** createCampaign *)

Module CreateBody.
(** [req.body] of [POST /api/campaigns]; the two dates are the values of
    [new Date(startDate)] and [new Date(endDate)]. *)
Record t : Type := mk {
  title : string;
  description : option string;
  budget : Budget.t;
  rewardRules : list RewardRule.t;
  startDate : Z;
  endDate : Z;
  contentUrl : string
}.
End CreateBody.

(** The document [Campaign.create] builds: the given fields, the schema
    defaults, and an id and creation time chosen by the store. *)
Definition new_campaign (user : User.t) (body : CreateBody.t)
    (newId : ObjectId) (createdAt : Z) : Campaign.t :=
  Campaign.mk newId (User._id user) (CreateBody.title body)
    (CreateBody.description body) (CreateBody.budget body)
    (CreateBody.rewardRules body) Status.draft (CreateBody.startDate body)
    (CreateBody.endDate body) (CreateBody.contentUrl body) 0 [] createdAt.

Section CreateCampaign.

(** Mongoose's validation of a new document against [CampaignSchema]
    (lengths, patterns, minima); [Campaign.create] throws when it fails. *)
Variable schemaValid : Campaign.t -> bool.

Definition createCampaign (svc : BlockchainService.t) (db : Db.t)
    (user : User.t) (body : CreateBody.t)
    (clock : nat -> BlockchainService.Clock)
    (newId : ObjectId) (createdAt : Z)
  : Result Campaign.t * Db.t * BlockchainService.t :=
  if negb (Role.eqb (User.role user) Role.creator)
  then (Throw (AppError.Forbidden "Only creators can create campaigns"),
        db, svc)
  else
    let start := CreateBody.startDate body in
    let end_ := CreateBody.endDate body in
    if start >=? end_
    then (Throw AppError.ValidationError, db, svc)
    else
      match BlockchainService.validateCampaignTokens svc
              (CreateBody.budget body) (CreateBody.rewardRules body) clock
      with
      | (Throw e, svc') => (Throw e, db, svc')
      | (Return _, svc') =>
          let campaign := new_campaign user body newId createdAt in
          if negb (schemaValid campaign)
          then (Throw AppError.SchemaValidation, db, svc')
          else
            let db1 := Db.Campaign_create db campaign in
            let db2 :=
              Db.User_findByIdAndUpdate db1 (User._id user)
                (Db.push_campaignsCreated (Campaign._id campaign)) in
            (Return campaign, db2, svc')
      end.

End CreateCampaign.

(** *** getCampaigns *)

Module Query.
(** [req.query] of [GET /api/campaigns]: [page] and [limit] after
    [parseInt], the two dates after [new Date]. *)
Record t : Type := mk {
  status : option string;
  creator : option string;
  startDate : option Z;
  endDate : option Z;
  page : option Z;
  limit : option Z
}.
End Query.

Module Filter.
(** The filter object handed to [Campaign.find] and [countDocuments]. *)
Record t : Type := mk {
  status : option string;
  creatorId : option ObjectId;
  startDate_gte : option Z;
  startDate_lte : option Z
}.

Definition holds {A : Type} (c : option A) (p : A -> bool) : bool :=
  match c with
  | None => true
  | Some a => p a
  end.

Definition matches (f : t) (c : Campaign.t) : bool :=
  holds (status f) (String.eqb (Status.toString (Campaign.status c)))
  && holds (creatorId f) (N.eqb (Campaign.creatorId c))
  && holds (startDate_gte f) (fun d => d <=? Campaign.startDate c)
  && holds (startDate_lte f) (fun d => Campaign.startDate c <=? d).
End Filter.

(** A string in a condition is truthy unless it is empty. *)
Definition truthy (s : option string) : option string :=
  match s with
  | Some EmptyString => None
  | other => other
  end.

Definition buildFilter (db : Db.t) (q : Query.t) : Filter.t :=
  Filter.mk
    (truthy (Query.status q))
    (match truthy (Query.creator q) with
     | Some creator =>
         match Db.User_findOne_username db creator with
         | Some creatorUser => Some (User._id creatorUser)
         | None => None
         end
     | None => None
     end)
    (Query.startDate q)
    (Query.endDate q).

(** [.sort({ createdAt: -1 })]: newest first, documents with the same
    creation time in their stored order. *)
Fixpoint insert_desc (c : Campaign.t) (sorted : list Campaign.t)
  : list Campaign.t :=
  match sorted with
  | [] => [c]
  | d :: rest =>
      if Campaign.createdAt d <? Campaign.createdAt c
      then c :: d :: rest
      else d :: insert_desc c rest
  end.

Definition sort_desc (cs : list Campaign.t) : list Campaign.t :=
  List.fold_right insert_desc [] cs.

(** [.populate('creatorId', 'username walletAddress')] *)
Record Populated : Type := mkPopulated {
  doc : Campaign.t;
  creator : option (string * string)
}.

Definition populate (db : Db.t) (c : Campaign.t) : Populated :=
  mkPopulated c
    (option_map (fun u => (User.username u, User.walletAddress u))
       (Db.User_findById db (Campaign.creatorId c))).

(** [Math.ceil(total / limit)] for a count and a positive limit. *)
Definition ceil_div (total limit : Z) : Z := - ((- total) / limit).

Record Pagination : Type := mkPagination {
  pg_page : Z;
  pg_limit : Z;
  pg_total : Z;
  pg_pages : Z
}.

Record Listing : Type := mkListing {
  campaigns : list Populated;
  pagination : Pagination
}.

Definition getCampaigns (db : Db.t) (q : Query.t) : Listing :=
  let page := match Query.page q with Some p => p | None => 1 end in
  let limit := match Query.limit q with Some l => l | None => 10 end in
  let filter := buildFilter db q in
  let skip := (page - 1) * limit in
  let found := List.filter (Filter.matches filter) (Db.campaigns db) in
  let campaigns :=
    List.map (populate db)
      (List.firstn (Z.to_nat limit)
         (List.skipn (Z.to_nat skip) (sort_desc found))) in
  let total := Z.of_nat (List.length found) in
  mkListing campaigns (mkPagination page limit total (ceil_div total limit)).

(** *** participateInCampaign *)

(** The clock readings of one request, in program order: [now] for the
    date window, the verifier's two, and [verifiedAt] of the new action. *)
Record Clock : Type := mkClock {
  now : Z;
  verification_clock : VerificationService.Clock;
  verifiedAt : Z
}.

Record Participation : Type := mkParticipation {
  verification : VerificationService.VerificationResult;
  rewardEligible : bool;
  rewardAmount : Q;
  rewardToken : Token.t
}.

Definition is_action (action : string) (a : Action.t) : bool :=
  String.eqb (Action.actionType a) action.

Definition is_rule (action : string) (rule : RewardRule.t) : bool :=
  String.eqb (RewardRule.action rule) action.

Definition is_participant (user : User.t) (p : Participant.t) : bool :=
  (Participant.userId p =? User._id user)%N.

(** [participant.actions] through the reference [index]. *)
Definition actions_at (participants : list Participant.t) (index : nat)
  : list Action.t :=
  match List.nth_error participants index with
  | Some p => Participant.actions p
  | None => []
  end.

(** [participant.actions.push(a)] through the reference [index]. *)
Definition push_action (a : Action.t) (p : Participant.t) : Participant.t :=
  Participant.mk (Participant.userId p) (Participant.actions p ++ [a])%list.

(** [if (rewardRule.maxClaims) { if (count >= rewardRule.maxClaims) ... }]:
    an absent cap and the number 0 are both falsy. *)
Definition cap_reached (maxClaims : option N) (count : nat) : option N :=
  match maxClaims with
  | Some n =>
      if negb (n =? 0)%N && (n <=? N.of_nat count)%N then Some n else None
  | None => None
  end.

Definition participateInCampaign (db : Db.t) (user : User.t) (id : ObjectId)
    (action proof : string) (clk : Clock) : Result Participation * Db.t :=
  if negb (Role.eqb (User.role user) Role.fan)
  then (Throw (AppError.Forbidden "Only fans can participate in campaigns"),
        db)
  else
  match Db.Campaign_findById db id with
  | None => (Throw AppError.NotFound, db)
  | Some campaign =>
  if negb (Status.eqb (Campaign.status campaign) Status.active)
  then (Throw AppError.CampaignNotActive, db)
  else
  if (now clk <? Campaign.startDate campaign)
     || (now clk >? Campaign.endDate campaign)
  then (Throw AppError.OutsideDateWindow, db)
  else
  match List.find (is_rule action) (Campaign.rewardRules campaign) with
  | None => (Throw (AppError.ActionNotRewarded action), db)
  | Some rewardRule =>
  match VerificationService.verifyAction action
          (Campaign.contentUrl campaign) proof (User.walletAddress user)
          (verification_clock clk)
  with
  | Throw _ => (Throw (AppError.UnsupportedAction action), db)
  | Return (VerificationService.NotVerified _) =>
      (Throw AppError.VerificationFailed, db)
  | Return (VerificationService.Verified _ _ _ proofHash as verification) =>
      (* locate the participant, or push a new one and note it on the user *)
      let '(participants, index, db1) :=
        match findIndex (is_participant user) (Campaign.participants campaign)
        with
        | Some i => (Campaign.participants campaign, i, db)
        | None =>
            ((Campaign.participants campaign
                ++ [Participant.mk (User._id user) []])%list,
             List.length (Campaign.participants campaign),
             Db.User_findByIdAndUpdate db (User._id user)
               (Db.addToSet_campaignsParticipated (Campaign._id campaign)))
        end in
      let actionCount :=
        List.length (List.filter (is_action action)
                       (actions_at participants index)) in
      match cap_reached (RewardRule.maxClaims rewardRule) actionCount with
      | Some maxClaims => (Throw (AppError.MaxClaimsReached maxClaims action), db1)
      | None =>
          let participants' :=
            update_at index
              (push_action (Action.mk action (verifiedAt clk) proofHash))
              participants in
          let db2 :=
            Db.Campaign_save db1
              (Campaign.with_participants campaign participants') in
          (Return (mkParticipation verification true
                     (RewardRule.rewardAmount rewardRule)
                     (RewardRule.token rewardRule)),
           db2)
      end
  end
  end
  end.

End CampaignController.

(* ================================================================== *)
(** ** controllers/rewardController.js *)

Module RewardController.

(** The clock readings of one claim, in program order: [now] for the date
    window, the verifier's two, and [claimedAt] of the new entry. *)
Record Clock : Type := mkClock {
  now : Z;
  verification_clock : VerificationService.Clock;
  claimedAt : Z
}.

(** The [reward] object of the response. *)
Record Claimed : Type := mkClaimed {
  campaignId : ObjectId;
  campaignTitle : string;
  action : string;
  amount : Q;
  token : Token.t;
  claimed_at : Z
}.

(** [a.actionType === action && a.proof === verification.proofHash] *)
Definition is_verified_action (action proofHash : string) (a : Action.t)
  : bool :=
  String.eqb (Action.actionType a) action
  && String.eqb (Action.proof a) proofHash.

(** [reward.campaignId.toString() === campaignId &&
     reward.token.address === rewardRule.token.address] *)
Definition is_claim_of (campaignId : ObjectId) (rule : RewardRule.t)
    (reward : RewardEntry.t) : bool :=
  (RewardEntry.campaignId reward =? campaignId)%N
  && String.eqb (Token.address (RewardEntry.token reward))
       (Token.address (RewardRule.token rule)).

(** The number the cap is compared with. *)
Definition claimedCount (campaignId : ObjectId) (rule : RewardRule.t)
    (rewardsEarned : list RewardEntry.t) : nat :=
  List.length (List.filter (is_claim_of campaignId rule) rewardsEarned).

Definition claimReward (db : Db.t) (user : User.t) (campaignId : ObjectId)
    (action proof : string) (clk : Clock) : Result Claimed * Db.t :=
  if negb (Role.eqb (User.role user) Role.fan)
  then (Throw (AppError.Forbidden "Only fans can claim rewards"), db)
  else
  match Db.Campaign_findById db campaignId with
  | None => (Throw AppError.NotFound, db)
  | Some campaign =>
  if negb (Status.eqb (Campaign.status campaign) Status.active)
  then (Throw AppError.CampaignNotActive, db)
  else
  if (now clk <? Campaign.startDate campaign)
     || (now clk >? Campaign.endDate campaign)
  then (Throw AppError.OutsideDateWindow, db)
  else
  match List.find (CampaignController.is_rule action)
          (Campaign.rewardRules campaign)
  with
  | None => (Throw (AppError.ActionNotRewarded action), db)
  | Some rewardRule =>
  match VerificationService.verifyAction action
          (Campaign.contentUrl campaign) proof (User.walletAddress user)
          (verification_clock clk)
  with
  | Throw _ => (Throw (AppError.UnsupportedAction action), db)
  | Return (VerificationService.NotVerified _) =>
      (Throw AppError.VerificationFailed, db)
  | Return (VerificationService.Verified _ _ _ proofHash) =>
  match List.find (CampaignController.is_participant user)
          (Campaign.participants campaign)
  with
  | None => (Throw AppError.NotParticipated, db)
  | Some participant =>
  if negb (List.existsb (is_verified_action action proofHash)
             (Participant.actions participant))
  then (Throw AppError.ActionNotVerified, db)
  else
    (* [existingReward] is computed by the source and never read *)
    match CampaignController.cap_reached (RewardRule.maxClaims rewardRule)
            (claimedCount campaignId rewardRule (User.rewardsEarned user))
    with
    | Some maxClaims => (Throw (AppError.MaxRewardsClaimed maxClaims), db)
    | None =>
        let reward :=
          RewardEntry.mk (Campaign._id campaign)
            (RewardRule.rewardAmount rewardRule)
            (Token.mk (Token.address (RewardRule.token rewardRule))
               (Token.name (RewardRule.token rewardRule)))
            (claimedAt clk) in
        let db1 :=
          Db.User_findByIdAndUpdate db (User._id user)
            (Db.push_rewardsEarned reward) in
        (Return (mkClaimed (Campaign._id campaign) (Campaign.title campaign)
                   action (RewardRule.rewardAmount rewardRule)
                   (RewardRule.token rewardRule) (claimedAt clk)),
         db1)
    end
  end
  end
  end
  end.

End RewardController.

(* ================================================================== *)
(** ** Scenario data, after tests/integration/rewards.test.js *)

Module Scenario.

Definition USDC : Token.t :=
  Token.mk "0x1234567890123456789012345678901234567890" "USDC".

Definition creatorUser : User.t :=
  User.mk 1%N "0x1234567890123456789012345678901234567890" "testcreator"
    Role.creator [] [] [].

(** The fan, with the rewards already in the ledger. *)
Definition fanWith (rewardsEarned : list RewardEntry.t) : User.t :=
  User.mk 2%N "0x742d35cc6634c0532925a3b8d4c0532925a3b8d4" "testfan"
    Role.fan [] [10%N] rewardsEarned.

(** The fan before any participation. *)
Definition fanUser : User.t :=
  User.mk 2%N "0x742d35cc6634c0532925a3b8d4c0532925a3b8d4" "testfan"
    Role.fan [] [] [].

Definition streamRule (maxClaims : option N) : RewardRule.t :=
  RewardRule.mk "stream" (1 # 2) USDC maxClaims.

Definition shareRule (maxClaims : option N) : RewardRule.t :=
  RewardRule.mk "share" (1 # 2) USDC maxClaims.

(** 2025-01-01 and 2025-12-31, in milliseconds. *)
Definition startDate : Z := 1735689600000.
Definition endDate : Z := 1767139200000.

Definition testCampaign (rules : list RewardRule.t)
    (participants : list Participant.t) : Campaign.t :=
  Campaign.mk 10%N 1%N "Test Campaign" (Some "Test description")
    (Budget.mk 1000 USDC) rules Status.active startDate endDate
    "https://open.spotify.com/track/example" 0 participants 1735000000000.

Definition db_of (rules : list RewardRule.t)
    (participants : list Participant.t) (fan : User.t) : Db.t :=
  Db.mk [testCampaign rules participants] [creatorUser; fan].

Definition db (rules : list RewardRule.t) (participants : list Participant.t)
  : Db.t :=
  db_of rules participants fanUser.

(** A request served within the millisecond [t]. *)
Definition participate_at (t : Z) : CampaignController.Clock :=
  CampaignController.mkClock t (VerificationService.mkClock t t) t.

Definition claim_at (t : Z) : RewardController.Clock :=
  RewardController.mkClock t (VerificationService.mkClock t t) t.

(** 2025-06-01T00:00:00Z, then one and two seconds later. *)
Definition t1 : Z := 1748736000000.
Definition t2 : Z := 1748736001000.
Definition t3 : Z := 1748736002000.

(** The proof of the claim test and the fingerprint that test stores. *)
Definition proofData : string := "spotify_stream_proof_data_67890".
Definition storedProof : string := "c3BvdGlmeV9zdHJlYW1fcHJvb2ZfZGF0".

(** The participation the claim tests start from. *)
Definition streamed : Participant.t :=
  Participant.mk 2%N [Action.mk "stream" t1 storedProof].

(** A reward of the test campaign, paid in USDC. *)
Definition reward (t : Z) : RewardEntry.t := RewardEntry.mk 10%N (1 # 2) USDC t.

(** Three campaigns, the oldest of them a draft. *)
Definition campaignAt (id : ObjectId) (status : Status.t) (createdAt : Z)
  : Campaign.t :=
  Campaign.mk id 1%N "Listed" None (Budget.mk 1000 USDC) [streamRule None]
    status startDate endDate "https://youtu.be/example" 0 [] createdAt.

Definition listed : Db.t :=
  Db.mk [campaignAt 20%N Status.draft 100; campaignAt 21%N Status.active 200;
         campaignAt 22%N Status.active 300]
    [creatorUser; fanUser].

(** A campaign request whose budget token is not on the allowlist. *)
Definition unlisted : Token.t :=
  Token.mk "0x9999999999999999999999999999999999999999" "INVALID".

Definition unlistedBody : CampaignController.CreateBody.t :=
  CampaignController.CreateBody.mk "Test Campaign" None
    (Budget.mk 1000 unlisted) [RewardRule.mk "stream" (1 # 2) unlisted None]
    startDate endDate "https://open.spotify.com/track/example".

End Scenario.

(* ================================================================== *)
(** * Observations on the store and on results

    What the statements below read off a store or a result; none of it is
    part of the program. *)

Open Scope list_scope.

(** ** Outcomes of a request *)

Section Outcomes.

(** Which error a completion carries, if any. *)
Definition throws {A : Type} (kind : AppError.t -> bool) (r : Result A)
  : bool :=
  match r with
  | Return _ => false
  | Throw e => kind e
  end.

Definition granted {A : Type} (r : Result A) : bool :=
  match r with
  | Return _ => true
  | Throw _ => false
  end.

Definition is_VerificationFailed (e : AppError.t) : bool :=
  match e with
  | AppError.VerificationFailed => true
  | _ => false
  end.

Definition is_MaxClaimsReached (e : AppError.t) : bool :=
  match e with
  | AppError.MaxClaimsReached _ _ => true
  | _ => false
  end.

End Outcomes.

Section VerifierDefinitions.

Import VerificationService.

(** The five action kinds [verifyAction] dispatches on. *)
Definition recognized (action : string) : bool :=
  List.existsb (String.eqb action)
    ["stream"; "share"; "comment"; "like"; "follow"].

End VerifierDefinitions.

Section ParticipationDefinitions.

Import CampaignController.

(** What the store holds for a campaign and for a fan on it. *)
Definition participants_of (db : Db.t) (id : ObjectId) : list Participant.t :=
  match Db.Campaign_findById db id with
  | Some c => Campaign.participants c
  | None => []
  end.

Definition entry_of (db : Db.t) (id : ObjectId) (user : User.t)
  : option Participant.t :=
  List.find (is_participant user) (participants_of db id).

Definition actions_of (db : Db.t) (id : ObjectId) (user : User.t)
  : list Action.t :=
  match entry_of db id user with
  | Some p => Participant.actions p
  | None => []
  end.

(** The number of recorded actions of one kind. *)
Definition count_of (action : string) (actions : list Action.t) : nat :=
  List.length (List.filter (is_action action) actions).

(** The campaign as far as the preconditions read it. *)
Definition same_terms (c c' : Campaign.t) : Prop :=
  Campaign._id c' = Campaign._id c
  /\ Campaign.rewardRules c' = Campaign.rewardRules c
  /\ Campaign.status c' = Campaign.status c
  /\ Campaign.startDate c' = Campaign.startDate c
  /\ Campaign.endDate c' = Campaign.endDate c
  /\ Campaign.contentUrl c' = Campaign.contentUrl c.

Definition in_window (c : Campaign.t) (t : Z) : Prop :=
  Campaign.startDate c <= t <= Campaign.endDate c.


End ParticipationDefinitions.

Section LedgerDefinitions.

Import RewardController.

(** The ledger the store holds for a user. *)
Definition ledger_of (db : Db.t) (uid : ObjectId) : list RewardEntry.t :=
  match Db.User_findById db uid with
  | Some u => User.rewardsEarned u
  | None => []
  end.

(** The entry a successful claim of [rule] on [campaign] appends. *)
Definition entry_for (campaign : Campaign.t) (rule : RewardRule.t) (t : Z)
  : RewardEntry.t :=
  RewardEntry.mk (Campaign._id campaign) (RewardRule.rewardAmount rule)
    (Token.mk (Token.address (RewardRule.token rule))
       (Token.name (RewardRule.token rule)))
    t.

(** The fingerprint the verifier computes for a request. *)
Definition fingerprint (action contentUrl proof wallet : string)
    (clk : VerificationService.Clock) : option string :=
  match VerificationService.verifyAction action contentUrl proof wallet clk
  with
  | Return r => VerificationService.proofHash r
  | Throw _ => None
  end.

(** The checks of [claimReward] that come before the cap: a fan, an
    active campaign inside its window, and a recorded action of the kind
    whose stored fingerprint is the one computed now. *)
Definition claim_ready (db : Db.t) (user : User.t) (campaign : Campaign.t)
    (action proof : string) (clk : Clock) : Prop :=
  User.role user = Role.fan
  /\ Campaign.status campaign = Status.active
  /\ in_window campaign (now clk)
  /\ exists p h,
       entry_of db (Campaign._id campaign) user = Some p
       /\ fingerprint action (Campaign.contentUrl campaign) proof
            (User.walletAddress user) (verification_clock clk) = Some h
       /\ List.existsb (is_verified_action action h)
            (Participant.actions p) = true.

End LedgerDefinitions.

Section AllowlistDefinitions.

Import BlockchainService.

(** The allowlist itself: membership in the contract's token list, by
    address and without regard to case. *)
Definition allowed (address : string) : bool :=
  some_address mockAllowedTokens address.

(** The states the singleton goes through: the cache is empty or holds
    the contract's list. *)
Definition cache_ok (svc : t) : Prop :=
  match allowedTokensCache svc with
  | Some cache => cache = mockAllowedTokens
  | None => True
  end.

(** The first token of a campaign that the allowlist lacks: the budget
    token, or else the first such token among the reward rules. *)
Definition rule_address (rule : RewardRule.t) : string :=
  Token.address (RewardRule.token rule).

Definition first_offender (budget : Budget.t) (rules : list RewardRule.t)
  : option (AppError.TokenUse * string) :=
  if negb (allowed (Token.address (Budget.token budget)))
  then Some (AppError.BudgetToken, Token.address (Budget.token budget))
  else
    option_map (fun rule => (AppError.RewardToken, rule_address rule))
      (List.find (fun rule => negb (allowed (rule_address rule))) rules).

Definition verdict (offender : option (AppError.TokenUse * string))
  : Result bool :=
  match offender with
  | Some (use, address) => Throw (AppError.TokenNotAllowed use address)
  | None => Return true
  end.

End AllowlistDefinitions.

Section ListingDefinitions.

Import CampaignController.

(** Newest first. *)
Definition newer_or_same (c d : Campaign.t) : Prop :=
  Campaign.createdAt d <= Campaign.createdAt c.

Definition is_active (c : Campaign.t) : bool :=
  Status.eqb (Campaign.status c) Status.active.

(** The query [{status: "active"}] with a page and a limit. *)
Definition active_query (page limit : Z) : Query.t :=
  Query.mk (Some "active"%string) None None None (Some page) (Some limit).

End ListingDefinitions.

(* ================================================================== *)
(** * Further observations *)

Section FingerprintDefinitions.

(** The (action, platform) pairs that have a verifier of their own; every
    other pair of a recognised action goes to [mockVerification]. *)
Definition dedicated (action platform : string) : bool :=
  List.existsb
    (fun pair => String.eqb action (fst pair) && String.eqb platform (snd pair))
    [("stream", "spotify"); ("stream", "youtube"); ("share", "twitter");
     ("follow", "twitter"); ("follow", "spotify"); ("like", "youtube");
     ("comment", "youtube")]%string.

(** The string a verification hashes: the proof, or the stand-in of
    [mockVerification]. *)
Definition hashed (action platform proof : string) : string :=
  if dedicated action platform then proof
  else ("mock-" ++ action ++ "-" ++ platform)%string.

(** The platform names [getPlatformFromUrl] can answer. *)
Definition platforms : list string :=
  ["spotify"; "youtube"; "twitter"; "instagram"; "unknown"]%string.

End FingerprintDefinitions.

(** ** Further scenario data *)

Module Examples.



End Examples.

Section ParticipationFrameDefinitions.

Import CampaignController.

(** The array and the reference a request works on, and the store after
    the note on the user's side, as [participateInCampaign] computes them. *)
Definition roster (user : User.t) (campaign : Campaign.t)
  : list Participant.t :=
  match findIndex (is_participant user) (Campaign.participants campaign) with
  | Some _ => Campaign.participants campaign
  | None =>
      Campaign.participants campaign ++ [Participant.mk (User._id user) []]
  end.

Definition position (user : User.t) (campaign : Campaign.t) : nat :=
  match findIndex (is_participant user) (Campaign.participants campaign) with
  | Some i => i
  | None => List.length (Campaign.participants campaign)
  end.

Definition noted (db : Db.t) (user : User.t) (campaign : Campaign.t) : Db.t :=
  match findIndex (is_participant user) (Campaign.participants campaign) with
  | Some _ => db
  | None =>
      Db.User_findByIdAndUpdate db (User._id user)
        (Db.addToSet_campaignsParticipated (Campaign._id campaign))
  end.

(** Every recorded action is of a kind that some reward rule of the
    campaign names. *)
Definition kinds_rewarded (c : Campaign.t) : bool :=
  List.forallb
    (fun p =>
       List.forallb
         (fun a => List.existsb (is_rule (Action.actionType a))
                     (Campaign.rewardRules c))
         (Participant.actions p))
    (Campaign.participants c).

(** The campaigns a stored user is noted to take part in. *)
Definition participated_of (db : Db.t) (uid : ObjectId) : list ObjectId :=
  match Db.User_findById db uid with
  | Some u => User.campaignsParticipated u
  | None => []
  end.

End ParticipationFrameDefinitions.

Section PagingDefinitions.

Import CampaignController.

(** The same query for another page. *)
Definition with_page (q : Query.t) (page : Z) : Query.t :=
  Query.mk (Query.status q) (Query.creator q) (Query.startDate q)
    (Query.endDate q) (Some page) (Query.limit q).

(** The campaigns on one page of a query's answer. *)
Definition page_docs (db : Db.t) (q : Query.t) (page : Z)
  : list Campaign.t :=
  List.map doc (campaigns (getCampaigns db (with_page q page))).

(** The stored campaigns that satisfy a query's filter. *)
Definition matching (db : Db.t) (q : Query.t) : list Campaign.t :=
  List.filter (Filter.matches (buildFilter db q)) (Db.campaigns db).

(** [limit = 10] unless the query gives one. *)
Definition limit_of (q : Query.t) : Z :=
  match Query.limit q with Some l => l | None => 10 end.

(** The page numbers [1 .. pages]. *)
Definition page_numbers (pages : Z) : list Z :=
  List.map Z.of_nat (List.seq 1 (Z.to_nat pages)).

End PagingDefinitions.

(* ================================================================== *)
(** * The other handlers *)

(** The failures of the handlers below, and the status code
    [errorHandler] answers each with. *)
Module Refusal.

Inductive t : Type :=
| CampaignNotFound         (* 'Campaign not found' *)
| UserNotFound             (* 'User not found' *)
| NotCampaignCreator       (* 'Only campaign creator can update campaign' *)
| ValidationFailed         (* a Mongoose [ValidationError] *)
| WalletRequired           (* 'Wallet address is required' *)
| InvalidWalletFormat      (* 'Invalid wallet address format' *)
| AuthenticationRequired   (* 'Authentication required' *)
| RoleNotAuthorized (role : Role.t)
                           (* 'Role <role> is not authorized to access
                              this resource' *)
| NullDereference.         (* a [TypeError]: a property of [null] is read *)

(** [error.statusCode || 500] *)
Definition statusCode (e : t) : Z :=
  match e with
  | CampaignNotFound | UserNotFound => 404
  | NotCampaignCreator | RoleNotAuthorized _ => 403
  | WalletRequired | AuthenticationRequired => 401
  | ValidationFailed | InvalidWalletFormat => 400
  | NullDereference => 500
  end.

End Refusal.

(** ** getCampaignById and updateCampaign *)

Module CampaignDetails.

Definition Answer (A : Type) : Type := Completion Refusal.t A.

(** [getCampaignTVL]: [draw] is the value of
    [Math.floor(Math.random() * 10000)]; nothing in the [try] block
    throws. *)
Definition getCampaignTVL (draw : Z) : Z := draw + 1000.

Definition with_totalTVL (c : Campaign.t) (tvl : Z) : Campaign.t :=
  Campaign.mk (Campaign._id c) (Campaign.creatorId c) (Campaign.title c)
    (Campaign.description c) (Campaign.budget c) (Campaign.rewardRules c)
    (Campaign.status c) (Campaign.startDate c) (Campaign.endDate c)
    (Campaign.contentUrl c) tvl (Campaign.participants c)
    (Campaign.createdAt c).

(** [.populate(path, 'username walletAddress')] of one reference. *)
Definition selected (db : Db.t) (id : ObjectId) : option (string * string) :=
  option_map (fun u => (User.username u, User.walletAddress u))
    (Db.User_findById db id).

(** The campaign with [creatorId] and [participants.userId] populated. *)
Record Detailed : Type := mkDetailed {
  doc : Campaign.t;
  creator : option (string * string);
  participantUsers : list (option (string * string))
}.

Definition detailed (db : Db.t) (c : Campaign.t) : Detailed :=
  mkDetailed c (selected db (Campaign.creatorId c))
    (List.map (fun p => selected db (Participant.userId p))
       (Campaign.participants c)).

Section Validation.

(** Mongoose's validation of the populated document in [campaign.save()];
    [save] throws when it fails. *)
Variable saveValid : Detailed -> bool.

Definition getCampaignById (db : Db.t) (id : ObjectId) (draw : Z)
  : Answer Detailed * Db.t :=
  match Db.Campaign_findById db id with
  | None => (Throw Refusal.CampaignNotFound, db)
  | Some campaign =>
      let tvl := getCampaignTVL draw in
      let campaign' := with_totalTVL campaign tvl in
      if negb (saveValid (detailed db campaign'))
      then (Throw Refusal.ValidationFailed, db)
      else (Return (detailed db campaign'), Db.Campaign_save db campaign')
  end.

(** [req.body] of [PUT /api/campaigns/:id]: the two fields the handler
    reads, each absent or a string. *)
Record UpdateBody : Type := mkUpdateBody {
  status : option string;
  description : option string
}.

(** The [enum] of [status] in [CampaignSchema]. *)
Definition statusOfString (s : string) : option Status.t :=
  if String.eqb s "draft" then Some Status.draft
  else if String.eqb s "active" then Some Status.active
  else if String.eqb s "completed" then Some Status.completed
  else if String.eqb s "paused" then Some Status.paused
  else None.

(** What the schema does to a description in an update: the setter
    ([trim]) applied when the update is cast, and the validator
    ([maxlength: 1000]) run on the result. *)
Variable castDescription : string -> string.
Variable descriptionValid : string -> bool.

Definition with_status (c : Campaign.t) (s : Status.t) : Campaign.t :=
  Campaign.mk (Campaign._id c) (Campaign.creatorId c) (Campaign.title c)
    (Campaign.description c) (Campaign.budget c) (Campaign.rewardRules c)
    s (Campaign.startDate c) (Campaign.endDate c) (Campaign.contentUrl c)
    (Campaign.totalTVL c) (Campaign.participants c) (Campaign.createdAt c).

Definition with_description (c : Campaign.t) (d : string) : Campaign.t :=
  Campaign.mk (Campaign._id c) (Campaign.creatorId c) (Campaign.title c)
    (Some d) (Campaign.budget c) (Campaign.rewardRules c)
    (Campaign.status c) (Campaign.startDate c) (Campaign.endDate c)
    (Campaign.contentUrl c) (Campaign.totalTVL c) (Campaign.participants c)
    (Campaign.createdAt c).

(** [updateData] after casting and validation ([runValidators: true]):
    the update to apply, or nothing when a validator fails. *)
Definition castUpdate (body : UpdateBody)
  : option (Campaign.t -> Campaign.t) :=
  match
    match CampaignController.truthy (status body) with
    | Some s => option_map (fun st c => with_status c st) (statusOfString s)
    | None => Some (fun c => c)
    end
  with
  | None => None
  | Some setStatus =>
      match description body with
      | Some d =>
          if descriptionValid (castDescription d)
          then Some (fun c =>
                       with_description (setStatus c) (castDescription d))
          else None
      | None => Some setStatus
      end
  end.

(** [Campaign.findByIdAndUpdate(id, update, { new: true })] *)
Definition Campaign_findByIdAndUpdate (db : Db.t) (id : ObjectId)
    (update : Campaign.t -> Campaign.t) : Db.t :=
  Db.mk (Db.update_first (Db.is_campaign id) update (Db.campaigns db))
    (Db.users db).

Definition updateCampaign (db : Db.t) (user : User.t) (id : ObjectId)
    (body : UpdateBody) : Answer CampaignController.Populated * Db.t :=
  match Db.Campaign_findById db id with
  | None => (Throw Refusal.CampaignNotFound, db)
  | Some campaign =>
      if negb (Campaign.creatorId campaign =? User._id user)%N
      then (Throw Refusal.NotCampaignCreator, db)
      else
        match castUpdate body with
        | None => (Throw Refusal.ValidationFailed, db)
        | Some update =>
            let db1 := Campaign_findByIdAndUpdate db id update in
            match Db.Campaign_findById db1 id with
            | None => (Throw Refusal.NullDereference, db1)
            | Some updatedCampaign =>
                (Return (CampaignController.populate db1 updatedCampaign),
                 db1)
            end
        end
  end.

End Validation.

End CampaignDetails.

(** ** getUserRewards and getCampaignRewardStats *)

Module RewardReports.

Definition Answer (A : Type) : Type := Completion Refusal.t A.

(** [Array.prototype.slice(start, end)] *)
Definition slice {A : Type} (xs : list A) (start end_ : Z) : list A :=
  let len := Z.of_nat (List.length xs) in
  let k := if start <? 0 then Z.max (len + start) 0 else Z.min start len in
  let final := if end_ <? 0 then Z.max (len + end_) 0 else Z.min end_ len in
  List.firstn (Z.to_nat (final - k)) (List.skipn (Z.to_nat k) xs).

(** [.sort((a, b) => new Date(b.claimedAt) - new Date(a.claimedAt))]: the
    sort is stable, so [r], which comes before the rewards already placed,
    goes in front of the first of them that is not newer. *)
Fixpoint insert_newest (r : RewardEntry.t) (sorted : list RewardEntry.t)
  : list RewardEntry.t :=
  match sorted with
  | [] => [r]
  | s :: rest =>
      if RewardEntry.claimedAt r <? RewardEntry.claimedAt s
      then s :: insert_newest r rest
      else r :: s :: rest
  end.

Definition sort_newest (rs : list RewardEntry.t) : list RewardEntry.t :=
  List.fold_right insert_newest [] rs.

(** One group of a tally: [{ token, totalAmount, claimCount }]. *)
Record TokenTotal : Type := mkTokenTotal {
  token : Token.t;
  totalAmount : Q;
  claimCount : Z
}.

(** A reward with [campaignId] populated: the campaign's title and its
    creator's username. *)
Record Earned : Type := mkEarned {
  entry : RewardEntry.t;
  campaign : option (string * option string)
}.

Definition populateReward (db : Db.t) (r : RewardEntry.t) : Earned :=
  mkEarned r
    (option_map
       (fun c =>
          (Campaign.title c,
           option_map User.username
             (Db.User_findById db (Campaign.creatorId c))))
       (Db.Campaign_findById db (RewardEntry.campaignId r))).

Record UserRewards : Type := mkUserRewards {
  user : string * string;
  rewards : list Earned;
  summary : list TokenTotal;
  pagination : CampaignController.Pagination
}.


(** [`${reward.token.address}-${reward.token.name}`] *)
Definition tokenKey (r : RewardEntry.t) : string :=
  Token.address (RewardEntry.token r) ++ "-"
  ++ Token.name (RewardEntry.token r).



Section Numbers.

(** [+] on two JavaScript numbers. *)
Variable number_add : Q -> Q -> Q.

(** One step of a tally: the group of [key] is created if there is none,
    then gains the reward.  The groups are kept in the order their keys
    were added, which is the order of [Object.values]. *)
Fixpoint tallyUp (key : string) (r : RewardEntry.t)
    (groups : list (string * TokenTotal)) : list (string * TokenTotal) :=
  match groups with
  | [] =>
      [(key,
        mkTokenTotal (RewardEntry.token r)
          (number_add 0 (RewardEntry.amount r)) (0 + 1))]
  | (k, g) :: rest =>
      if String.eqb k key
      then (k,
            mkTokenTotal (token g)
              (number_add (totalAmount g) (RewardEntry.amount r))
              (claimCount g + 1)) :: rest
      else (k, g) :: tallyUp key r rest
  end.

Definition tally (keyOf : RewardEntry.t -> string)
    (rs : list RewardEntry.t) : list (string * TokenTotal) :=
  List.fold_left (fun groups r => tallyUp (keyOf r) r groups) rs [].

(** [User.findOne({ walletAddress: walletAddress.toLowerCase() })] *)
Definition User_findOne_wallet (db : Db.t) (walletAddress : string)
  : option User.t :=
  List.find
    (fun u => String.eqb (User.walletAddress u) (toLowerCase walletAddress))
    (Db.users db).

Definition getUserRewards (db : Db.t) (walletAddress : string)
    (page limit : option Z) : Answer UserRewards :=
  let page := match page with Some p => p | None => 1 end in
  let limit := match limit with Some l => l | None => 10 end in
  match User_findOne_wallet db walletAddress with
  | None => Throw Refusal.UserNotFound
  | Some user =>
      let skip := (page - 1) * limit in
      let totalRewards := Z.of_nat (List.length (User.rewardsEarned user)) in
      (* the sort is in place: the tally below reads the sorted array *)
      let rewardsEarned := sort_newest (User.rewardsEarned user) in
      let paginatedRewards := slice rewardsEarned skip (skip + limit) in
      let rewardsSummary := tally tokenKey rewardsEarned in
      Return
        (mkUserRewards (User.walletAddress user, User.username user)
           (List.map (populateReward db) paginatedRewards)
           (List.map snd rewardsSummary)
           (CampaignController.mkPagination page limit totalRewards
              (CampaignController.ceil_div totalRewards limit)))
  end.






End Numbers.

End RewardReports.

(** ** middleware/auth.js *)

Module Auth.

Definition Answer (A : Type) : Type := Completion Refusal.t A.

(** [[a-fA-F0-9]] *)
Definition is_hex (c : ascii) : bool :=
  let n := N_of_ascii c in
  ((48 <=? n) && (n <=? 57) || (65 <=? n) && (n <=? 70)
   || (97 <=? n) && (n <=? 102))%N.

Fixpoint all_hex (s : string) : bool :=
  match s with
  | EmptyString => true
  | String c s' => is_hex c && all_hex s'
  end.

(** [/^0x[a-fA-F0-9]{40}$/.test(walletAddress)] *)
Definition wallet_format (walletAddress : string) : bool :=
  match walletAddress with
  | String "0" (String "x" digits) =>
      (String.length digits =? 40)%nat && all_hex digits
  | _ => false
  end.

(** [authenticate]: the header [x-wallet-address], absent or a string; the
    answer is the user put in [req.user]. *)
Definition authenticate (db : Db.t) (header : option string)
  : Answer User.t :=
  match CampaignController.truthy header with
  | None => Throw Refusal.WalletRequired
  | Some walletAddress =>
      if negb (wallet_format walletAddress)
      then Throw Refusal.InvalidWalletFormat
      else
        match RewardReports.User_findOne_wallet db walletAddress with
        | None => Throw Refusal.UserNotFound
        | Some user => Return user
        end
  end.

(** [authorize(...roles)], applied to [req.user]. *)
Definition authorize (roles : list Role.t) (reqUser : option User.t)
  : Answer unit :=
  match reqUser with
  | None => Throw Refusal.AuthenticationRequired
  | Some user =>
      if negb (List.existsb (Role.eqb (User.role user)) roles)
      then Throw (Refusal.RoleNotAuthorized (User.role user))
      else Return tt
  end.

(** [authenticate, authorize(...roles)], the head of every protected
    route: the second handler runs when the first has called [next()]
    without an error. *)
Definition protect (roles : list Role.t) (db : Db.t)
    (header : option string) : Answer User.t :=
  match authenticate db header with
  | Throw e => Throw e
  | Return user =>
      match authorize roles (Some user) with
      | Throw e => Throw e
      | Return _ => Return user
      end
  end.

End Auth.

(** ** connectDB *)

Module Database.

Inductive Outcome : Type :=
| Connected            (* [mongoose.connect] resolved: [return] *)
| Exited (code : Z)    (* [process.exit(code)] *)
| LoopLeft.            (* the [while] condition failed *)

Record Run : Type := mkRun {
  outcome : Outcome;
  attempts : nat;
  waits : list Z
}.

Definition maxRetries : nat := 5.

(** The [while] loop from the state [retries], with the waits so far;
    [connect i] tells whether the call of [mongoose.connect] made when
    [retries] is [i] resolves.  No answer when the fuel runs out. *)
Fixpoint retry (fuel : nat) (connect : nat -> bool) (retries : nat)
    (waits : list Z) : option Run :=
  match fuel with
  | O => None
  | S fuel' =>
      if (retries <? maxRetries)%nat
      then
        if connect retries
        then Some (mkRun Connected (S retries) waits)
        else
          let retries' := S retries in
          if (retries' =? maxRetries)%nat
          then Some (mkRun (Exited 1) retries' waits)
          else
            retry fuel' connect retries'
              (waits ++ [2 ^ Z.of_nat retries' * 1000])
      else Some (mkRun LoopLeft retries waits)
  end.

Definition connectDB (fuel : nat) (connect : nat -> bool) : option Run :=
  retry fuel connect 0 [].

End Database.

Section UpdateDefinitions.

(** Two documents that differ in status and description at most. *)
Definition same_but_status_description (c c' : Campaign.t) : Prop :=
  Campaign._id c' = Campaign._id c
  /\ Campaign.creatorId c' = Campaign.creatorId c
  /\ Campaign.title c' = Campaign.title c
  /\ Campaign.budget c' = Campaign.budget c
  /\ Campaign.rewardRules c' = Campaign.rewardRules c
  /\ Campaign.startDate c' = Campaign.startDate c
  /\ Campaign.endDate c' = Campaign.endDate c
  /\ Campaign.contentUrl c' = Campaign.contentUrl c
  /\ Campaign.totalTVL c' = Campaign.totalTVL c
  /\ Campaign.participants c' = Campaign.participants c
  /\ Campaign.createdAt c' = Campaign.createdAt c.

End UpdateDefinitions.

Section ReportDefinitions.

Import RewardReports.




Definition sum_claimCount (groups : list TokenTotal) : Z :=
  List.fold_right (fun g n => claimCount g + n) 0 groups.



(** The claim count of the group of [key], with 0 when there is none. *)
Definition claimCount_at (key : string) (groups : list (string * TokenTotal))
  : Z :=
  match List.find (fun kg => String.eqb (fst kg) key) groups with
  | Some kg => claimCount (snd kg)
  | None => 0
  end.

(** Newest first. *)
Definition not_older (r s : RewardEntry.t) : Prop :=
  RewardEntry.claimedAt s <= RewardEntry.claimedAt r.

(** The groups of a user's summary, with their keys. *)
Definition summary_groups (number_add : Q -> Q -> Q) (u : User.t)
  : list (string * TokenTotal) :=
  tally number_add tokenKey (sort_newest (User.rewardsEarned u)).

End ReportDefinitions.

Section StartupDefinitions.

(** The first of the calls [0 .. n-1] of [connect] that resolves. *)
Definition first_success (connect : nat -> bool) (n : nat) : option nat :=
  List.find connect (List.seq 0 n).

(** The waits before the call number [k]: [2^1 .. 2^k] seconds. *)
Definition backoff (k : nat) : list Z :=
  List.map (fun i => 2 ^ Z.of_nat i * 1000) (List.seq 1 k).

Definition total_wait (waits : list Z) : Z :=
  List.fold_right Z.add 0 waits.

End StartupDefinitions.

(* ================================================================== *)
(** * Properties *)

Ltac splits := repeat match goal with |- _ /\ _ => split end.

(** ** The proof fingerprint *)

Section ProofHash.

Import VerificationService.




End ProofHash.

(** ** The verifier *)

Section Verifier.

Import VerificationService.

Lemma platformVerification_verified (p a proof : string) (clk : Clock) :
  exists r, platformVerification p a proof clk = Return r
            /\ verified r = true.
Proof. eexists; split; reflexivity. Qed.

Lemma mockVerification_verified (a p : string) (clk : Clock) :
  exists r, mockVerification a p clk = Return r /\ verified r = true.
Proof. eexists; split; reflexivity. Qed.

(** No platform verifier throws, so no [catch] block of the five
    per-action verifiers runs. *)
Lemma per_action_verified (contentUrl proof wallet : string) (clk : Clock) :
  verified (verifyStream contentUrl proof wallet clk) = true
  /\ verified (verifyShare contentUrl proof wallet clk) = true
  /\ verified (verifyFollow contentUrl proof wallet clk) = true
  /\ verified (verifyLike contentUrl proof wallet clk) = true
  /\ verified (verifyComment contentUrl proof wallet clk) = true.
Proof.
  unfold verifyStream, verifyShare, verifyFollow, verifyLike, verifyComment.
  repeat split;
    repeat match goal with
           | |- context [if ?b then _ else _] => destruct b
           end; reflexivity.
Qed.

(** On a URL that is neither Spotify's nor YouTube's, the verdict on a
    stream, fingerprint included, does not depend on the proof. *)
Lemma verifyStream_mock_ignores_proof (contentUrl proof proof' wallet : string)
    (clk : Clock) :
  String.eqb (getPlatformFromUrl contentUrl) "spotify" = false ->
  String.eqb (getPlatformFromUrl contentUrl) "youtube" = false ->
  verifyStream contentUrl proof wallet clk
  = verifyStream contentUrl proof' wallet clk.
Proof. intros Hs Hy. unfold verifyStream. now rewrite Hs, Hy. Qed.

Lemma verifyAction_cases (action contentUrl proof wallet : string)
    (clk : Clock) :
  match verifyAction action contentUrl proof wallet clk with
  | Return r => recognized action = true /\ verified r = true
  | Throw e => recognized action = false /\ e = unsupported action
  end.
Proof.
  destruct (per_action_verified contentUrl proof wallet clk)
    as (Hst & Hsh & Hfo & Hli & Hco).
  unfold verifyAction, recognized. cbn [List.existsb].
  destruct (String.eqb action "stream"); [now split|].
  destruct (String.eqb action "share"); [now split|].
  destruct (String.eqb action "follow");
    [split; [now rewrite !orb_true_r|assumption]|].
  destruct (String.eqb action "like");
    [split; [now rewrite !orb_true_r|assumption]|].
  destruct (String.eqb action "comment"); [now split|].
  now split.
Qed.

End Verifier.

(** ** Arrays and collections *)

Section Arrays.

Context {A : Type}.
Variable p : A -> bool.

Lemma findIndex_Some (xs : list A) (i : nat) :
  findIndex p xs = Some i ->
  exists x, List.nth_error xs i = Some x
            /\ p x = true
            /\ List.find p xs = Some x.
Proof.
  revert i. induction xs as [|y xs IH]; intros i H; cbn in *.
  - discriminate.
  - destruct (p y) eqn:Hy.
    + injection H as <-. now exists y.
    + destruct (findIndex p xs) as [j|]; [|discriminate].
      injection H as <-. exact (IH j eq_refl).
Qed.

Lemma findIndex_None (xs : list A) :
  findIndex p xs = None -> List.find p xs = None.
Proof.
  induction xs as [|y xs IH]; cbn; [reflexivity|].
  destruct (p y); [discriminate|].
  destruct (findIndex p xs); [discriminate|]. intros _. now apply IH.
Qed.

Lemma find_app_new (xs : list A) (y : A) :
  List.find p xs = None -> p y = true -> List.find p (xs ++ [y]) = Some y.
Proof.
  induction xs as [|x xs IH]; cbn; intros Hnone Hy.
  - now rewrite Hy.
  - destruct (p x); [discriminate|]. now apply IH.
Qed.

Lemma update_at_length_app (xs : list A) (y : A) (f : A -> A) :
  update_at (List.length xs) f (xs ++ [y]) = xs ++ [f y].
Proof. induction xs as [|x xs IH]; cbn; [reflexivity|now rewrite IH]. Qed.

(** Updating through the reference that [findIndex] gave changes the
    document that [find] gives, as long as it still matches. *)
Lemma find_update_at (xs : list A) (i : nat) (x : A) (f : A -> A) :
  findIndex p xs = Some i ->
  List.find p xs = Some x ->
  p (f x) = true ->
  List.find p (update_at i f xs) = Some (f x).
Proof.
  revert i. induction xs as [|y xs IH]; intros i Hi Hx Hfx; cbn in *.
  - discriminate.
  - destruct (p y) eqn:Hy.
    + injection Hi as <-. injection Hx as <-. cbn. now rewrite Hfx.
    + destruct (findIndex p xs) as [j|]; [|discriminate].
      injection Hi as <-. cbn. rewrite Hy. now apply IH.
Qed.

Lemma find_update_first_same (xs : list A) (x : A) (f : A -> A) :
  List.find p xs = Some x ->
  p (f x) = true ->
  List.find p (Db.update_first p f xs) = Some (f x).
Proof.
  induction xs as [|y xs IH]; cbn; intros Hx Hfx; [discriminate|].
  destruct (p y) eqn:Hy.
  - injection Hx as <-. cbn. now rewrite Hfx.
  - cbn. rewrite Hy. now apply IH.
Qed.

Lemma update_first_absent (xs : list A) (f : A -> A) :
  List.find p xs = None -> Db.update_first p f xs = xs.
Proof.
  induction xs as [|y xs IH]; cbn; intros H; [reflexivity|].
  destruct (p y); [discriminate|]. now rewrite IH.
Qed.

(** A second predicate that the update does not disturb. *)
Lemma find_update_at_other (q : A -> bool) (xs : list A) (i : nat)
    (f : A -> A) :
  (forall x, q (f x) = q x) ->
  findIndex p xs = Some i ->
  (forall x, p x = true -> q x = false) ->
  List.find q (update_at i f xs) = List.find q xs.
Proof.
  intros Hq. revert i. induction xs as [|y xs IH]; intros i Hi Hpq; cbn in *.
  - discriminate.
  - destruct (p y) eqn:Hy.
    + injection Hi as <-. cbn. rewrite Hq. now rewrite (Hpq y Hy).
    + destruct (findIndex p xs) as [j|]; [|discriminate].
      injection Hi as <-. cbn. destruct (q y); [reflexivity|]. now apply IH.
Qed.

Lemma find_app_other (q : A -> bool) (xs : list A) (y : A) :
  q y = false -> List.find q (xs ++ [y]) = List.find q xs.
Proof.
  intro Hy. induction xs as [|x xs IH]; cbn.
  - now rewrite Hy.
  - destruct (q x); [reflexivity|exact IH].
Qed.

Lemma map_update_at {B : Type} (g : A -> B) (f : A -> A) (xs : list A)
    (i : nat) :
  (forall x, g (f x) = g x) ->
  List.map g (update_at i f xs) = List.map g xs.
Proof.
  intro Hg. revert i. induction xs as [|x xs IH]; intros [|i]; cbn;
    try reflexivity.
  - now rewrite Hg.
  - now rewrite IH.
Qed.

End Arrays.

(** ** The store *)

Section Store.

Lemma findById_id (db : Db.t) (id : ObjectId) (c : Campaign.t) :
  Db.Campaign_findById db id = Some c -> Campaign._id c = id.
Proof.
  intro H. apply List.find_some in H as [_ H].
  now apply N.eqb_eq in H.
Qed.

Lemma findById_save (db : Db.t) (id : ObjectId) (c0 c : Campaign.t) :
  Db.Campaign_findById db id = Some c0 ->
  Campaign._id c = id ->
  Db.Campaign_findById (Db.Campaign_save db c) id = Some c.
Proof.
  intros H <-. unfold Db.Campaign_findById, Db.Campaign_save. cbn.
  apply (find_update_first_same _ _ c0 (fun _ => c) H).
  apply N.eqb_refl.
Qed.

Lemma users_save (db : Db.t) (c : Campaign.t) :
  Db.users (Db.Campaign_save db c) = Db.users db.
Proof. reflexivity. Qed.

Lemma campaigns_update_user (db : Db.t) (id : ObjectId)
    (f : User.t -> User.t) :
  Db.campaigns (Db.User_findByIdAndUpdate db id f) = Db.campaigns db.
Proof. reflexivity. Qed.


End Store.

(** ** Participation *)

Section Participation.

Import CampaignController.

Lemma window_check (c : Campaign.t) (t : Z) :
  (t <? Campaign.startDate c) || (t >? Campaign.endDate c) = false
  <-> in_window c t.
Proof.
  unfold in_window. rewrite orb_false_iff, Z.ltb_ge, Z.gtb_ltb, Z.ltb_ge.
  tauto.
Qed.

Lemma role_check (r r' : Role.t) : Role.eqb r r' = true <-> r = r'.
Proof. destruct r, r'; cbn; split; congruence. Qed.

Lemma status_check (s s' : Status.t) : Status.eqb s s' = true <-> s = s'.
Proof. destruct s, s'; cbn; split; congruence. Qed.

(** The participant a request works on: the actions it had, and the array
    and reference the request continues with. *)
Lemma locate_found (user : User.t) (ps : list Participant.t) (i : nat) :
  findIndex (is_participant user) ps = Some i ->
  exists p, List.find (is_participant user) ps = Some p
            /\ actions_at ps i = Participant.actions p
            /\ Participant.userId p = User._id user.
Proof.
  intro H. destruct (findIndex_Some _ _ _ H) as (p & Hnth & Hp & Hfind).
  exists p. unfold actions_at. rewrite Hnth. repeat split; try assumption.
  now apply N.eqb_eq in Hp.
Qed.

Lemma actions_at_new (ps : list Participant.t) (p : Participant.t) :
  actions_at (ps ++ [p]) (List.length ps) = Participant.actions p.
Proof.
  unfold actions_at. rewrite List.nth_error_app2 by lia.
  now rewrite Nat.sub_diag.
Qed.

Lemma participate_Return (db : Db.t) (user : User.t) (id : ObjectId)
      (action proof : string) (clk : Clock) (part : Participation)
      (db' : Db.t) :
    participateInCampaign db user id action proof clk = (Return part, db') ->
    exists campaign rule h ps',
      User.role user = Role.fan
      /\ Db.Campaign_findById db id = Some campaign
      /\ Campaign.status campaign = Status.active
      /\ in_window campaign (now clk)
      /\ List.find (is_rule action) (Campaign.rewardRules campaign) = Some rule
      /\ recognized action = true
      /\ VerificationService.proofHash (verification part) = Some h
      /\ cap_reached (RewardRule.maxClaims rule)
           (count_of action (actions_of db id user)) = None
      /\ Db.Campaign_findById db' id
         = Some (Campaign.with_participants campaign ps')
      /\ List.find (is_participant user) ps'
         = Some (Participant.mk (User._id user)
                   (actions_of db id user
                    ++ [Action.mk action (verifiedAt clk) h]))
      /\ List.map Participant.userId ps'
         = List.map Participant.userId (Campaign.participants campaign)
           ++ match entry_of db id user with
              | Some _ => []
              | None => [User._id user]
              end.
Proof.
  unfold participateInCampaign. intro H.
  destruct (Role.eqb (User.role user) Role.fan) eqn:Hrole; [|discriminate H].
  cbn [negb] in H.
  destruct (Db.Campaign_findById db id) as [campaign|] eqn:Hfind;
    [|discriminate H].
  destruct (Status.eqb (Campaign.status campaign) Status.active) eqn:Hst;
    [|discriminate H].
  cbn [negb] in H.
  destruct ((now clk <? Campaign.startDate campaign)
            || (now clk >? Campaign.endDate campaign)) eqn:Hwin;
    [discriminate H|].
  destruct (List.find (is_rule action) (Campaign.rewardRules campaign))
    as [rule|] eqn:Hrule; [|discriminate H].
  pose proof (verifyAction_cases action (Campaign.contentUrl campaign) proof
                (User.walletAddress user) (verification_clock clk)) as Hver.
  destruct (VerificationService.verifyAction action
              (Campaign.contentUrl campaign) proof (User.walletAddress user)
              (verification_clock clk)) as [[pf ac ts h|err]|err];
    [|discriminate H|discriminate H].
  destruct Hver as [Hrec _].
  assert (Hid : Campaign._id campaign = id) by now apply findById_id in Hfind.
  assert (Hps : participants_of db id = Campaign.participants campaign)
    by (unfold participants_of; now rewrite Hfind).
  exists campaign, rule, h.
  destruct (findIndex (is_participant user) (Campaign.participants campaign))
    as [i|] eqn:Hidx.
  - destruct (locate_found _ _ _ Hidx) as (p & Hp & Hact & Huid).
    assert (Hentry : entry_of db id user = Some p)
      by (unfold entry_of; now rewrite Hps).
    assert (Hactions : actions_of db id user = Participant.actions p)
      by (unfold actions_of; now rewrite Hentry).
    rewrite Hact in H. fold (count_of action (Participant.actions p)) in H.
    destruct (cap_reached (RewardRule.maxClaims rule)
                (count_of action (Participant.actions p))) eqn:Hcap;
      [discriminate H|].
    injection H as <- <-.
    eexists. rewrite Hentry, Hactions.
    splits; try assumption; try reflexivity.
    + now apply role_check.
    + now apply status_check.
    + now apply window_check.
    + now apply (findById_save db id campaign).
    + rewrite (find_update_at _ _ _ p _ Hidx Hp).
      * unfold push_action. now rewrite Huid.
      * unfold is_participant, push_action. cbn. rewrite Huid.
        apply N.eqb_refl.
    + rewrite map_update_at by reflexivity. now rewrite app_nil_r.
  - pose proof (findIndex_None _ _ Hidx) as Hnone.
    assert (Hentry : entry_of db id user = None)
      by (unfold entry_of; now rewrite Hps).
    assert (Hactions : actions_of db id user = [])
      by (unfold actions_of; now rewrite Hentry).
    rewrite actions_at_new in H. cbn [Participant.actions] in H.
    fold (count_of action []) in H.
    destruct (cap_reached (RewardRule.maxClaims rule) (count_of action []))
      eqn:Hcap; [discriminate H|].
    injection H as <- <-.
    eexists. rewrite Hentry, Hactions.
    splits; try assumption; try reflexivity.
    + now apply role_check.
    + now apply status_check.
    + now apply window_check.
    + now apply (findById_save _ id campaign).
    + rewrite update_at_length_app.
      apply find_app_new; [assumption|].
      unfold is_participant. cbn. apply N.eqb_refl.
    + rewrite update_at_length_app. now rewrite !map_app.
Qed.



Lemma participate_succeeds (db : Db.t) (user : User.t) (id : ObjectId)
    (action proof : string) (clk : Clock) (campaign : Campaign.t)
    (rule : RewardRule.t) :
  User.role user = Role.fan ->
  Db.Campaign_findById db id = Some campaign ->
  Campaign.status campaign = Status.active ->
  in_window campaign (now clk) ->
  List.find (is_rule action) (Campaign.rewardRules campaign) = Some rule ->
  recognized action = true ->
  cap_reached (RewardRule.maxClaims rule)
    (count_of action (actions_of db id user)) = None ->
  exists part db',
    participateInCampaign db user id action proof clk = (Return part, db').
Proof.
  intros Hrole Hfind Hst Hwin Hrule Hrec Hcap.
  unfold participateInCampaign.
  apply role_check in Hrole. rewrite Hrole. cbn [negb].
  rewrite Hfind.
  apply status_check in Hst. rewrite Hst. cbn [negb].
  apply window_check in Hwin. rewrite Hwin. rewrite Hrule.
  pose proof (verifyAction_cases action (Campaign.contentUrl campaign) proof
                (User.walletAddress user) (verification_clock clk)) as Hver.
  destruct (VerificationService.verifyAction action
              (Campaign.contentUrl campaign) proof (User.walletAddress user)
              (verification_clock clk)) as [[pf ac ts h|err]|err].
  - unfold actions_of, entry_of, participants_of in Hcap.
    rewrite Hfind in Hcap.
    destruct (findIndex (is_participant user) (Campaign.participants campaign))
      as [i|] eqn:Hidx.
    + destruct (locate_found _ _ _ Hidx) as (p' & Hp & Hact & _).
      rewrite Hp in Hcap. rewrite Hact.
      fold (count_of action (Participant.actions p')). rewrite Hcap.
      now eexists _, _.
    + rewrite (findIndex_None _ _ Hidx) in Hcap.
      rewrite actions_at_new. cbn [Participant.actions].
      fold (count_of action []). rewrite Hcap. now eexists _, _.
  - destruct Hver as [_ Hv]. discriminate Hv.
  - destruct Hver as [Hv _]. congruence.
Qed.


Lemma NoDup_snoc {A : Type} (xs : list A) (x : A) :
  NoDup xs -> ~ In x xs -> NoDup (xs ++ [x]).
Proof.
  intros Hnd Hx. apply NoDup_app; [assumption|repeat constructor; intros []|].
  intros a Ha [<-|[]]. contradiction.
Qed.




(** One successful request, as the next request sees it. *)
Lemma participate_step (db : Db.t) (user : User.t) (id : ObjectId)
    (action proof : string) (clk : Clock) (part : Participation)
    (db' : Db.t) :
  participateInCampaign db user id action proof clk = (Return part, db') ->
  exists campaign campaign' h,
    Db.Campaign_findById db id = Some campaign
    /\ Db.Campaign_findById db' id = Some campaign'
    /\ same_terms campaign campaign'
    /\ User.role user = Role.fan
    /\ Campaign.status campaign = Status.active
    /\ recognized action = true
    /\ VerificationService.proofHash (verification part) = Some h
    /\ entry_of db' id user
       = Some (Participant.mk (User._id user)
                 (actions_of db id user
                  ++ [Action.mk action (verifiedAt clk) h]))
    /\ List.map Participant.userId (participants_of db' id)
       = List.map Participant.userId (participants_of db id)
         ++ match entry_of db id user with
            | Some _ => []
            | None => [User._id user]
            end.
Proof.
  intro H. apply participate_Return in H
    as (campaign & rule & h & ps' & Hrole & Hfind & Hst & Hwin & Hrule
        & Hrec & Hh & Hcap & Hfind' & Hentry & Hmap).
  exists campaign, (Campaign.with_participants campaign ps'), h.
  splits; try assumption.
  - now repeat split.
  - unfold entry_of, participants_of. now rewrite Hfind'.
  - unfold participants_of at 1 2. now rewrite Hfind', Hfind.
Qed.


Lemma same_terms_refl (c : Campaign.t) : same_terms c c.
Proof. now repeat split. Qed.

Lemma actions_of_entry (db : Db.t) (id : ObjectId) (user : User.t)
    (p : Participant.t) :
  entry_of db id user = Some p -> actions_of db id user = Participant.actions p.
Proof. intro H. unfold actions_of. now rewrite H. Qed.


(** The extent of the guard [if (rewardRule.maxClaims)]: under a cap of 0
    no request is refused at the cap, and a request that passes the checks
    before it is recorded. *)
Lemma zero_cap_never_reached (db : Db.t) (user : User.t) (id : ObjectId)
    (action proof : string) (clk : Clock) (campaign : Campaign.t)
    (rule : RewardRule.t) :
  Db.Campaign_findById db id = Some campaign ->
  List.find (is_rule action) (Campaign.rewardRules campaign) = Some rule ->
  RewardRule.maxClaims rule = Some 0%N ->
  throws is_MaxClaimsReached
    (fst (participateInCampaign db user id action proof clk)) = false
  /\ (User.role user = Role.fan ->
      Campaign.status campaign = Status.active ->
      in_window campaign (now clk) ->
      recognized action = true ->
      exists part db' h,
        participateInCampaign db user id action proof clk = (Return part, db')
        /\ actions_of db' id user
           = actions_of db id user ++ [Action.mk action (verifiedAt clk) h]).
Proof.
  intros Hfind Hrule Hmax. split.
  - unfold participateInCampaign. rewrite Hfind, Hrule, Hmax.
    destruct (negb (Role.eqb _ _)); [reflexivity|].
    destruct (negb (Status.eqb _ _)); [reflexivity|].
    destruct (_ || _); [reflexivity|].
    destruct (VerificationService.verifyAction _ _ _ _ _)
      as [[pf ac ts h|err]|err]; try reflexivity.
    destruct (findIndex _ _); reflexivity.
  - intros Hrole Hst Hwin Hrec.
    destruct (participate_succeeds db user id action proof clk campaign rule)
      as (part & db' & Hcall); try assumption.
    { now rewrite Hmax. }
    exists part, db'.
    destruct (participate_step _ _ _ _ _ _ _ _ Hcall)
      as (c0 & c1 & h & _ & _ & _ & _ & _ & _ & _ & Hentry & _).
    exists h. split; [assumption|].
    now rewrite (actions_of_entry _ _ _ _ Hentry).
Qed.

End Participation.

(** ** The reward ledger *)

Section Ledger.

Import RewardController.

Lemma claim_Return (db : Db.t) (user : User.t) (cid : ObjectId)
    (action proof : string) (clk : Clock) (r : Claimed) (db' : Db.t) :
  claimReward db user cid action proof clk = (Return r, db') ->
  exists campaign rule p,
    User.role user = Role.fan
    /\ Db.Campaign_findById db cid = Some campaign
    /\ Campaign.status campaign = Status.active
    /\ in_window campaign (now clk)
    /\ List.find (CampaignController.is_rule action)
         (Campaign.rewardRules campaign) = Some rule
    /\ recognized action = true
    /\ entry_of db cid user = Some p
    /\ CampaignController.cap_reached (RewardRule.maxClaims rule)
         (claimedCount cid rule (User.rewardsEarned user)) = None
    /\ RewardController.amount r = RewardRule.rewardAmount rule
    /\ RewardController.token r = RewardRule.token rule
    /\ db' = Db.User_findByIdAndUpdate db (User._id user)
               (Db.push_rewardsEarned (entry_for campaign rule (claimedAt clk))).
Proof.
  unfold claimReward. intro H.
  destruct (Role.eqb (User.role user) Role.fan) eqn:Hrole; [|discriminate H].
  cbn [negb] in H.
  destruct (Db.Campaign_findById db cid) as [campaign|] eqn:Hfind;
    [|discriminate H].
  destruct (Status.eqb (Campaign.status campaign) Status.active) eqn:Hst;
    [|discriminate H].
  cbn [negb] in H.
  destruct ((now clk <? Campaign.startDate campaign)
            || (now clk >? Campaign.endDate campaign)) eqn:Hwin;
    [discriminate H|].
  destruct (List.find (CampaignController.is_rule action)
              (Campaign.rewardRules campaign))
    as [rule|] eqn:Hrule; [|discriminate H].
  pose proof (verifyAction_cases action (Campaign.contentUrl campaign) proof
                (User.walletAddress user) (verification_clock clk)) as Hver.
  destruct (VerificationService.verifyAction action
              (Campaign.contentUrl campaign) proof (User.walletAddress user)
              (verification_clock clk)) as [[pf ac ts h|err]|err];
    [|discriminate H|discriminate H].
  destruct Hver as [Hrec _].
  destruct (List.find (CampaignController.is_participant user)
              (Campaign.participants campaign)) as [p|] eqn:Hp;
    [|discriminate H].
  destruct (List.existsb (is_verified_action action h)
              (Participant.actions p)) eqn:Hact; [|discriminate H].
  cbn [negb] in H.
  destruct (CampaignController.cap_reached (RewardRule.maxClaims rule)
              (claimedCount cid rule (User.rewardsEarned user))) eqn:Hcap;
    [discriminate H|].
  injection H as <- <-.
  exists campaign, rule, p. splits; try reflexivity; try assumption.
  - now apply role_check.
  - now apply status_check.
  - now apply window_check.
  - unfold entry_of, participants_of. now rewrite Hfind.
Qed.



Lemma find_update_first_other {A : Type} (p q : A -> bool) (f : A -> A)
    (xs : list A) :
  (forall x, p x = true -> q x = false) ->
  (forall x, q (f x) = q x) ->
  List.find q (Db.update_first p f xs) = List.find q xs.
Proof.
  intros Hpq Hf. induction xs as [|x xs IH]; cbn; [reflexivity|].
  destruct (p x) eqn:Hp; cbn.
  - now rewrite Hf, (Hpq x Hp).
  - now rewrite IH.
Qed.






End Ledger.

(** ** The token allowlist *)

Section Allowlist.

Import BlockchainService.

Arguments allowed : simpl never.

Lemma cache_ok_initial : cache_ok initial.
Proof. exact I. Qed.

Lemma getAllowedTokens_ok (svc : t) (clk : Clock) :
  cache_ok svc ->
  fst (getAllowedTokens svc clk) = Return mockAllowedTokens
  /\ cache_ok (snd (getAllowedTokens svc clk)).
Proof.
  unfold cache_ok, getAllowedTokens, cache_hit. intro Hok.
  destruct (allowedTokensCache svc) as [cache|] eqn:Hc; [|now split].
  destruct (cacheExpiry svc) as [expiry|]; [|now split].
  destruct (negb (expiry =? 0) && (checked_at clk <? expiry)); cbn.
  - rewrite Hc. now subst.
  - now split.
Qed.

Lemma isTokenAllowed_ok (svc : t) (address : string) (clk : Clock) :
  cache_ok svc ->
  fst (isTokenAllowed svc address clk) = allowed address
  /\ cache_ok (snd (isTokenAllowed svc address clk)).
Proof.
  intro Hok. destruct (getAllowedTokens_ok svc clk Hok) as [Hfst Hsnd].
  unfold isTokenAllowed.
  destruct (getAllowedTokens svc clk) as [tokens svc']. cbn in *.
  now subst.
Qed.

Lemma validateRewardTokens_ok (rules : list RewardRule.t)
    (clock : nat -> Clock) :
  forall (svc : t) (k : nat),
    cache_ok svc ->
    fst (validateRewardTokens svc rules clock k)
    = verdict
        (option_map (fun rule => (AppError.RewardToken, rule_address rule))
           (List.find (fun rule => negb (allowed (rule_address rule))) rules))
    /\ cache_ok (snd (validateRewardTokens svc rules clock k)).
Proof.
  induction rules as [|rule rules IH]; intros svc k Hok; cbn.
  - now split.
  - destruct (isTokenAllowed_ok svc (rule_address rule) (clock k) Hok)
      as [Hfst Hsnd].
    fold (rule_address rule).
    destruct (isTokenAllowed svc (rule_address rule) (clock k))
      as [valid svc']. cbn in Hfst, Hsnd. subst valid.
    destruct (allowed (rule_address rule)); cbn.
    + now apply IH.
    + now split.
Qed.

Lemma validateCampaignTokens_ok (svc : t) (budget : Budget.t)
    (rules : list RewardRule.t) (clock : nat -> Clock) :
  cache_ok svc ->
  fst (validateCampaignTokens svc budget rules clock)
  = verdict (first_offender budget rules)
  /\ cache_ok (snd (validateCampaignTokens svc budget rules clock)).
Proof.
  intro Hok. unfold validateCampaignTokens, first_offender.
  destruct (isTokenAllowed_ok svc (Token.address (Budget.token budget))
              (clock 0%nat) Hok) as [Hfst Hsnd].
  destruct (isTokenAllowed svc (Token.address (Budget.token budget))
              (clock 0%nat)) as [valid svc']. cbn in Hfst, Hsnd. subst valid.
  destruct (allowed (Token.address (Budget.token budget))); cbn.
  - now apply validateRewardTokens_ok.
  - now split.
Qed.

(** A campaign with a token outside the allowlist has a first offender,
    which is one of its tokens and is outside the allowlist. *)
Lemma first_offender_exists (budget : Budget.t) (rules : list RewardRule.t) :
  allowed (Token.address (Budget.token budget)) = false
  \/ (exists rule, In rule rules /\ allowed (rule_address rule) = false) ->
  exists use address,
    first_offender budget rules = Some (use, address)
    /\ allowed address = false
    /\ (address = Token.address (Budget.token budget)
        \/ exists rule, In rule rules /\ address = rule_address rule).
Proof.
  intro H. unfold first_offender.
  destruct (allowed (Token.address (Budget.token budget))) eqn:Hb; cbn.
  - destruct H as [H|(rule & Hin & Hrule)]; [discriminate|].
    destruct (List.find (fun rule => negb (allowed (rule_address rule))) rules)
      as [bad|] eqn:Hfind.
    + apply List.find_some in Hfind as [Hbad Hneg].
      apply negb_true_iff in Hneg.
      exists AppError.RewardToken, (rule_address bad). cbn.
      splits; [reflexivity|assumption|]. right. now exists bad.
    + apply (List.find_none _ _ Hfind) in Hin. rewrite Hrule in Hin.
      discriminate.
  - exists AppError.BudgetToken, (Token.address (Budget.token budget)).
    splits; [reflexivity|assumption|now left].
Qed.

End Allowlist.

(** ** Listing campaigns *)

Section Listing.

Import CampaignController.

Lemma insert_desc_perm (c : Campaign.t) (cs : list Campaign.t) :
  Permutation (insert_desc c cs) (c :: cs).
Proof.
  induction cs as [|d cs IH]; cbn; [reflexivity|].
  destruct (Campaign.createdAt d <? Campaign.createdAt c); [reflexivity|].
  rewrite IH. apply perm_swap.
Qed.

Lemma sort_desc_perm (cs : list Campaign.t) : Permutation (sort_desc cs) cs.
Proof.
  induction cs as [|c cs IH]; cbn; [reflexivity|].
  fold (sort_desc cs). rewrite insert_desc_perm. now constructor.
Qed.

Lemma insert_desc_sorted (c : Campaign.t) (cs : list Campaign.t) :
  StronglySorted newer_or_same cs ->
  StronglySorted newer_or_same (insert_desc c cs).
Proof.
  induction 1 as [|d cs Hs IH Hd]; cbn.
  - repeat constructor.
  - destruct (Campaign.createdAt d <? Campaign.createdAt c) eqn:Hlt.
    + apply Z.ltb_lt in Hlt. constructor.
      * now constructor.
      * constructor; [unfold newer_or_same; lia|].
        eapply Forall_impl; [|exact Hd].
        unfold newer_or_same. intros; lia.
    + apply Z.ltb_ge in Hlt. constructor; [assumption|].
      rewrite insert_desc_perm. now constructor.
Qed.

Lemma sort_desc_sorted (cs : list Campaign.t) :
  StronglySorted newer_or_same (sort_desc cs).
Proof.
  induction cs as [|c cs IH]; cbn; [constructor|].
  now apply insert_desc_sorted.
Qed.

(** [Math.ceil(total / limit)] is the least number of pages of [limit]
    documents that hold [total] documents. *)
Lemma ceil_div_spec (total limit : Z) :
  0 < limit ->
  (ceil_div total limit - 1) * limit < total <= ceil_div total limit * limit.
Proof.
  intro Hl. unfold ceil_div.
  pose proof (Z.div_mod (- total) limit ltac:(lia)) as Hdm.
  pose proof (Z.mod_pos_bound (- total) limit Hl) as Hm.
  nia.
Qed.

Lemma status_filter_active (c : Campaign.t) :
  String.eqb (Status.toString (Campaign.status c)) "active" = is_active c.
Proof. unfold is_active. now destruct (Campaign.status c). Qed.

Lemma active_filter (db : Db.t) (page limit : Z) :
  List.filter (Filter.matches (buildFilter db (active_query page limit)))
    (Db.campaigns db)
  = List.filter is_active (Db.campaigns db).
Proof.
  apply List.filter_ext. intro c.
  unfold Filter.matches, buildFilter, active_query. cbn.
  rewrite !andb_true_r. apply status_filter_active.
Qed.

Lemma map_doc_populate (db : Db.t) (cs : list Campaign.t) :
  List.map doc (List.map (populate db) cs) = cs.
Proof.
  rewrite List.map_map. cbn. apply List.map_id.
Qed.

End Listing.

(* ================================================================== *)
(** * The claims of the specification *)

Section Claims.

Import CampaignController.

(** ** C1 and C2: the proof fingerprint *)

(** C2. The specification asks for a fingerprint that is a function of the
    proof alone.  [generateProofHash] appends [Date.now()] to the proof
    before encoding it: for the proof ["proof1"], computed at two instants
    one second apart, it gives two different strings, and so do two calls
    of [verifyAction] for that proof. *)
Theorem generateProofHash_changes_with_clock :
  VerificationService.generateProofHash "proof1" Scenario.t1
  = "cHJvb2YxMTc0ODczNjAwMDAwMA=="%string
  /\ VerificationService.generateProofHash "proof1" Scenario.t2
     = "cHJvb2YxMTc0ODczNjAwMTAwMA=="%string
  /\ String.eqb
       (VerificationService.generateProofHash "proof1" Scenario.t1)
       (VerificationService.generateProofHash "proof1" Scenario.t2)
     = false
  /\ fingerprint "stream" "https://open.spotify.com/track/example" "proof1"
       "0x742d35cc6634c0532925a3b8d4c0532925a3b8d4"
       (VerificationService.mkClock Scenario.t1 Scenario.t1)
     = Some "cHJvb2YxMTc0ODczNjAwMDAwMA=="%string
  /\ fingerprint "stream" "https://open.spotify.com/track/example" "proof1"
       "0x742d35cc6634c0532925a3b8d4c0532925a3b8d4"
       (VerificationService.mkClock Scenario.t2 Scenario.t2)
     = Some "cHJvb2YxMTc0ODczNjAwMTAwMA=="%string.
Proof. repeat split; vm_compute; reflexivity. Qed.


(** ** C3: the cap on recorded actions *)



(** ** C4: the cap on claimed rewards *)




(** ** C5: a cap of zero *)


(** ** C6: tokens outside the allowlist *)

(** C6. Let the allowlist cache be empty or hold the contract's list, and
    let the budget token or the token of some reward rule of a
    [createCampaign] request be outside the allowlist.  Then the request
    fails and the store is unchanged: no campaign is inserted and no user's
    [campaignsCreated] grows.  When the request passes the two checks that
    come first (the requester is a creator, the start date is before the
    end date), the failure is [TokenNotAllowed] and names the first
    offending address: the budget token's, or else that of the first
    offending reward rule. *)
Theorem createCampaign_rejects_unlisted_token
    (schemaValid : Campaign.t -> bool) (svc : BlockchainService.t)
    (db : Db.t) (user : User.t) (body : CreateBody.t)
    (clock : nat -> BlockchainService.Clock) (newId : ObjectId)
    (createdAt : Z) :
  cache_ok svc ->
  allowed (Token.address (Budget.token (CreateBody.budget body))) = false
  \/ (exists rule, In rule (CreateBody.rewardRules body)
                   /\ allowed (rule_address rule) = false) ->
  let '(result, db', _) :=
    createCampaign schemaValid svc db user body clock newId createdAt in
  db' = db
  /\ granted result = false
  /\ (User.role user = Role.creator ->
      CreateBody.startDate body < CreateBody.endDate body ->
      exists use address,
        result = Throw (AppError.TokenNotAllowed use address)
        /\ first_offender (CreateBody.budget body) (CreateBody.rewardRules body)
           = Some (use, address)
        /\ allowed address = false
        /\ (address = Token.address (Budget.token (CreateBody.budget body))
            \/ exists rule, In rule (CreateBody.rewardRules body)
                            /\ address = rule_address rule)).
Proof.
  intros Hok Hbad.
  destruct (first_offender_exists _ _ Hbad) as (use & address & Hoff & Hna & Hin).
  destruct (validateCampaignTokens_ok svc (CreateBody.budget body)
              (CreateBody.rewardRules body) clock Hok) as [Hv _].
  rewrite Hoff in Hv. cbn in Hv.
  unfold createCampaign.
  destruct (Role.eqb (User.role user) Role.creator) eqn:Hrole; cbn [negb].
  - destruct (CreateBody.startDate body >=? CreateBody.endDate body) eqn:Hdates.
    + splits; [reflexivity|reflexivity|].
      intros _ Hlt. apply Z.geb_le in Hdates. lia.
    + destruct (BlockchainService.validateCampaignTokens svc
                  (CreateBody.budget body) (CreateBody.rewardRules body) clock)
        as [v svc']. cbn in Hv. subst v.
      splits; [reflexivity|reflexivity|].
      intros _ _. now exists use, address.
  - splits; [reflexivity|reflexivity|].
    intros Hc. apply role_check in Hc. congruence.
Qed.

(** The request of the test "should validate token addresses". *)
Lemma createCampaign_rejects_unlisted_token_witness :
  let db0 := Scenario.db [Scenario.streamRule None] [] in
  let '(result, db', _) :=
    createCampaign (fun _ => true) BlockchainService.initial db0
      Scenario.creatorUser Scenario.unlistedBody
      (fun _ => BlockchainService.mkClock Scenario.t1 Scenario.t1) 11%N
      Scenario.t1 in
  db' = db0
  /\ result
     = Throw (AppError.TokenNotAllowed AppError.BudgetToken
                "0x9999999999999999999999999999999999999999").
Proof.
  intros db0.
  pose proof (createCampaign_rejects_unlisted_token (fun _ => true)
                BlockchainService.initial db0 Scenario.creatorUser
                Scenario.unlistedBody
                (fun _ => BlockchainService.mkClock Scenario.t1 Scenario.t1)
                11%N Scenario.t1 cache_ok_initial
                (or_introl eq_refl)) as H.
  destruct (createCampaign _ _ _ _ _ _ _ _) as [[result db'] svc'].
  destruct H as (Hdb & _ & Hkind). split; [exact Hdb|].
  destruct Hkind as (use & address & -> & Hoff & _).
  - reflexivity.
  - vm_compute. reflexivity.
  - vm_compute in Hoff. now injection Hoff as <- <-.
Defined.

(** ** C7: the verifier's verdict *)

(** C7. For each of the five action kinds, every content URL and every
    proof, [verifyAction] returns a result with [verified = true]; for any
    other action kind it throws the unsupported-action error, and it throws
    in no other case.  Hence neither [participateInCampaign] nor
    [claimReward] is ever answered with [VerificationFailed]. *)
Theorem verifyAction_always_verified :
  (forall (action contentUrl proof wallet : string)
          (clk : VerificationService.Clock),
      match VerificationService.verifyAction action contentUrl proof wallet clk
      with
      | Return r =>
          recognized action = true /\ VerificationService.verified r = true
      | Throw e =>
          recognized action = false
          /\ e = VerificationService.unsupported action
      end)
  /\ (forall (db : Db.t) (user : User.t) (id : ObjectId)
             (action proof : string) (clk : Clock),
         throws is_VerificationFailed
           (fst (participateInCampaign db user id action proof clk)) = false)
  /\ (forall (db : Db.t) (user : User.t) (id : ObjectId)
             (action proof : string) (clk : RewardController.Clock),
         throws is_VerificationFailed
           (fst (RewardController.claimReward db user id action proof clk))
         = false).
Proof.
  splits.
  - exact verifyAction_cases.
  - intros. unfold participateInCampaign.
    destruct (negb (Role.eqb _ _)); [reflexivity|].
    destruct (Db.Campaign_findById db id) as [campaign|]; [|reflexivity].
    destruct (negb (Status.eqb _ _)); [reflexivity|].
    destruct (_ || _); [reflexivity|].
    destruct (List.find _ _) as [rule|]; [|reflexivity].
    pose proof (verifyAction_cases action (Campaign.contentUrl campaign) proof
                  (User.walletAddress user) (verification_clock clk)) as Hver.
    destruct (VerificationService.verifyAction _ _ _ _ _)
      as [[pf ac ts h|err]|err];
      [|now destruct Hver|reflexivity].
    destruct (findIndex _ _); cbn; destruct (cap_reached _ _); reflexivity.
  - intros. unfold RewardController.claimReward.
    destruct (negb (Role.eqb _ _)); [reflexivity|].
    destruct (Db.Campaign_findById db id) as [campaign|]; [|reflexivity].
    destruct (negb (Status.eqb _ _)); [reflexivity|].
    destruct (_ || _); [reflexivity|].
    destruct (List.find _ _) as [rule|]; [|reflexivity].
    pose proof (verifyAction_cases action (Campaign.contentUrl campaign) proof
                  (User.walletAddress user)
                  (RewardController.verification_clock clk)) as Hver.
    destruct (VerificationService.verifyAction _ _ _ _ _)
      as [[pf ac ts h|err]|err];
      [|now destruct Hver|reflexivity].
    destruct (List.find _ _); [|reflexivity].
    destruct (negb _); [reflexivity|].
    destruct (cap_reached _ _); reflexivity.
Qed.

(** A like of a tweet is verified; a "dance" is not an action kind. *)
Lemma verifyAction_always_verified_witness :
  (exists r,
      VerificationService.verifyAction "like" "https://x.com/user/status/123"
        "like-proof" "0x742d35cc6634c0532925a3b8d4c0532925a3b8d4"
        (VerificationService.mkClock Scenario.t1 Scenario.t1) = Return r
      /\ VerificationService.verified r = true)
  /\ VerificationService.verifyAction "dance" "https://x.com/user/status/123"
       "like-proof" "0x742d35cc6634c0532925a3b8d4c0532925a3b8d4"
       (VerificationService.mkClock Scenario.t1 Scenario.t1)
     = Throw "Unsupported action type: dance"%string.
Proof.
  destruct verifyAction_always_verified as (Hverify & _ & _).
  split.
  - pose proof (Hverify "like"%string "https://x.com/user/status/123"%string
                  "like-proof"%string
                  "0x742d35cc6634c0532925a3b8d4c0532925a3b8d4"%string
                  (VerificationService.mkClock Scenario.t1 Scenario.t1)) as H.
    destruct (VerificationService.verifyAction _ _ _ _ _) as [r|e].
    + exists r. split; [reflexivity|apply H].
    + destruct H as [H _]. vm_compute in H. discriminate H.
  - pose proof (Hverify "dance"%string "https://x.com/user/status/123"%string
                  "like-proof"%string
                  "0x742d35cc6634c0532925a3b8d4c0532925a3b8d4"%string
                  (VerificationService.mkClock Scenario.t1 Scenario.t1)) as H.
    destruct (VerificationService.verifyAction _ _ _ _ _) as [r|e].
    + destruct H as [H _]. vm_compute in H. discriminate H.
    + destruct H as [_ ->]. reflexivity.
Defined.

(** ** C8: participation is additive *)



(** ** C9 and C10: listing campaigns *)

(** C9. For every store and every limit from 1 to 100 there is an ordering
    of exactly the stored campaigns whose status is active, newest first,
    such that for every page number from 1 on, [getCampaigns] with the
    filter [{status: "active"}] returns the page's window of that ordering
    ([limit] campaigns after skipping [(page - 1) * limit]), with
    [pagination.total] the number of active campaigns and
    [pagination.pages] the ceiling of [total / limit]. *)
Theorem listCampaigns_active (db : Db.t) (limit : Z) :
  1 <= limit <= 100 ->
  exists ordered : list Campaign.t,
    Permutation ordered (List.filter is_active (Db.campaigns db))
    /\ StronglySorted newer_or_same ordered
    /\ forall page : Z,
        1 <= page ->
        let listing := getCampaigns db (active_query page limit) in
        let pages := pg_pages (pagination listing) in
        List.map doc (campaigns listing)
        = List.firstn (Z.to_nat limit)
            (List.skipn (Z.to_nat ((page - 1) * limit)) ordered)
        /\ pg_page (pagination listing) = page
        /\ pg_limit (pagination listing) = limit
        /\ pg_total (pagination listing) = Z.of_nat (List.length ordered)
        /\ (pages - 1) * limit < Z.of_nat (List.length ordered) <= pages * limit.
Proof.
  intro Hlimit.
  exists (sort_desc (List.filter is_active (Db.campaigns db))).
  splits.
  - apply sort_desc_perm.
  - apply sort_desc_sorted.
  - intros page Hpage. unfold getCampaigns.
    cbn [Query.page Query.limit active_query]. cbn zeta.
    cbn [campaigns pagination pg_page pg_limit pg_total pg_pages].
    rewrite active_filter, map_doc_populate.
    rewrite (Permutation_length (sort_desc_perm _)).
    splits; try reflexivity.
    all: apply ceil_div_spec; lia.
Qed.

(** Three stored campaigns, two of them active, listed two per page. *)
Lemma listCampaigns_active_witness :
  1 <= 2 <= 100
  /\ exists ordered : list Campaign.t,
      Permutation ordered (List.filter is_active (Db.campaigns Scenario.listed))
      /\ StronglySorted newer_or_same ordered
      /\ forall page : Z,
          1 <= page ->
          let listing := getCampaigns Scenario.listed (active_query page 2) in
          let pages := pg_pages (pagination listing) in
          List.map doc (campaigns listing)
          = List.firstn (Z.to_nat 2)
              (List.skipn (Z.to_nat ((page - 1) * 2)) ordered)
          /\ pg_page (pagination listing) = page
          /\ pg_limit (pagination listing) = 2
          /\ pg_total (pagination listing) = Z.of_nat (List.length ordered)
          /\ (pages - 1) * 2 < Z.of_nat (List.length ordered) <= pages * 2.
Proof.
  split; [lia|].
  apply (listCampaigns_active Scenario.listed 2). lia.
Defined.

(** C10. When the [creator] query parameter names no stored user,
    [getCampaigns] answers as it does to the same query without that
    parameter: the campaigns that match the remaining filters, with their
    pagination. *)
Theorem unknown_creator_filter_dropped (db : Db.t) (q : Query.t)
    (name : string) :
  Query.creator q = Some name ->
  Db.User_findOne_username db name = None ->
  getCampaigns db q
  = getCampaigns db
      (Query.mk (Query.status q) None (Query.startDate q) (Query.endDate q)
         (Query.page q) (Query.limit q)).
Proof.
  intros Hc Hnone. unfold getCampaigns, buildFilter. cbn.
  rewrite Hc. destruct name as [|a name]; cbn; [reflexivity|].
  now rewrite Hnone.
Qed.

(** No stored user is called "nobody": the two active campaigns are
    listed. *)
Lemma unknown_creator_filter_dropped_witness :
  let q :=
    Query.mk (Some "active"%string) (Some "nobody"%string) None None None None
  in
  Db.User_findOne_username Scenario.listed "nobody" = None
  /\ getCampaigns Scenario.listed q
     = getCampaigns Scenario.listed (active_query 1 10)
  /\ List.map (fun c => Campaign._id (doc c))
       (campaigns (getCampaigns Scenario.listed q))
     = [22%N; 21%N].
Proof.
  intros q.
  assert (Hnone : Db.User_findOne_username Scenario.listed "nobody" = None)
    by reflexivity.
  pose proof (unknown_creator_filter_dropped Scenario.listed q "nobody"
                eq_refl Hnone) as H.
  splits.
  - exact Hnone.
  - rewrite H. reflexivity.
  - rewrite H. vm_compute. reflexivity.
Defined.

End Claims.

(* ================================================================== *)
(** * Further properties of the services and controllers *)

(** ** The fingerprint *)

Section Fingerprint.

Import VerificationService.

(** Strings by steps of three bytes, as [base64] reads them. *)
Lemma string_triple_ind (P : string -> Prop) :
  P EmptyString ->
  (forall a, P (String a EmptyString)) ->
  (forall a b, P (String a (String b EmptyString))) ->
  (forall a b c s, P s -> P (String a (String b (String c s)))) ->
  forall s, P s.
Proof.
  intros H0 H1 H2 H3.
  assert (H : forall s, P s /\ (forall a, P (String a s))
                        /\ (forall a b, P (String a (String b s)))).
  { induction s as [|c s (IHs & IH1 & IH2)].
    - repeat split; auto.
    - repeat split; auto. }
  intro s. apply H.
Qed.

Lemma base64_length (s : string) :
  String.length (base64 s) = (4 * ((String.length s + 2) / 3))%nat.
Proof.
  induction s as [|a|a b|a b c s IH] using string_triple_ind;
    try reflexivity.
  change (String.length (base64 (String a (String b (String c s)))))
    with (S (S (S (S (String.length (base64 s)))))).
  rewrite IH. cbn [String.length].
  replace (S (S (S (String.length s))) + 2)%nat
    with ((String.length s + 2) + 1 * 3)%nat by lia.
  rewrite Nat.div_add by lia. lia.
Qed.

Lemma substring_prefix_length (n : nat) (s : string) :
  String.length (String.substring 0 n s) = Nat.min n (String.length s).
Proof.
  revert s. induction n as [|n IH]; intros [|c s]; cbn; auto.
Qed.

Lemma base64_app (k : nat) (s tail : string) :
  String.length s = (3 * k)%nat ->
  base64 (s ++ tail) = (base64 s ++ base64 tail)%string.
Proof.
  revert s. induction k as [|k IH]; intros s Hlen.
  - destruct s; [reflexivity|discriminate].
  - destruct s as [|a [|b [|c s]]]; cbn [String.length] in Hlen; try lia.
    cbn [append].
    change (base64 (String a (String b (String c (s ++ tail)))))
      with (let n := (N_of_ascii a * 65536 + N_of_ascii b * 256 + N_of_ascii c)%N in
            String (base64_digit (n / 262144))
              (String (base64_digit ((n / 4096) mod 64))
                 (String (base64_digit ((n / 64) mod 64))
                    (String (base64_digit (n mod 64)) (base64 (s ++ tail)))))).
    rewrite (IH s) by lia. reflexivity.
Qed.

Lemma substring_prefix_app (a b : string) :
  String.substring 0 (String.length a) (a ++ b) = a.
Proof.
  induction a as [|c a IH]; cbn.
  - now destruct b.
  - now rewrite IH.
Qed.

End Fingerprint.

Section FingerprintFacts.

Import VerificationService.

Lemma append_assoc_string (a b c : string) :
  ((a ++ b) ++ c = a ++ (b ++ c))%string.
Proof. induction a as [|x a IH]; cbn; [reflexivity|now rewrite IH]. Qed.

Lemma append_length_string (a b : string) :
  String.length (a ++ b) = (String.length a + String.length b)%nat.
Proof. induction a as [|x a IH]; cbn; [reflexivity|now rewrite IH]. Qed.

(** X1. The fingerprint of a proof of 24 bytes or more is the base64
    encoding of its first 24 bytes: neither the rest of the proof nor the
    clock reading reaches it. *)
Theorem generateProofHash_first_24_bytes (head rest : string) (now : Z) :
  String.length head = 24%nat ->
  generateProofHash (head ++ rest) now = base64 head.
Proof.
  intro Hlen. unfold generateProofHash.
  rewrite append_assoc_string, (base64_app 8) by (rewrite Hlen; reflexivity).
  assert (H32 : String.length (base64 head) = 32%nat)
    by (rewrite base64_length, Hlen; reflexivity).
  rewrite <- H32. apply substring_prefix_app.
Qed.

(** The proof of the claim test and the fingerprint that test stores. *)
Lemma generateProofHash_first_24_bytes_witness :
  String.length "spotify_stream_proof_dat" = 24%nat
  /\ generateProofHash ("spotify_stream_proof_dat" ++ "a_67890") Scenario.t1
     = "c3BvdGlmeV9zdHJlYW1fcHJvb2ZfZGF0"%string.
Proof.
  split; [reflexivity|].
  rewrite (generateProofHash_first_24_bytes "spotify_stream_proof_dat"
             "a_67890" Scenario.t1 eq_refl).
  reflexivity.
Defined.

(** X2. The fingerprint has 32 characters only when the proof and the
    decimal clock reading make up 22 bytes or more; below that it is the
    whole base64 encoding, padding included, of four characters for every
    three bytes begun. *)
Theorem generateProofHash_length (proof : string) (now : Z) :
  String.length (generateProofHash proof now)
  = Nat.min 32
      (4 * ((String.length proof + String.length (number_toString now) + 2)
            / 3)).
Proof.
  unfold generateProofHash.
  now rewrite substring_prefix_length, base64_length, append_length_string.
Qed.

(** The answer of [verifyAction] for each of the five kinds, by platform. *)
Lemma verifyAction_recognized (action contentUrl proof wallet : string)
    (clk : Clock) :
  recognized action = true ->
  verifyAction action contentUrl proof wallet clk
  = Return
      (Verified (getPlatformFromUrl contentUrl) action (timestamp_at clk)
         (generateProofHash
            (hashed action (getPlatformFromUrl contentUrl) proof)
            (hash_at clk))).
Proof.
  intro Hrec. unfold recognized in Hrec. cbn [List.existsb] in Hrec.
  assert (Hplat : List.existsb (String.eqb (getPlatformFromUrl contentUrl))
                    platforms = true).
  { unfold getPlatformFromUrl.
    repeat match goal with
           | |- context [if ?b then _ else _] => destruct b
           end; reflexivity. }
  unfold platforms in Hplat. cbn [List.existsb] in Hplat.
  unfold verifyAction, verifyStream, verifyShare, verifyFollow, verifyLike,
    verifyComment.
  set (platform := getPlatformFromUrl contentUrl) in *. clearbody platform.
  repeat rewrite orb_true_iff in Hrec.
  repeat rewrite orb_true_iff in Hplat.
  rewrite !String.eqb_eq in Hrec, Hplat.
  destruct Hrec as [->|[->|[->|[->|[->|Hrec]]]]]; try discriminate Hrec;
    destruct Hplat as [->|[->|[->|[->|[->|Hplat]]]]];
    try discriminate Hplat; reflexivity.
Qed.

(** X3. For a recognised action kind [verifyAction] answers with the
    requested action, the platform read off the content URL and the first
    clock reading; the fingerprint is that of the proof for the seven
    (action, platform) pairs that have a verifier of their own, and that of
    the text [mock-<action>-<platform>], whatever the proof, for the
    others. *)
Theorem verifyAction_result (action contentUrl proof wallet : string)
    (clk : Clock) :
  recognized action = true ->
  verifyAction action contentUrl proof wallet clk
  = Return
      (Verified (getPlatformFromUrl contentUrl) action (timestamp_at clk)
         (generateProofHash
            (hashed action (getPlatformFromUrl contentUrl) proof)
            (hash_at clk))).
Proof. apply verifyAction_recognized. Qed.

(** A like of a tweet: no verifier for likes on Twitter, so the stand-in
    text is hashed and the proof is not. *)
Lemma verifyAction_result_witness :
  recognized "like" = true
  /\ verifyAction "like" "https://x.com/user/status/123" "like-proof"
       "0x742d35cc6634c0532925a3b8d4c0532925a3b8d4"
       (mkClock Scenario.t1 Scenario.t2)
     = Return (Verified "twitter" "like" Scenario.t1
                 (generateProofHash "mock-like-twitter" Scenario.t2)).
Proof.
  split; [reflexivity|].
  rewrite (verifyAction_result "like" "https://x.com/user/status/123"
             "like-proof" "0x742d35cc6634c0532925a3b8d4c0532925a3b8d4"
             (mkClock Scenario.t1 Scenario.t2) eq_refl).
  reflexivity.
Defined.

Lemma prefix_app (n b : string) : String.prefix n (n ++ b) = true.
Proof.
  induction n as [|c n IH]; cbn; [now destruct b|].
  destruct (ascii_dec c c) as [_|Hne]; [exact IH|contradiction].
Qed.

(** [includes] finds a fragment wherever it occurs. *)
Lemma includes_app (a n b : string) : includes (a ++ n ++ b) n = true.
Proof.
  induction a as [|c a IH].
  - cbn [append]. destruct (n ++ b)%string eqn:E; cbn [includes];
      rewrite <- E, prefix_app; reflexivity.
  - cbn [append includes]. rewrite IH. apply orb_true_r.
Qed.

(** X4. The platform is decided by fragments of the URL text, in a fixed
    order: a URL in which [spotify.com] occurs anywhere is Spotify's,
    whatever else occurs in it; one in which [x.com] occurs anywhere is
    Spotify's, YouTube's or Twitter's; and the answer is always one of the
    five platform names. *)
Theorem getPlatformFromUrl_by_fragment :
  (forall a b : string,
      getPlatformFromUrl (a ++ "spotify.com" ++ b) = "spotify"%string)
  /\ (forall a b : string,
         List.existsb (String.eqb (getPlatformFromUrl (a ++ "x.com" ++ b)))
           ["spotify"; "youtube"; "twitter"]%string = true)
  /\ (forall url : string,
         List.existsb (String.eqb (getPlatformFromUrl url)) platforms = true).
Proof.
  splits.
  - intros a b. unfold getPlatformFromUrl. now rewrite includes_app.
  - intros a b. unfold getPlatformFromUrl.
    rewrite (includes_app a "x.com" b), orb_true_r.
    repeat match goal with
           | |- context [if ?b then _ else _] => destruct b
           end; reflexivity.
  - intro url. unfold getPlatformFromUrl.
    repeat match goal with
           | |- context [if ?b then _ else _] => destruct b
           end; reflexivity.
Qed.

End FingerprintFacts.

(** ** The allowlist service *)

Section AllowlistFacts.

Import BlockchainService.

Arguments allowed : simpl never.

Lemma lower_ascii_idempotent (c : ascii) :
  lower_ascii (lower_ascii c) = lower_ascii c.
Proof. destruct c as [[] [] [] [] [] [] [] []]; reflexivity. Qed.

Lemma toLowerCase_idempotent (s : string) :
  toLowerCase (toLowerCase s) = toLowerCase s.
Proof.
  induction s as [|c s IH]; cbn; [reflexivity|].
  now rewrite lower_ascii_idempotent, IH.
Qed.

(** X5. The cache of the allowlist lives five minutes.  After a call that
    refreshed it at the instant [cached_at], a call that reads the clock
    before [cached_at + 300000] is answered from the cache and leaves the
    service as it is; a call that reads the clock at that instant or later
    refreshes again and sets the expiry five minutes after its own second
    reading. *)
Theorem getAllowedTokens_cache_ttl (svc : t) (clk later : Clock) :
  cache_hit svc (checked_at clk) = None ->
  cached_at clk + CACHE_DURATION <> 0 ->
  let svc1 := snd (getAllowedTokens svc clk) in
  (checked_at later < cached_at clk + CACHE_DURATION ->
   getAllowedTokens svc1 later = (Return mockAllowedTokens, svc1))
  /\ (cached_at clk + CACHE_DURATION <= checked_at later ->
      getAllowedTokens svc1 later
      = (Return mockAllowedTokens,
         mk (Some mockAllowedTokens) (Some (cached_at later + CACHE_DURATION)))).
Proof.
  intros Hmiss Hnz svc1.
  assert (Hsvc1 : svc1 = mk (Some mockAllowedTokens)
                           (Some (cached_at clk + CACHE_DURATION)))
    by (unfold svc1, getAllowedTokens; now rewrite Hmiss).
  rewrite Hsvc1. unfold getAllowedTokens, cache_hit.
  cbn [allowedTokensCache cacheExpiry].
  apply Z.eqb_neq in Hnz. rewrite Hnz. cbn [negb andb].
  split; intro Hlater.
  - apply Z.ltb_lt in Hlater. now rewrite Hlater.
  - apply Z.ltb_ge in Hlater. now rewrite Hlater.
Qed.

(** A first call at [t1], then a call one second later. *)
Lemma getAllowedTokens_cache_ttl_witness :
  let clk := mkClock Scenario.t1 Scenario.t1 in
  let later := mkClock Scenario.t2 Scenario.t2 in
  let svc1 := snd (getAllowedTokens initial clk) in
  cache_hit initial Scenario.t1 = None
  /\ getAllowedTokens svc1 later = (Return mockAllowedTokens, svc1).
Proof.
  intros clk later svc1. split; [reflexivity|].
  apply (getAllowedTokens_cache_ttl initial clk later).
  - reflexivity.
  - vm_compute. discriminate.
  - vm_compute. reflexivity.
Defined.

(** X6. [getTokenInfo] and [isTokenAllowed] agree: a token is returned
    exactly for the addresses that are allowed, and its address is the given
    one up to the case of the letters; neither answer depends on the case
    of the letters of the given address. *)
Theorem getTokenInfo_agrees (svc : t) (tokenAddress : string) (clk : Clock) :
  match fst (getTokenInfo svc tokenAddress clk) with
  | Some token =>
      fst (isTokenAllowed svc tokenAddress clk) = true
      /\ toLowerCase (Token.address token) = toLowerCase tokenAddress
  | None => fst (isTokenAllowed svc tokenAddress clk) = false
  end
  /\ getTokenInfo svc (toLowerCase tokenAddress) clk
     = getTokenInfo svc tokenAddress clk
  /\ isTokenAllowed svc (toLowerCase tokenAddress) clk
     = isTokenAllowed svc tokenAddress clk.
Proof.
  unfold getTokenInfo, isTokenAllowed.
  destruct (getAllowedTokens svc clk) as [[tokens|e] svc1]; cbn;
    rewrite ?toLowerCase_idempotent; try now splits.
  splits; try reflexivity.
  - unfold some_address. induction tokens as [|token tokens IH]; cbn.
    + reflexivity.
    + destruct (String.eqb (toLowerCase (Token.address token))
                  (toLowerCase tokenAddress)) eqn:Heq; cbn.
      * split; [reflexivity|now apply String.eqb_eq].
      * exact IH.
  - unfold some_address. now rewrite toLowerCase_idempotent.
Qed.

(** The answer of [validateCampaignTokens], by what the allowlist says of
    the tokens. *)
Lemma validateCampaignTokens_verdict (svc : t) (budget : Budget.t)
    (rules : list RewardRule.t) (clock : nat -> Clock) :
  cache_ok svc ->
  fst (validateCampaignTokens svc budget rules clock)
  = if allowed (Token.address (Budget.token budget))
       && List.forallb (fun rule => allowed (rule_address rule)) rules
    then Return true
    else verdict (first_offender budget rules).
Proof.
  intro Hok.
  destruct (validateCampaignTokens_ok svc budget rules clock Hok) as [-> _].
  unfold first_offender.
  destruct (allowed (Token.address (Budget.token budget))); cbn [negb andb];
    [|reflexivity].
  induction rules as [|rule rules IH]; cbn [List.forallb List.find option_map];
    [reflexivity|].
  destruct (allowed (rule_address rule)); cbn [negb andb]; [exact IH|].
  reflexivity.
Qed.

(** X7. With the cache empty or holding the contract's list,
    [validateCampaignTokens] returns [true] exactly when the budget token
    and the token of every reward rule are allowed; otherwise it throws.
    It never returns [false]. *)
Theorem validateCampaignTokens_true_iff (svc : t) (budget : Budget.t)
    (rules : list RewardRule.t) (clock : nat -> Clock) :
  cache_ok svc ->
  fst (validateCampaignTokens svc budget rules clock)
  = if allowed (Token.address (Budget.token budget))
       && List.forallb (fun rule => allowed (rule_address rule)) rules
    then Return true
    else verdict (first_offender budget rules).
Proof. apply validateCampaignTokens_verdict. Qed.

(** The campaign of the tests, with all tokens in USDC. *)
Lemma validateCampaignTokens_true_iff_witness :
  cache_ok initial
  /\ fst (validateCampaignTokens initial (Budget.mk 1000 Scenario.USDC)
            [Scenario.streamRule (Some 10%N); Scenario.shareRule None]
            (fun _ => mkClock Scenario.t1 Scenario.t1))
     = Return true.
Proof.
  split; [exact cache_ok_initial|].
  rewrite (validateCampaignTokens_true_iff initial
             (Budget.mk 1000 Scenario.USDC)
             [Scenario.streamRule (Some 10%N); Scenario.shareRule None]
             (fun _ => mkClock Scenario.t1 Scenario.t1) cache_ok_initial).
  reflexivity.
Defined.

End AllowlistFacts.

(** ** Creating a campaign *)

Section CreateFacts.

Import CampaignController.

Arguments allowed : simpl never.




End CreateFacts.

(** ** Recording a participation: what it writes *)

Section ParticipationFrame.

Import CampaignController.

Lemma cap_reached_zero (maxClaims : option N) : cap_reached maxClaims 0 = None.
Proof.
  destruct maxClaims as [n|]; [|reflexivity]. unfold cap_reached.
  destruct (n =? 0)%N eqn:H0; [reflexivity|]. cbn.
  apply N.eqb_neq in H0.
  replace (n <=? 0)%N with false by (symmetry; apply N.leb_gt; lia).
  reflexivity.
Qed.

(** The store after a refusal. *)
Lemma participate_refused_store (db : Db.t) (user : User.t)
    (id : ObjectId) (action proof : string) (clk : Clock) :
  let call := participateInCampaign db user id action proof clk in
  match fst call with
  | Throw _ => snd call = db
  | Return _ => True
  end.
Proof.
  unfold participateInCampaign.
  destruct (negb (Role.eqb _ _)); [reflexivity|].
  destruct (Db.Campaign_findById db id) as [campaign|]; [|reflexivity].
  destruct (negb (Status.eqb _ _)); [reflexivity|].
  destruct (_ || _); [reflexivity|].
  destruct (List.find _ _) as [rule|]; [|reflexivity].
  destruct (VerificationService.verifyAction _ _ _ _ _)
    as [[pf ac ts h|err]|err]; try reflexivity.
  destruct (findIndex _ _) as [i|] eqn:Hidx.
  - cbn zeta. destruct (cap_reached _ _); cbn; trivial.
  - cbn zeta. rewrite actions_at_new. cbn [Participant.actions List.filter
                                            List.length].
    rewrite cap_reached_zero. cbn. trivial.
Qed.

(** X10. A participation that is refused, for whatever reason, leaves the
    store as it was: no participant entry, no action and no note on the
    user's side is written. *)
Theorem participate_refused_writes_nothing (db : Db.t) (user : User.t)
    (id : ObjectId) (action proof : string) (clk : Clock) :
  let call := participateInCampaign db user id action proof clk in
  match fst call with
  | Throw _ => snd call = db
  | Return _ => True
  end.
Proof. apply participate_refused_store. Qed.

(** The store a granted participation leaves. *)
Lemma participate_granted_store (db : Db.t) (user : User.t) (id : ObjectId)
    (action proof : string) (clk : Clock) (part : Participation)
    (db' : Db.t) :
  participateInCampaign db user id action proof clk = (Return part, db') ->
  exists campaign rule h,
    Db.Campaign_findById db id = Some campaign
    /\ List.find (is_rule action) (Campaign.rewardRules campaign) = Some rule
    /\ VerificationService.proofHash (verification part) = Some h
    /\ db'
       = Db.Campaign_save (noted db user campaign)
           (Campaign.with_participants campaign
              (update_at (position user campaign)
                 (push_action (Action.mk action (verifiedAt clk) h))
                 (roster user campaign))).
Proof.
  unfold participateInCampaign. intro H.
  destruct (negb (Role.eqb _ _)); [discriminate H|].
  destruct (Db.Campaign_findById db id) as [campaign|] eqn:Hfind;
    [|discriminate H].
  destruct (negb (Status.eqb _ _)); [discriminate H|].
  destruct (_ || _); [discriminate H|].
  destruct (List.find _ _) as [rule|] eqn:Hrule; [|discriminate H].
  destruct (VerificationService.verifyAction _ _ _ _ _)
    as [[pf ac ts h|err]|err]; try discriminate H.
  exists campaign, rule, h. unfold noted, position, roster.
  destruct (findIndex _ _) as [i|]; cbn zeta in H;
    destruct (cap_reached _ _); try discriminate H;
    injection H as <- <-; now splits.
Qed.

Lemma find_update_first_disjoint {A : Type} (p q : A -> bool) (f : A -> A)
    (xs : list A) :
  (forall x, p x = true -> q x = false /\ q (f x) = false) ->
  List.find q (Db.update_first p f xs) = List.find q xs.
Proof.
  intros Hpq. induction xs as [|x xs IH]; cbn; [reflexivity|].
  destruct (p x) eqn:Hp; cbn.
  - destruct (Hpq x Hp) as [-> ->]. reflexivity.
  - now rewrite IH.
Qed.

(** An update of a user that keeps the id and the ledger. *)
Lemma ledger_update_keeps (db : Db.t) (uid other : ObjectId)
    (f : User.t -> User.t) :
  (forall u, User._id (f u) = User._id u) ->
  (forall u, User.rewardsEarned (f u) = User.rewardsEarned u) ->
  ledger_of (Db.User_findByIdAndUpdate db uid f) other = ledger_of db other.
Proof.
  intros Hid Hledger.
  unfold ledger_of, Db.User_findById, Db.User_findByIdAndUpdate.
  cbn [Db.users].
  induction (Db.users db) as [|u us IH]; cbn; [reflexivity|].
  destruct (Db.is_user uid u) eqn:Hu; cbn.
  - unfold Db.is_user at 1. rewrite Hid. fold (Db.is_user other u).
    destruct (Db.is_user other u); [apply Hledger|reflexivity].
  - destruct (Db.is_user other u); [reflexivity|exact IH].
Qed.

Lemma addToSet_keeps_id (c : ObjectId) (u : User.t) :
  User._id (Db.addToSet_campaignsParticipated c u) = User._id u.
Proof.
  unfold Db.addToSet_campaignsParticipated.
  now destruct (List.existsb _ _).
Qed.

Lemma addToSet_keeps_ledger (c : ObjectId) (u : User.t) :
  User.rewardsEarned (Db.addToSet_campaignsParticipated c u)
  = User.rewardsEarned u.
Proof.
  unfold Db.addToSet_campaignsParticipated.
  now destruct (List.existsb _ _).
Qed.

Lemma ledger_noted (db : Db.t) (user : User.t) (campaign : Campaign.t)
    (uid : ObjectId) :
  ledger_of (noted db user campaign) uid = ledger_of db uid.
Proof.
  unfold noted. destruct (findIndex _ _); [reflexivity|].
  apply ledger_update_keeps; intro u;
    [apply addToSet_keeps_id|apply addToSet_keeps_ledger].
Qed.

Lemma campaigns_noted (db : Db.t) (user : User.t) (campaign : Campaign.t) :
  Db.campaigns (noted db user campaign) = Db.campaigns db.
Proof. unfold noted. now destruct (findIndex _ _). Qed.

(** The entries of the other users in the array a request leaves. *)
Lemma roster_update_other (user other : User.t) (campaign : Campaign.t)
    (a : Action.t) :
  User._id other <> User._id user ->
  List.find (is_participant other)
    (update_at (position user campaign) (push_action a)
       (roster user campaign))
  = List.find (is_participant other) (Campaign.participants campaign).
Proof.
  intro Hne. unfold position, roster.
  destruct (findIndex (is_participant user) (Campaign.participants campaign))
    as [i|] eqn:Hidx.
  - apply (find_update_at_other (is_participant user));
      [reflexivity|exact Hidx|].
    intros p Hp. unfold is_participant in *. apply N.eqb_eq in Hp.
    apply N.eqb_neq. congruence.
  - rewrite update_at_length_app. apply find_app_other.
    unfold is_participant. cbn. apply N.eqb_neq. congruence.
Qed.

(** X11. Whatever its outcome, [participateInCampaign] credits nothing:
    every user's [rewardsEarned] is as before.  It writes to one campaign
    only, the one addressed, and there to the requester's entry only: every
    other campaign, every other user's entry, and the campaign's own rules,
    status, dates and content URL are as before. *)
Theorem participate_frame (db : Db.t) (user : User.t) (id : ObjectId)
    (action proof : string) (clk : Clock) :
  let db' := snd (participateInCampaign db user id action proof clk) in
  (forall uid : ObjectId, ledger_of db' uid = ledger_of db uid)
  /\ (forall other : ObjectId,
         other = id
         \/ Db.Campaign_findById db' other = Db.Campaign_findById db other)
  /\ (forall other : User.t,
         User._id other = User._id user
         \/ entry_of db' id other = entry_of db id other)
  /\ match Db.Campaign_findById db id, Db.Campaign_findById db' id with
     | Some c, Some c' => same_terms c c'
     | None, None => True
     | _, _ => False
     end.
Proof.
  intro db'.
  pose proof (participate_refused_store db user id action proof clk)
    as Hrefused.
  destruct (participateInCampaign db user id action proof clk)
    as [[part|e] db1] eqn:Hcall; cbn [fst snd] in *; subst db'.
  - clear Hrefused.
    destruct (participate_granted_store _ _ _ _ _ _ _ _ Hcall)
      as (campaign & rule & h & Hfind & _ & _ & ->).
    assert (Hid : Campaign._id campaign = id) by now apply findById_id in Hfind.
    assert (Hfind0 : Db.Campaign_findById (noted db user campaign) id
                     = Some campaign)
      by (unfold Db.Campaign_findById; now rewrite campaigns_noted).
    set (saved := Campaign.with_participants campaign _) in *.
    assert (Hsaved : Db.Campaign_findById
                       (Db.Campaign_save (noted db user campaign) saved) id
                     = Some saved)
      by (apply (findById_save _ id campaign); [exact Hfind0|exact Hid]).
    splits.
    + intro uid. unfold ledger_of at 1, Db.User_findById.
      rewrite users_save. apply ledger_noted.
    + intro other. destruct (N.eq_dec other id) as [Heq|Hne]; [now left|right].
      unfold Db.Campaign_findById, Db.Campaign_save. cbn [Db.campaigns].
      rewrite campaigns_noted. apply find_update_first_disjoint.
      intros x Hx. unfold Db.is_campaign in *. apply N.eqb_eq in Hx.
      cbn in Hx |- *. rewrite Hx, Hid. split; apply N.eqb_neq; congruence.
    + intro other.
      destruct (N.eq_dec (User._id other) (User._id user)) as [Heq|Hne];
        [now left|right].
      unfold entry_of, participants_of.
      rewrite Hsaved, Hfind. unfold saved.
      cbn [Campaign.participants Campaign.with_participants].
      now apply roster_update_other.
    + rewrite Hsaved, Hfind. now repeat split.
  - subst db1. splits.
    + reflexivity.
    + now right.
    + now right.
    + destruct (Db.Campaign_findById db id); [apply same_terms_refl|exact I].
Qed.

End ParticipationFrame.

Section ParticipationNotes.

Import CampaignController.

Lemma forallb_update_at {A : Type} (P : A -> bool) (f : A -> A) (i : nat)
    (xs : list A) :
  (forall x, P x = true -> P (f x) = true) ->
  List.forallb P xs = true ->
  List.forallb P (update_at i f xs) = true.
Proof.
  intro Hf. revert i. induction xs as [|x xs IH]; intros [|i] H; cbn in *;
    try reflexivity; apply andb_true_iff in H as [Hx Hxs];
    apply andb_true_iff; split; auto.
Qed.

Lemma find_existsb {A : Type} (p : A -> bool) (xs : list A) (x : A) :
  List.find p xs = Some x -> List.existsb p xs = true.
Proof.
  intro H. apply List.find_some in H as [Hin Hp].
  apply List.existsb_exists. now exists x.
Qed.

(** X12. A granted participation keeps the invariant that every recorded
    action is of a kind named by a reward rule of its campaign; the kind it
    records is one of the five recognised kinds. *)
Theorem participate_keeps_kinds_rewarded (db db' : Db.t) (user : User.t)
    (id : ObjectId) (action proof : string) (clk : Clock)
    (part : Participation) (campaign : Campaign.t) :
  Db.Campaign_findById db id = Some campaign ->
  kinds_rewarded campaign = true ->
  participateInCampaign db user id action proof clk = (Return part, db') ->
  exists campaign',
    Db.Campaign_findById db' id = Some campaign'
    /\ kinds_rewarded campaign' = true
    /\ recognized action = true.
Proof.
  intros Hfind Hkinds Hcall.
  destruct (participate_Return _ _ _ _ _ _ _ _ Hcall)
    as (c0 & rule0 & h0 & ps0 & _ & _ & _ & _ & _ & Hrec & _).
  destruct (participate_granted_store _ _ _ _ _ _ _ _ Hcall)
    as (c & rule & h & Hfind' & Hrule & _ & ->).
  rewrite Hfind in Hfind'. injection Hfind' as <-.
  assert (Hid : Campaign._id campaign = id) by now apply findById_id in Hfind.
  eexists. splits; [|idtac|exact Hrec].
  - apply (findById_save _ id campaign); [|exact Hid].
    unfold Db.Campaign_findById. now rewrite campaigns_noted.
  - unfold kinds_rewarded in *.
    cbn [Campaign.participants Campaign.rewardRules
           Campaign.with_participants].
    apply forallb_update_at.
    + intros p Hp. unfold push_action. cbn [Participant.actions].
      rewrite List.forallb_app, Hp. cbn.
      now rewrite (find_existsb _ _ _ Hrule).
    + unfold roster. destruct (findIndex _ _); [exact Hkinds|].
      rewrite List.forallb_app, Hkinds. reflexivity.
Qed.

(** The fan's first stream on the campaign of the tests. *)
Lemma participate_keeps_kinds_rewarded_witness :
  let db0 := Scenario.db [Scenario.streamRule (Some 10%N)] [] in
  let call :=
    participateInCampaign db0 Scenario.fanUser 10%N "stream" "proof1"
      (Scenario.participate_at Scenario.t1) in
  granted (fst call) = true
  /\ exists campaign',
      Db.Campaign_findById (snd call) 10%N = Some campaign'
      /\ kinds_rewarded campaign' = true
      /\ recognized "stream" = true.
Proof.
  intros db0 call. split; [reflexivity|].
  apply (participate_keeps_kinds_rewarded db0 (snd call) Scenario.fanUser 10%N
           "stream" "proof1" (Scenario.participate_at Scenario.t1)
           (mkParticipation
              (VerificationService.Verified "spotify" "stream" Scenario.t1
                 "cHJvb2YxMTc0ODczNjAwMDAwMA==")
              true (1 # 2) Scenario.USDC)
           (Scenario.testCampaign [Scenario.streamRule (Some 10%N)] [])).
  - reflexivity.
  - reflexivity.
  - vm_compute. reflexivity.
Defined.

Lemma addToSet_effect (c : ObjectId) (u : User.t) :
  In c (User.campaignsParticipated (Db.addToSet_campaignsParticipated c u))
  /\ (forall d, In d (User.campaignsParticipated u) ->
                In d (User.campaignsParticipated
                        (Db.addToSet_campaignsParticipated c u)))
  /\ (NoDup (User.campaignsParticipated u) ->
      NoDup (User.campaignsParticipated
               (Db.addToSet_campaignsParticipated c u))).
Proof.
  unfold Db.addToSet_campaignsParticipated.
  destruct (List.existsb (N.eqb c) (User.campaignsParticipated u)) eqn:Hin.
  - apply List.existsb_exists in Hin as (d & Hd & Heq).
    apply N.eqb_eq in Heq. subst d. now splits.
  - cbn [User.campaignsParticipated User.with_campaignsParticipated].
    splits.
    + apply in_or_app. right. now left.
    + intros d Hd. apply in_or_app. now left.
    + intro Hnd. apply NoDup_snoc; [exact Hnd|].
      intro Hc. assert (List.existsb (N.eqb c) (User.campaignsParticipated u)
                        = true); [|congruence].
      apply List.existsb_exists. exists c. split; [exact Hc|apply N.eqb_refl].
Qed.

(** X13. The note on the user's side.  After a granted participation of a
    stored user who had no entry on the campaign, the campaign is among the
    user's [campaignsParticipated]; a participation of a user who had an
    entry writes nothing to the users.  In both cases nothing is removed
    from the list, no duplicate is introduced into it, and no other user's
    list changes. *)
Theorem participate_notes_campaign (db db' : Db.t) (user : User.t)
    (id : ObjectId) (action proof : string) (clk : Clock)
    (part : Participation) :
  Db.User_findById db (User._id user) = Some user ->
  participateInCampaign db user id action proof clk = (Return part, db') ->
  match entry_of db id user with
  | None => In id (participated_of db' (User._id user))
  | Some _ => Db.users db' = Db.users db
  end
  /\ (forall c, In c (participated_of db (User._id user)) ->
                In c (participated_of db' (User._id user)))
  /\ (NoDup (participated_of db (User._id user)) ->
      NoDup (participated_of db' (User._id user)))
  /\ (forall other : ObjectId,
         other = User._id user
         \/ participated_of db' other = participated_of db other).
Proof.
  intros Huser Hcall.
  destruct (participate_granted_store _ _ _ _ _ _ _ _ Hcall)
    as (campaign & rule & h & Hfind & _ & _ & ->).
  assert (Hid : Campaign._id campaign = id) by now apply findById_id in Hfind.
  unfold participated_of, Db.User_findById. rewrite users_save.
  unfold entry_of, participants_of, noted. rewrite Hfind.
  destruct (findIndex (is_participant user) (Campaign.participants campaign))
    as [i|] eqn:Hidx.
  - destruct (findIndex_Some _ _ _ Hidx) as (p & _ & _ & ->).
    splits; auto.
  - rewrite (findIndex_None _ _ Hidx).
    cbn [Db.users Db.User_findByIdAndUpdate].
    fold (Db.User_findById db (User._id user)). rewrite Huser, Hid.
    rewrite (find_update_first_same _ _ user _ Huser)
      by (unfold Db.is_user; rewrite addToSet_keeps_id; apply N.eqb_refl).
    destruct (addToSet_effect id user) as (Hin & Hincl & Hnd).
    splits; try assumption.
    intro other.
    destruct (N.eq_dec other (User._id user)) as [Heq|Hne]; [now left|right].
    rewrite find_update_first_other; [reflexivity| |].
    + intros x Hx. unfold Db.is_user in *. apply N.eqb_eq in Hx.
      apply N.eqb_neq. congruence.
    + intro x. unfold Db.is_user. now rewrite addToSet_keeps_id.
Qed.

(** The fan's first stream: the campaign is noted on the fan. *)
Lemma participate_notes_campaign_witness :
  let db0 := Scenario.db [Scenario.streamRule (Some 10%N)] [] in
  let call :=
    participateInCampaign db0 Scenario.fanUser 10%N "stream" "proof1"
      (Scenario.participate_at Scenario.t1) in
  entry_of db0 10%N Scenario.fanUser = None
  /\ participated_of db0 2%N = []
  /\ In 10%N (participated_of (snd call) 2%N).
Proof.
  intros db0 call.
  destruct (participate_notes_campaign db0 (snd call) Scenario.fanUser 10%N
              "stream" "proof1" (Scenario.participate_at Scenario.t1)
              (mkParticipation
                 (VerificationService.Verified "spotify" "stream" Scenario.t1
                    "cHJvb2YxMTc0ODczNjAwMDAwMA==")
                 true (1 # 2) Scenario.USDC))
    as (Hnote & _).
  - reflexivity.
  - vm_compute. reflexivity.
  - splits; [reflexivity|reflexivity|exact Hnote].
Defined.

End ParticipationNotes.

(** ** Claiming a reward: when it is granted *)

Section ClaimFacts.

Import RewardController.

(** The answer to a claim that passes every check. *)
Lemma claim_granted (db : Db.t) (user : User.t) (cid : ObjectId)
    (action proof : string) (clk : Clock) (campaign : Campaign.t)
    (rule : RewardRule.t) :
  Db.Campaign_findById db cid = Some campaign ->
  List.find (CampaignController.is_rule action)
    (Campaign.rewardRules campaign) = Some rule ->
  claim_ready db user campaign action proof clk ->
  CampaignController.cap_reached (RewardRule.maxClaims rule)
    (claimedCount cid rule (User.rewardsEarned user)) = None ->
  claimReward db user cid action proof clk
  = (Return (mkClaimed (Campaign._id campaign) (Campaign.title campaign)
               action (RewardRule.rewardAmount rule) (RewardRule.token rule)
               (claimedAt clk)),
     Db.User_findByIdAndUpdate db (User._id user)
       (Db.push_rewardsEarned (entry_for campaign rule (claimedAt clk)))).
Proof.
  intros Hfind Hrule (Hrole & Hst & Hwin & p & h & Hentry & Hfp & Hact) Hcap.
  unfold claimReward.
  apply role_check in Hrole. rewrite Hrole. cbn [negb].
  rewrite Hfind.
  apply status_check in Hst. rewrite Hst. cbn [negb].
  apply window_check in Hwin. rewrite Hwin, Hrule.
  unfold fingerprint in Hfp.
  destruct (VerificationService.verifyAction action
              (Campaign.contentUrl campaign) proof (User.walletAddress user)
              (verification_clock clk)) as [[pf ac ts h'|err]|err];
    try discriminate Hfp.
  cbn in Hfp. injection Hfp as ->.
  rewrite (findById_id _ _ _ Hfind) in Hentry.
  unfold entry_of, participants_of in Hentry. rewrite Hfind in Hentry.
  rewrite Hentry, Hact. cbn [negb]. now rewrite Hcap.
Qed.

(** What a granted claim has passed. *)
Lemma claim_Return_ready (db : Db.t) (user : User.t) (cid : ObjectId)
    (action proof : string) (clk : Clock) (r : Claimed) (db' : Db.t)
    (campaign : Campaign.t) :
  Db.Campaign_findById db cid = Some campaign ->
  claimReward db user cid action proof clk = (Return r, db') ->
  claim_ready db user campaign action proof clk.
Proof.
  intros Hfind H. unfold claimReward in H. rewrite Hfind in H.
  destruct (Role.eqb (User.role user) Role.fan) eqn:Hrole; [|discriminate H].
  cbn [negb] in H.
  destruct (Status.eqb (Campaign.status campaign) Status.active) eqn:Hst;
    [|discriminate H].
  cbn [negb] in H.
  destruct ((now clk <? Campaign.startDate campaign)
            || (now clk >? Campaign.endDate campaign)) eqn:Hwin;
    [discriminate H|].
  destruct (List.find _ (Campaign.rewardRules campaign)) as [rule|];
    [|discriminate H].
  destruct (VerificationService.verifyAction action
              (Campaign.contentUrl campaign) proof (User.walletAddress user)
              (verification_clock clk)) as [[pf ac ts h|err]|err] eqn:Hver;
    try discriminate H.
  destruct (List.find (CampaignController.is_participant user)
              (Campaign.participants campaign)) as [p|] eqn:Hp;
    [|discriminate H].
  destruct (List.existsb (is_verified_action action h)
              (Participant.actions p)) eqn:Hact; [|discriminate H].
  unfold claim_ready. splits.
  - now apply role_check.
  - now apply status_check.
  - now apply window_check.
  - exists p, h. splits.
    + rewrite (findById_id _ _ _ Hfind).
      unfold entry_of, participants_of. now rewrite Hfind.
    + unfold fingerprint. now rewrite Hver.
    + exact Hact.
Qed.



End ClaimFacts.

(** ** From participation to claim *)

Section ParticipationToClaim.

Import RewardController.





End ParticipationToClaim.

(** ** Claims and the recorded action *)

Section ClaimAgain.

Import RewardController.

(** X16. A claim does not use up the recorded action.  After a granted
    claim, the same request (same action and proof, with a fingerprint
    that comes out the same) made inside the date window is granted
    again, as long as the cap of the rule is not reached on the
    requester's ledger: one recorded action backs any number of claims,
    and only the cap bounds them. *)
Theorem claim_granted_again (db : Db.t) (user user1 : User.t)
    (cid : ObjectId) (action proof : string) (clk clk1 : Clock)
    (r : Claimed) (db1 : Db.t) (campaign : Campaign.t)
    (rule : RewardRule.t) :
  claimReward db user cid action proof clk = (Return r, db1) ->
  Db.Campaign_findById db cid = Some campaign ->
  List.find (CampaignController.is_rule action)
    (Campaign.rewardRules campaign) = Some rule ->
  User._id user1 = User._id user ->
  User.role user1 = Role.fan ->
  in_window campaign (now clk1) ->
  fingerprint action (Campaign.contentUrl campaign) proof
    (User.walletAddress user1) (verification_clock clk1)
  = fingerprint action (Campaign.contentUrl campaign) proof
      (User.walletAddress user) (verification_clock clk) ->
  CampaignController.cap_reached (RewardRule.maxClaims rule)
    (claimedCount cid rule (User.rewardsEarned user1)) = None ->
  claimReward db1 user1 cid action proof clk1
  = (Return (mkClaimed cid (Campaign.title campaign) action
               (RewardRule.rewardAmount rule) (RewardRule.token rule)
               (claimedAt clk1)),
     Db.User_findByIdAndUpdate db1 (User._id user)
       (Db.push_rewardsEarned (entry_for campaign rule (claimedAt clk1)))).
Proof.
  intros H Hfind Hrule Hid1 Hrole1 Hwin Hfp Hcap.
  pose proof (claim_Return_ready _ _ _ _ _ _ _ _ _ Hfind H)
    as (_ & Hst & _ & p & h & Hentry & Hh & Hact).
  apply claim_Return in H
    as (c & rl & p' & _ & _ & _ & _ & _ & _ & _ & _ & _ & _ & ->).
  pose proof (findById_id _ _ _ Hfind) as Hid.
  rewrite (claim_granted _ user1 cid action proof clk1 campaign rule).
  - now rewrite Hid, Hid1.
  - exact Hfind.
  - exact Hrule.
  - unfold claim_ready. splits; try assumption.
    exists p, h. splits.
    + unfold entry_of, participants_of, Db.Campaign_findById in Hentry |- *.
      cbn [Db.campaigns Db.User_findByIdAndUpdate].
      unfold CampaignController.is_participant in Hentry |- *.
      now rewrite Hid1.
    + now rewrite Hfp.
    + exact Hact.
  - exact Hcap.
Qed.

(** Two claims on the one stream of the integration test. *)
Lemma claim_granted_again_witness :
  let rule := Scenario.streamRule (Some 10%N) in
  let fan := Scenario.fanWith [] in
  let fan1 := Scenario.fanWith [Scenario.reward Scenario.t2] in
  let db0 := Scenario.db_of [rule] [Scenario.streamed] fan in
  let db1 :=
    snd (claimReward db0 fan 10%N "stream" Scenario.proofData
           (Scenario.claim_at Scenario.t2)) in
  granted
    (fst (claimReward db1 fan1 10%N "stream" Scenario.proofData
            (Scenario.claim_at Scenario.t3))) = true
  /\ ledger_of
       (snd (claimReward db1 fan1 10%N "stream" Scenario.proofData
               (Scenario.claim_at Scenario.t3))) 2%N
     = [Scenario.reward Scenario.t2; Scenario.reward Scenario.t3].
Proof.
  intros rule fan fan1 db0 db1.
  assert (Hcall : exists r,
             claimReward db0 fan 10%N "stream" Scenario.proofData
               (Scenario.claim_at Scenario.t2) = (Return r, db1))
    by (eexists; vm_compute; reflexivity).
  destruct Hcall as [r Hcall].
  rewrite (claim_granted_again db0 fan fan1 10%N "stream" Scenario.proofData
             (Scenario.claim_at Scenario.t2) (Scenario.claim_at Scenario.t3)
             r db1 (Scenario.testCampaign [rule] [Scenario.streamed]) rule
             Hcall).
  1: split; vm_compute; reflexivity.
  all: try (vm_compute; reflexivity).
  split; vm_compute; discriminate.
Defined.

End ClaimAgain.

(** ** Listing campaigns: any query *)

Section ListingFacts.

Import CampaignController.

Lemma holds_Some {A : Type} (c : option A) (p : A -> bool) (a : A) :
  Filter.holds c p = true -> c = Some a -> p a = true.
Proof. intros H ->. exact H. Qed.

Lemma truthy_Some (s : option string) (v : string) :
  s = Some v -> v <> ""%string -> truthy s = Some v.
Proof. intros -> Hv. destruct v; [contradiction|reflexivity]. Qed.

Lemma in_window_of {A : Type} (n m : nat) (l : list A) (x : A) :
  List.In x (List.firstn n (List.skipn m l)) -> List.In x l.
Proof.
  intro H. rewrite <- (List.firstn_skipn m l). apply List.in_or_app. right.
  rewrite <- (List.firstn_skipn n (List.skipn m l)).
  apply List.in_or_app. now left.
Qed.

(** X17. What a listing can contain.  Whatever the query, every item
    [getCampaigns] returns is a stored campaign, populated with its
    creator, that satisfies each criterion the query gives: the status
    when one is given, the creator when the name is that of a stored user,
    and both date bounds, which bound the campaign's start date (the end
    date of the query too).  A page never has more items than the limit. *)
Theorem getCampaigns_lists_only_matches (db : Db.t) (q : Query.t) :
  let listing := getCampaigns db q in
  List.Forall
    (fun x =>
       List.In (doc x) (Db.campaigns db)
       /\ x = populate db (doc x)
       /\ (forall s, Query.status q = Some s -> s <> ""%string ->
             Status.toString (Campaign.status (doc x)) = s)
       /\ (forall name u, Query.creator q = Some name -> name <> ""%string ->
             Db.User_findOne_username db name = Some u ->
             Campaign.creatorId (doc x) = User._id u)
       /\ (forall d, Query.startDate q = Some d ->
             d <= Campaign.startDate (doc x))
       /\ (forall d, Query.endDate q = Some d ->
             Campaign.startDate (doc x) <= d))
    (campaigns listing)
  /\ (List.length (campaigns listing) <= Z.to_nat (limit_of q))%nat.
Proof.
  intro listing. unfold listing, getCampaigns. cbn zeta.
  cbn [campaigns]. split.
  - apply List.Forall_forall. intros x Hx.
    apply List.in_map_iff in Hx as (c & <- & Hc).
    apply in_window_of in Hc.
    apply (Permutation_in _ (sort_desc_perm _)) in Hc.
    apply List.filter_In in Hc as [Hin Hm].
    unfold Filter.matches in Hm.
    apply andb_true_iff in Hm as [Hm Hlte].
    apply andb_true_iff in Hm as [Hm Hgte].
    apply andb_true_iff in Hm as [Hstatus Hcreator].
    cbn [doc populate]. splits.
    + exact Hin.
    + reflexivity.
    + intros s Hs Hne.
      apply (holds_Some _ _ s) in Hstatus.
      * now apply String.eqb_eq in Hstatus.
      * cbn [buildFilter Filter.status]. now apply truthy_Some.
    + intros name u Hname Hne Hu.
      apply (holds_Some _ _ (User._id u)) in Hcreator.
      * now apply N.eqb_eq in Hcreator.
      * cbn [buildFilter Filter.creatorId].
        now rewrite (truthy_Some _ _ Hname Hne), Hu.
    + intros d Hd.
      apply (holds_Some _ _ d) in Hgte; [|exact Hd]. cbn in Hgte. lia.
    + intros d Hd.
      apply (holds_Some _ _ d) in Hlte; [|exact Hd]. cbn in Hlte. lia.
  - rewrite List.length_map. unfold limit_of. apply List.firstn_le_length.
Qed.

Lemma firstn_add {A : Type} (a b : nat) (l : list A) :
  List.firstn (a + b) l = List.firstn a l ++ List.firstn b (List.skipn a l).
Proof.
  revert l. induction a as [|a IH]; intro l; [reflexivity|].
  destruct l as [|x l]; cbn.
  - now rewrite List.firstn_nil.
  - now rewrite IH.
Qed.

(** The first [k] windows of width [n], one after the other. *)
Lemma concat_windows {A : Type} (n k : nat) (l : list A) :
  List.concat
    (List.map (fun i => List.firstn n (List.skipn (i * n) l)) (List.seq 0 k))
  = List.firstn (k * n) l.
Proof.
  induction k as [|k IH]; [reflexivity|].
  rewrite List.seq_S, List.map_app, List.concat_app, IH. cbn [List.map
    List.concat Nat.add]. rewrite List.app_nil_r.
  replace (S k * n)%nat with (k * n + n)%nat by lia.
  now rewrite firstn_add.
Qed.

Lemma page_docs_window (db : Db.t) (q : Query.t) (page : Z) :
  page_docs db q page
  = List.firstn (Z.to_nat (limit_of q))
      (List.skipn (Z.to_nat ((page - 1) * limit_of q))
         (sort_desc (matching db q))).
Proof.
  unfold page_docs, getCampaigns. cbn zeta. cbn [campaigns].
  now rewrite map_doc_populate.
Qed.

(** X18. The pages of a listing.  For a limit of at least 1, the pages
    [1 .. pagination.pages] of a query, one after the other, are the
    stored campaigns that match the filter, newest first: every match is
    on exactly one page, in order.  Every page after the last is empty. *)
Theorem getCampaigns_pages_cover (db : Db.t) (q : Query.t) :
  1 <= limit_of q ->
  let pages := pg_pages (pagination (getCampaigns db q)) in
  List.concat (List.map (page_docs db q) (page_numbers pages))
  = sort_desc (matching db q)
  /\ Permutation (sort_desc (matching db q)) (matching db q)
  /\ StronglySorted newer_or_same (sort_desc (matching db q))
  /\ pg_total (pagination (getCampaigns db q))
     = Z.of_nat (List.length (matching db q))
  /\ forall page, pages < page -> page_docs db q page = [].
Proof.
  intros Hlimit pages.
  assert (Hpages : (pages - 1) * limit_of q
                   < Z.of_nat (List.length (matching db q))
                   <= pages * limit_of q).
  { unfold pages, getCampaigns. cbn zeta. cbn [pagination pg_pages].
    fold (matching db q). fold (limit_of q).
    apply ceil_div_spec. lia. }
  assert (Hlen : List.length (sort_desc (matching db q))
                 = List.length (matching db q))
    by apply (Permutation_length (sort_desc_perm _)).
  splits.
  - unfold page_numbers. rewrite <- List.seq_shift, !List.map_map.
    rewrite (List.map_ext _
               (fun i => List.firstn (Z.to_nat (limit_of q))
                           (List.skipn (i * Z.to_nat (limit_of q))
                              (sort_desc (matching db q))))).
    + rewrite concat_windows. apply List.firstn_all2. rewrite Hlen. nia.
    + intro i. rewrite page_docs_window. do 2 f_equal. nia.
  - apply sort_desc_perm.
  - apply sort_desc_sorted.
  - reflexivity.
  - intros page Hpage. rewrite page_docs_window.
    rewrite List.skipn_all2; [now rewrite List.firstn_nil|].
    rewrite Hlen. nia.
Qed.

(** Three campaigns, two to a page. *)
Lemma getCampaigns_pages_cover_witness :
  let q := Query.mk None None None None None (Some 2) in
  List.concat (List.map (page_docs Scenario.listed q) [1; 2])
  = sort_desc (Db.campaigns Scenario.listed).
Proof.
  intro q.
  exact (proj1 (getCampaigns_pages_cover Scenario.listed q
                  ltac:(vm_compute; discriminate))).
Defined.

End ListingFacts.

(** ** Reading one campaign *)

Section DetailsFacts.

Import CampaignDetails.

Lemma findById_save_other (db : Db.t) (c : Campaign.t) (other : ObjectId) :
  other <> Campaign._id c ->
  Db.Campaign_findById (Db.Campaign_save db c) other
  = Db.Campaign_findById db other.
Proof.
  intro Hne. unfold Db.Campaign_findById, Db.Campaign_save.
  cbn [Db.campaigns]. apply find_update_first_disjoint.
  intros x Hx. unfold Db.is_campaign in *. apply N.eqb_eq in Hx.
  split; apply N.eqb_neq; congruence.
Qed.

(** X19. A read that writes.  [getCampaignById] answers a stored campaign
    with a freshly drawn TVL between 1000 and 10999 in place of the stored
    one, and stores that figure: afterwards the campaign is found with the
    new TVL and every other field as before.  No other campaign and no user
    changes, and a request that fails changes nothing. *)
Theorem getCampaignById_writes_tvl (saveValid : Detailed -> bool)
    (db : Db.t) (id : ObjectId) (draw : Z) :
  0 <= draw < 10000 ->
  let '(result, db') := getCampaignById saveValid db id draw in
  Db.users db' = Db.users db
  /\ (forall other : ObjectId,
         other = id
         \/ Db.Campaign_findById db' other = Db.Campaign_findById db other)
  /\ match result with
     | Throw e =>
         db' = db
         /\ (e = Refusal.CampaignNotFound
             <-> Db.Campaign_findById db id = None)
     | Return d =>
         exists campaign,
           Db.Campaign_findById db id = Some campaign
           /\ d = detailed db (with_totalTVL campaign (draw + 1000))
           /\ 1000 <= Campaign.totalTVL (doc d) < 11000
           /\ Db.Campaign_findById db' id = Some (doc d)
     end.
Proof.
  intro Hdraw. unfold getCampaignById, getCampaignTVL.
  destruct (Db.Campaign_findById db id) as [campaign|] eqn:Hfind.
  - destruct (saveValid _) eqn:Hvalid; cbn [negb].
    + pose proof (findById_id _ _ _ Hfind) as Hid. splits.
      * reflexivity.
      * intro other. destruct (N.eq_dec other id) as [->|Hne]; [now left|].
        right. apply findById_save_other. cbn. congruence.
      * exists campaign. splits; try reflexivity.
        -- cbn. lia.
        -- cbn. lia.
        -- cbn [doc detailed].
           apply (findById_save _ _ campaign); [exact Hfind|exact Hid].
    + splits; try reflexivity; [now right|].
      split; [discriminate|congruence].
  - splits; try reflexivity; [now right|]. now split.
Qed.

(** The Spotify campaign of the tests, read once with a draw of 4242. *)
Lemma getCampaignById_writes_tvl_witness :
  let db0 := Scenario.db [Scenario.streamRule None] [Scenario.streamed] in
  0 <= 4242 < 10000
  /\ option_map Campaign.totalTVL
       (Db.Campaign_findById
          (snd (getCampaignById (fun _ => true) db0 10%N 4242)) 10%N)
     = Some 5242.
Proof.
  intro db0. split; [lia|].
  pose proof (getCampaignById_writes_tvl (fun _ => true) db0 10%N 4242
                ltac:(lia)) as H.
  destruct (getCampaignById (fun _ => true) db0 10%N 4242) as [[d|e] db']
    eqn:Hcall; cbn [snd].
  - destruct H as (_ & _ & campaign & Hfind & -> & _ & ->).
    vm_compute in Hfind. injection Hfind as <-. reflexivity.
  - vm_compute in Hcall. discriminate Hcall.
Defined.

Ltac by_cases :=
  repeat match goal with
         | |- context [if ?b then _ else _] => destruct b
         | |- context [match ?x with _ => _ end] => destruct x
         end;
  reflexivity.

Ltac by_participation_cases :=
  repeat (match goal with
          | |- context [if ?b then _ else _] => destruct b
          | |- context [List.find ?p ?l] => destruct (List.find p l)
          | |- context [VerificationService.verifyAction ?a ?u ?p ?w ?c] =>
              destruct (VerificationService.verifyAction a u p w c)
                as [[? ? ? ?|?]|?]
          | |- context [findIndex ?p ?l] => destruct (findIndex p l)
          | |- context [CampaignController.cap_reached ?m ?n] =>
              destruct (CampaignController.cap_reached m n)
          end; cbn beta iota zeta);
  reflexivity.

(** The answer of a claim reads the campaign, not its TVL. *)
Lemma claim_answer_tvl (db db' : Db.t) (user : User.t) (cid : ObjectId)
    (action proof : string) (clk : RewardController.Clock)
    (c : Campaign.t) (tvl : Z) :
  Db.Campaign_findById db cid = Some c ->
  Db.Campaign_findById db' cid = Some (with_totalTVL c tvl) ->
  fst (RewardController.claimReward db' user cid action proof clk)
  = fst (RewardController.claimReward db user cid action proof clk).
Proof.
  intros H H'. unfold RewardController.claimReward. rewrite H, H'.
  unfold with_totalTVL.
  cbn [Campaign._id Campaign.title Campaign.status Campaign.startDate
       Campaign.endDate Campaign.rewardRules Campaign.contentUrl
       Campaign.participants].
  by_cases.
Qed.

Lemma claim_answer_same (db db' : Db.t) (user : User.t) (cid : ObjectId)
    (action proof : string) (clk : RewardController.Clock) :
  Db.Campaign_findById db' cid = Db.Campaign_findById db cid ->
  fst (RewardController.claimReward db' user cid action proof clk)
  = fst (RewardController.claimReward db user cid action proof clk).
Proof.
  intros H. unfold RewardController.claimReward. rewrite H. by_cases.
Qed.

Lemma participate_answer_tvl (db db' : Db.t) (user : User.t) (cid : ObjectId)
    (action proof : string) (clk : CampaignController.Clock)
    (c : Campaign.t) (tvl : Z) :
  Db.Campaign_findById db cid = Some c ->
  Db.Campaign_findById db' cid = Some (with_totalTVL c tvl) ->
  fst (CampaignController.participateInCampaign db' user cid action proof clk)
  = fst (CampaignController.participateInCampaign db user cid action proof clk).
Proof.
  intros H H'. unfold CampaignController.participateInCampaign.
  rewrite H, H'. unfold with_totalTVL.
  cbn [Campaign._id Campaign.title Campaign.status Campaign.startDate
       Campaign.endDate Campaign.rewardRules Campaign.contentUrl
       Campaign.participants].
  by_participation_cases.
Qed.

Lemma participate_answer_same (db db' : Db.t) (user : User.t)
    (cid : ObjectId) (action proof : string)
    (clk : CampaignController.Clock) :
  Db.Campaign_findById db' cid = Db.Campaign_findById db cid ->
  fst (CampaignController.participateInCampaign db' user cid action proof clk)
  = fst (CampaignController.participateInCampaign db user cid action proof clk).
Proof.
  intros H. unfold CampaignController.participateInCampaign. rewrite H.
  destruct (Db.Campaign_findById db cid) as [c|];
    [by_participation_cases|by_cases].
Qed.

(** X20. Reading a campaign does not change what a fan is answered.
    Whatever [getCampaignById] did to the store, a participation or a claim
    made afterwards, on any campaign, gets the answer it would have got
    before: the same grant with the same verification, amount and token, or
    the same refusal.  Every ledger is as before. *)
Theorem getCampaignById_keeps_answers (saveValid : Detailed -> bool)
    (db : Db.t) (id : ObjectId) (draw : Z) (user : User.t) (cid : ObjectId)
    (action proof : string) (pclk : CampaignController.Clock)
    (cclk : RewardController.Clock) :
  let db' := snd (getCampaignById saveValid db id draw) in
  fst (CampaignController.participateInCampaign db' user cid action proof pclk)
  = fst (CampaignController.participateInCampaign db user cid action proof
           pclk)
  /\ fst (RewardController.claimReward db' user cid action proof cclk)
     = fst (RewardController.claimReward db user cid action proof cclk)
  /\ forall uid : ObjectId, ledger_of db' uid = ledger_of db uid.
Proof.
  intro db'. subst db'. unfold getCampaignById.
  destruct (Db.Campaign_findById db id) as [campaign|] eqn:Hfind;
    [|now splits].
  destruct (saveValid _); cbn [negb snd]; [|now splits].
  pose proof (findById_id _ _ _ Hfind) as Hid.
  set (campaign' := with_totalTVL campaign (getCampaignTVL draw)).
  assert (Hsaved : Db.Campaign_findById (Db.Campaign_save db campaign') id
                   = Some campaign')
    by (apply (findById_save _ _ campaign); [exact Hfind|exact Hid]).
  splits.
  - destruct (N.eq_dec cid id) as [->|Hne].
    + now apply (participate_answer_tvl _ _ _ _ _ _ _ campaign
                   (getCampaignTVL draw)).
    + apply participate_answer_same, findById_save_other. cbn. congruence.
  - destruct (N.eq_dec cid id) as [->|Hne].
    + now apply (claim_answer_tvl _ _ _ _ _ _ _ campaign
                   (getCampaignTVL draw)).
    + apply claim_answer_same, findById_save_other. cbn. congruence.
  - reflexivity.
Qed.

End DetailsFacts.

(** ** Updating a campaign *)

Section UpdateFacts.

Import CampaignDetails.

Variable castDescription : string -> string.
Variable descriptionValid : string -> bool.

Lemma statusOfString_toString (s : string) (st : Status.t) :
  statusOfString s = Some st <-> Status.toString st = s.
Proof.
  unfold statusOfString. split.
  - repeat match goal with
           | |- context [String.eqb ?a ?b] =>
               destruct (String.eqb_spec a b) as [->|?]
           end; intro H; try discriminate H; injection H as <-; reflexivity.
  - intros <-. now destruct st.
Qed.

(** What an update that passes the validators does to a document. *)
Lemma castUpdate_effect (body : UpdateBody)
    (update : Campaign.t -> Campaign.t) (c : Campaign.t) :
  castUpdate castDescription descriptionValid body = Some update ->
  same_but_status_description c (update c)
  /\ match CampaignController.truthy (status body) with
     | Some s => Status.toString (Campaign.status (update c)) = s
     | None => Campaign.status (update c) = Campaign.status c
     end
  /\ match description body with
     | Some d => Campaign.description (update c) = Some (castDescription d)
                 /\ descriptionValid (castDescription d) = true
     | None => Campaign.description (update c) = Campaign.description c
     end.
Proof.
  unfold castUpdate. intro H.
  destruct (CampaignController.truthy (status body)) as [s|].
  - destruct (statusOfString s) as [st|] eqn:Hst; [|discriminate H].
    apply statusOfString_toString in Hst. cbn [option_map] in H.
    destruct (description body) as [d|].
    + destruct (descriptionValid (castDescription d)) eqn:Hd;
        [|discriminate H].
      injection H as <-. unfold same_but_status_description. cbn.
      now splits.
    + injection H as <-. unfold same_but_status_description. cbn.
      now splits.
  - destruct (description body) as [d|].
    + destruct (descriptionValid (castDescription d)) eqn:Hd;
        [|discriminate H].
      injection H as <-. unfold same_but_status_description. cbn.
      now splits.
    + injection H as <-. unfold same_but_status_description. now splits.
Qed.

Lemma findById_update (db : Db.t) (id : ObjectId)
    (update : Campaign.t -> Campaign.t) (c : Campaign.t) :
  Db.Campaign_findById db id = Some c ->
  Campaign._id (update c) = Campaign._id c ->
  Db.Campaign_findById (Campaign_findByIdAndUpdate db id update) id
  = Some (update c).
Proof.
  intros Hfind Hid. unfold Db.Campaign_findById, Campaign_findByIdAndUpdate.
  cbn [Db.campaigns].
  apply (find_update_first_same _ _ c update Hfind).
  unfold Db.is_campaign. rewrite Hid. apply N.eqb_eq.
  now apply findById_id in Hfind.
Qed.

Lemma findById_update_other (db : Db.t) (id other : ObjectId)
    (update : Campaign.t -> Campaign.t) :
  other <> id ->
  (forall c, Campaign._id (update c) = Campaign._id c) ->
  Db.Campaign_findById (Campaign_findByIdAndUpdate db id update) other
  = Db.Campaign_findById db other.
Proof.
  intros Hne Hid. unfold Db.Campaign_findById, Campaign_findByIdAndUpdate.
  cbn [Db.campaigns]. apply find_update_first_other.
  - intros x Hx. unfold Db.is_campaign in *. apply N.eqb_eq in Hx.
    apply N.eqb_neq. congruence.
  - intro x. unfold Db.is_campaign. now rewrite Hid.
Qed.

(** The store and the answer of an update that goes through. *)
Lemma updateCampaign_Return (db : Db.t) (user : User.t) (id : ObjectId)
    (body : UpdateBody) (p : CampaignController.Populated) (db' : Db.t) :
  updateCampaign castDescription descriptionValid db user id body
  = (Return p, db') ->
  exists campaign update,
    Db.Campaign_findById db id = Some campaign
    /\ Campaign.creatorId campaign = User._id user
    /\ castUpdate castDescription descriptionValid body = Some update
    /\ db' = Campaign_findByIdAndUpdate db id update
    /\ Db.Campaign_findById db' id = Some (update campaign)
    /\ p = CampaignController.populate db' (update campaign).
Proof.
  unfold updateCampaign. intro H.
  destruct (Db.Campaign_findById db id) as [campaign|] eqn:Hfind;
    [|discriminate H].
  destruct (Campaign.creatorId campaign =? User._id user)%N eqn:Hown;
    [|discriminate H].
  cbn [negb] in H.
  destruct (castUpdate castDescription descriptionValid body)
    as [update|] eqn:Hcast; [|discriminate H].
  destruct (castUpdate_effect body update campaign Hcast)
    as ((Hid & _) & _).
  rewrite (findById_update db id update campaign Hfind Hid) in H.
  injection H as <- <-.
  exists campaign, update. splits; try reflexivity; try assumption.
  - now apply N.eqb_eq.
  - now apply findById_update.
Qed.

(** X21. What an update can change.  [updateCampaign] is refused unless
    the requester is the creator of the stored campaign, and a refused
    update changes nothing.  An update that goes through changes the
    status and the description of the addressed campaign and nothing else
    in the store: its title, budget, reward rules, dates, content URL, TVL
    and participants, every other campaign and every user are as before.
    The status becomes the one given, whatever the status was (an empty
    status is ignored), and the description the one given, as the schema
    casts it. *)
Theorem updateCampaign_changes_two_fields (db : Db.t) (user : User.t)
    (id : ObjectId) (body : UpdateBody) :
  let '(result, db') :=
    updateCampaign castDescription descriptionValid db user id body in
  Db.users db' = Db.users db
  /\ (forall other : ObjectId,
         other = id
         \/ Db.Campaign_findById db' other = Db.Campaign_findById db other)
  /\ match result with
     | Throw e => db' = db /\ e <> Refusal.NullDereference
     | Return p =>
         exists campaign,
           Db.Campaign_findById db id = Some campaign
           /\ Campaign.creatorId campaign = User._id user
           /\ Db.Campaign_findById db' id = Some (CampaignController.doc p)
           /\ p = CampaignController.populate db' (CampaignController.doc p)
           /\ same_but_status_description campaign (CampaignController.doc p)
           /\ match CampaignController.truthy (status body) with
              | Some s =>
                  Status.toString
                    (Campaign.status (CampaignController.doc p)) = s
              | None =>
                  Campaign.status (CampaignController.doc p)
                  = Campaign.status campaign
              end
           /\ match description body with
              | Some d =>
                  Campaign.description (CampaignController.doc p)
                  = Some (castDescription d)
              | None =>
                  Campaign.description (CampaignController.doc p)
                  = Campaign.description campaign
              end
     end.
Proof.
  destruct (updateCampaign castDescription descriptionValid db user id body)
    as [[p|e] db'] eqn:Hcall.
  - apply updateCampaign_Return in Hcall
      as (campaign & update & Hfind & Hown & Hcast & -> & Hfind' & ->).
    pose proof (fun c => castUpdate_effect body update c Hcast) as Heffect.
    splits.
    + reflexivity.
    + intro other. destruct (N.eq_dec other id) as [->|Hne]; [now left|].
      right. apply findById_update_other; [exact Hne|].
      intro c. now destruct (Heffect c) as ((Hid & _) & _).
    + exists campaign. cbn [CampaignController.doc CampaignController.populate].
      destruct (Heffect campaign) as (Hsame & Hstatus & Hdescription).
      splits; try assumption; try reflexivity.
      destruct (description body); [now destruct Hdescription|assumption].
  - unfold updateCampaign in Hcall.
    destruct (Db.Campaign_findById db id) as [campaign|] eqn:Hfind.
    + destruct (negb (Campaign.creatorId campaign =? User._id user)%N).
      * injection Hcall as <- <-.
        splits; try reflexivity; [now right|discriminate].
      * destruct (castUpdate castDescription descriptionValid body)
          as [update|] eqn:Hcast.
        -- destruct (castUpdate_effect body update campaign Hcast)
             as ((Hid & _) & _).
           rewrite (findById_update db id update campaign Hfind Hid) in Hcall.
           discriminate Hcall.
        -- injection Hcall as <- <-.
           splits; try reflexivity; [now right|discriminate].
    + injection Hcall as <- <-.
      splits; try reflexivity; [now right|discriminate].
Qed.

(** X22. The status gates the fans.  After the creator has set the status
    of a campaign, every participation and every claim of a fan on it is
    refused with [CampaignNotActive], and writes nothing, unless the status
    set is [active]; when it is, a participation inside the date window,
    for a recognised action with a reward rule whose cap is not reached,
    is granted.  Actions recorded before a pause cannot be claimed during
    it. *)
Theorem updateCampaign_status_gates_fans (db : Db.t) (user : User.t)
    (id : ObjectId) (body : UpdateBody) (p : CampaignController.Populated)
    (db' : Db.t) (s : string) :
  updateCampaign castDescription descriptionValid db user id body
  = (Return p, db') ->
  CampaignController.truthy (status body) = Some s ->
  (s <> "active"%string ->
   forall (fan : User.t) (action proof : string)
          (pclk : CampaignController.Clock) (cclk : RewardController.Clock),
     User.role fan = Role.fan ->
     CampaignController.participateInCampaign db' fan id action proof pclk
     = (Throw AppError.CampaignNotActive, db')
     /\ RewardController.claimReward db' fan id action proof cclk
        = (Throw AppError.CampaignNotActive, db'))
  /\ (s = "active"%string ->
      forall (fan : User.t) (action proof : string)
             (clk : CampaignController.Clock) (rule : RewardRule.t),
        User.role fan = Role.fan ->
        in_window (CampaignController.doc p) (CampaignController.now clk) ->
        List.find (CampaignController.is_rule action)
          (Campaign.rewardRules (CampaignController.doc p)) = Some rule ->
        recognized action = true ->
        CampaignController.cap_reached (RewardRule.maxClaims rule)
          (count_of action (actions_of db' id fan)) = None ->
        granted
          (fst (CampaignController.participateInCampaign db' fan id action
                  proof clk)) = true).
Proof.
  intros Hcall Hs.
  apply updateCampaign_Return in Hcall
    as (campaign & update & Hfind & Hown & Hcast & -> & Hfind' & ->).
  destruct (castUpdate_effect body update campaign Hcast)
    as (_ & Hstatus & _).
  rewrite Hs in Hstatus.
  cbn [CampaignController.doc CampaignController.populate].
  split.
  - intros Hne fan action proof pclk cclk Hrole.
    assert (Hst : Status.eqb (Campaign.status (update campaign))
                    Status.active = false).
    { destruct (Campaign.status (update campaign)); cbn in *;
        try reflexivity. now subst s. }
    apply role_check in Hrole.
    unfold CampaignController.participateInCampaign,
      RewardController.claimReward.
    now rewrite Hrole, Hfind', Hst.
  - intros -> fan action proof clk rule Hrole Hwin Hrule Hrec Hcap.
    assert (Hst : Campaign.status (update campaign) = Status.active)
      by (destruct (Campaign.status (update campaign)); cbn in Hstatus;
          congruence).
    destruct (participate_succeeds _ fan id action proof clk
                (update campaign) rule Hrole Hfind' Hst Hwin Hrule Hrec Hcap)
      as (part & db'' & ->).
    reflexivity.
Qed.

End UpdateFacts.

(** The creator pauses the campaign of the tests: the recorded stream can
    no longer be claimed. *)
Lemma updateCampaign_status_gates_fans_witness :
  let db0 := Scenario.db [Scenario.streamRule None] [Scenario.streamed] in
  let db' :=
    snd (CampaignDetails.updateCampaign (fun d => d) (fun _ => true) db0
           Scenario.creatorUser 10%N
           (CampaignDetails.mkUpdateBody (Some "paused"%string) None)) in
  RewardController.claimReward db' (Scenario.fanWith []) 10%N "stream"
    Scenario.proofData (Scenario.claim_at Scenario.t2)
  = (Throw AppError.CampaignNotActive, db').
Proof.
  intros db0 db'.
  assert (Hcall : exists p,
             CampaignDetails.updateCampaign (fun d => d) (fun _ => true) db0
               Scenario.creatorUser 10%N
               (CampaignDetails.mkUpdateBody (Some "paused"%string) None)
             = (Return p, db'))
    by (eexists; vm_compute; reflexivity).
  destruct Hcall as [p Hcall].
  destruct (updateCampaign_status_gates_fans (fun d => d) (fun _ => true)
              db0 Scenario.creatorUser 10%N
              (CampaignDetails.mkUpdateBody (Some "paused"%string) None)
              p db' "paused" Hcall eq_refl) as [Hpaused _].
  exact (proj2 (Hpaused ltac:(discriminate) (Scenario.fanWith [])
                  "stream"%string Scenario.proofData
                  (Scenario.participate_at Scenario.t2)
                  (Scenario.claim_at Scenario.t2) eq_refl)).
Defined.

(** ** Reports on rewards *)

Section ReportFacts.

Import RewardReports.

Variable number_add : Q -> Q -> Q.

Lemma insert_newest_perm (r : RewardEntry.t) (rs : list RewardEntry.t) :
  Permutation (insert_newest r rs) (r :: rs).
Proof.
  induction rs as [|s rs IH]; cbn; [reflexivity|].
  destruct (RewardEntry.claimedAt r <? RewardEntry.claimedAt s);
    [|reflexivity].
  rewrite IH. apply perm_swap.
Qed.

Lemma sort_newest_perm (rs : list RewardEntry.t) :
  Permutation (sort_newest rs) rs.
Proof.
  induction rs as [|r rs IH]; cbn; [reflexivity|].
  fold (sort_newest rs). rewrite insert_newest_perm. now constructor.
Qed.

Lemma insert_newest_sorted (r : RewardEntry.t) (rs : list RewardEntry.t) :
  StronglySorted not_older rs -> StronglySorted not_older (insert_newest r rs).
Proof.
  induction rs as [|s rs IH]; cbn; intro H.
  - repeat constructor.
  - apply StronglySorted_inv in H as [Hrs Hs].
    destruct (RewardEntry.claimedAt r <? RewardEntry.claimedAt s) eqn:Hlt.
    + apply Z.ltb_lt in Hlt. constructor; [now apply IH|].
      apply List.Forall_forall. intros x Hx.
      apply (Permutation_in _ (insert_newest_perm r rs)) in Hx.
      destruct Hx as [<-|Hx].
      * unfold not_older. lia.
      * now apply (proj1 (List.Forall_forall _ _) Hs).
    + apply Z.ltb_ge in Hlt. constructor; [now constructor|].
      constructor; [exact Hlt|].
      apply List.Forall_forall. intros x Hx.
      pose proof (proj1 (List.Forall_forall _ _) Hs x Hx) as Hxs.
      unfold not_older in *. lia.
Qed.

Lemma sort_newest_sorted (rs : list RewardEntry.t) :
  StronglySorted not_older (sort_newest rs).
Proof.
  induction rs as [|r rs IH]; cbn; [constructor|].
  now apply insert_newest_sorted.
Qed.

(** A tally step adds one claim, to the group of its key. *)
Lemma tallyUp_sum (key : string) (r : RewardEntry.t)
    (groups : list (string * TokenTotal)) :
  sum_claimCount (List.map snd (tallyUp number_add key r groups))
  = sum_claimCount (List.map snd groups) + 1.
Proof.
  induction groups as [|[k g] groups IH]; cbn; [lia|].
  destruct (String.eqb k key); cbn; [lia|].
  unfold sum_claimCount in IH. rewrite IH. lia.
Qed.

Lemma tallyUp_at (key key' : string) (r : RewardEntry.t)
    (groups : list (string * TokenTotal)) :
  claimCount_at key' (tallyUp number_add key r groups)
  = claimCount_at key' groups + (if String.eqb key key' then 1 else 0).
Proof.
  unfold claimCount_at.
  induction groups as [|[k g] groups IH]; cbn.
  - destruct (String.eqb key key'); reflexivity.
  - destruct (String.eqb_spec k key) as [->|Hk]; cbn.
    + destruct (String.eqb key key'); cbn; lia.
    + destruct (String.eqb_spec k key') as [->|Hk']; cbn.
      * destruct (String.eqb_spec key key') as [->|_]; [contradiction|lia].
      * exact IH.
Qed.

Lemma tallyUp_keys (key : string) (r : RewardEntry.t)
    (groups : list (string * TokenTotal)) :
  List.map fst (tallyUp number_add key r groups)
  = if List.existsb (String.eqb key) (List.map fst groups)
    then List.map fst groups
    else List.map fst groups ++ [key].
Proof.
  induction groups as [|[k g] groups IH]; cbn; [reflexivity|].
  rewrite (String.eqb_sym key k).
  destruct (String.eqb k key); cbn; [reflexivity|].
  rewrite IH. now destruct (List.existsb _ _).
Qed.

Lemma tallyUp_NoDup (key : string) (r : RewardEntry.t)
    (groups : list (string * TokenTotal)) :
  NoDup (List.map fst groups) ->
  NoDup (List.map fst (tallyUp number_add key r groups)).
Proof.
  intro H. rewrite tallyUp_keys.
  destruct (List.existsb (String.eqb key) (List.map fst groups)) eqn:Hex;
    [exact H|].
  apply NoDup_snoc; [exact H|].
  intro Hin. apply Bool.not_true_iff_false in Hex. apply Hex.
  apply List.existsb_exists. exists key. split; [exact Hin|].
  apply String.eqb_refl.
Qed.

(** The groups of a tally: one for each key that occurs, holding the
    number of rewards with the key. *)
Lemma tally_from (keyOf : RewardEntry.t -> string) (rs : list RewardEntry.t) :
  forall groups : list (string * TokenTotal),
    NoDup (List.map fst groups) ->
    let groups' :=
      List.fold_left
        (fun groups r => tallyUp number_add (keyOf r) r groups) rs groups in
    sum_claimCount (List.map snd groups')
    = sum_claimCount (List.map snd groups) + Z.of_nat (List.length rs)
    /\ NoDup (List.map fst groups')
    /\ forall key,
         claimCount_at key groups'
         = claimCount_at key groups
           + Z.of_nat
               (List.length
                  (List.filter (fun r => String.eqb (keyOf r) key) rs)).
Proof.
  induction rs as [|r rs IH]; intros groups Hnd; cbn zeta.
  - cbn [List.fold_left List.length List.filter].
    splits; [lia|exact Hnd|intro; lia].
  - cbn [List.fold_left].
    destruct (IH (tallyUp number_add (keyOf r) r groups)
                (tallyUp_NoDup _ r _ Hnd)) as (Hsum & Hnd' & Hat).
    cbn zeta in Hsum, Hnd', Hat. splits.
    + rewrite Hsum, tallyUp_sum. cbn [List.length]. lia.
    + exact Hnd'.
    + intro key. rewrite Hat, tallyUp_at. cbn [List.filter].
      destruct (String.eqb (keyOf r) key); cbn [List.length]; lia.
Qed.

Lemma slice_window {A : Type} (xs : list A) (start count : Z) :
  0 <= start -> 0 <= count ->
  slice xs start (start + count)
  = List.firstn (Z.to_nat count) (List.skipn (Z.to_nat start) xs).
Proof.
  intros Hstart Hcount. unfold slice.
  replace (start <? 0) with false by (symmetry; apply Z.ltb_ge; lia).
  replace (start + count <? 0) with false by (symmetry; apply Z.ltb_ge; lia).
  destruct (Z.le_gt_cases (Z.of_nat (List.length xs)) start) as [Hout|Hin].
  - rewrite Z.min_r by lia.
    rewrite (List.skipn_all2 xs (n := Z.to_nat start)) by lia.
    rewrite List.skipn_all2 by lia. now rewrite !List.firstn_nil.
  - rewrite (Z.min_l start) by lia.
    destruct (Z.le_gt_cases (start + count) (Z.of_nat (List.length xs)))
      as [Hfits|Hcut].
    + rewrite Z.min_l by lia. f_equal. lia.
    + rewrite Z.min_r by lia.
      rewrite !List.firstn_all2; [reflexivity| |];
        rewrite List.length_skipn; lia.
Qed.

Lemma filter_length_perm {A : Type} (f : A -> bool) (xs ys : list A) :
  Permutation xs ys ->
  List.length (List.filter f xs) = List.length (List.filter f ys).
Proof.
  induction 1 as [|x xs ys _ IH|x y xs|xs ys zs _ IH1 _ IH2]; cbn.
  - reflexivity.
  - destruct (f x); cbn; now rewrite IH.
  - destruct (f x), (f y); reflexivity.
  - now rewrite IH1.
Qed.

(** X23. The report on a user's rewards.  For page and limit of at least
    1, [getUserRewards] finds the user by the wallet address in lower case
    and answers the page's window of the user's rewards, newest first (a
    reordering of all of them, equal dates in their stored order), with
    [total] the number of rewards and [pages] the ceiling of
    [total / limit].  The summary has one group for each pair of token
    address and name that occurs, each counting the rewards of the pair, so
    the claim counts add up to [total]. *)
Theorem getUserRewards_report (db : Db.t) (walletAddress : string)
    (page limit : Z) :
  1 <= page -> 1 <= limit ->
  match getUserRewards number_add db walletAddress (Some page) (Some limit)
  with
  | Throw e =>
      e = Refusal.UserNotFound
      /\ User_findOne_wallet db walletAddress = None
  | Return report =>
      exists u,
        User_findOne_wallet db walletAddress = Some u
        /\ User.walletAddress u = toLowerCase walletAddress
        /\ user report = (User.walletAddress u, User.username u)
        /\ List.map entry (rewards report)
           = List.firstn (Z.to_nat limit)
               (List.skipn (Z.to_nat ((page - 1) * limit))
                  (sort_newest (User.rewardsEarned u)))
        /\ Permutation (sort_newest (User.rewardsEarned u))
             (User.rewardsEarned u)
        /\ StronglySorted not_older (sort_newest (User.rewardsEarned u))
        /\ CampaignController.pg_total (pagination report)
           = Z.of_nat (List.length (User.rewardsEarned u))
        /\ (CampaignController.pg_pages (pagination report) - 1) * limit
           < Z.of_nat (List.length (User.rewardsEarned u))
           <= CampaignController.pg_pages (pagination report) * limit
        /\ summary report = List.map snd (summary_groups number_add u)
        /\ NoDup (List.map fst (summary_groups number_add u))
        /\ sum_claimCount (summary report)
           = Z.of_nat (List.length (User.rewardsEarned u))
        /\ forall key : string,
             claimCount_at key (summary_groups number_add u)
             = Z.of_nat
                 (List.length
                    (List.filter (fun r => String.eqb (tokenKey r) key)
                       (User.rewardsEarned u)))
  end.
Proof.
  intros Hpage Hlimit. unfold getUserRewards.
  destruct (User_findOne_wallet db walletAddress) as [u|] eqn:Hfind;
    [|now split].
  exists u.
  destruct (tally_from tokenKey (sort_newest (User.rewardsEarned u)) []
              (NoDup_nil _)) as (Hsum & Hnd & Hat).
  cbn zeta in Hsum, Hnd, Hat.
  fold (tally number_add tokenKey (sort_newest (User.rewardsEarned u)))
    in Hsum, Hnd, Hat.
  fold (summary_groups number_add u) in Hsum, Hnd, Hat.
  pose proof (sort_newest_perm (User.rewardsEarned u)) as Hperm.
  cbn [user rewards summary pagination CampaignController.pg_total
       CampaignController.pg_pages].
  splits; try reflexivity.
  - unfold User_findOne_wallet in Hfind.
    apply List.find_some in Hfind as [_ Hfind]. now apply String.eqb_eq.
  - rewrite List.map_map. cbn [entry populateReward]. rewrite List.map_id.
    apply slice_window; nia.
  - exact Hperm.
  - apply sort_newest_sorted.
  - apply ceil_div_spec. lia.
  - apply ceil_div_spec. lia.
  - exact Hnd.
  - fold (summary_groups number_add u). rewrite Hsum.
    rewrite (Permutation_length Hperm). cbn. lia.
  - intro key. rewrite Hat. cbn [claimCount_at List.find].
    now rewrite (filter_length_perm _ _ _ Hperm).
Qed.

End ReportFacts.

(** The fan of the tests with two rewards, asked for by a wallet address
    in mixed case, one reward to a page. *)
Lemma getUserRewards_report_witness :
  let db0 :=
    Scenario.db_of [Scenario.streamRule None] [Scenario.streamed]
      (Scenario.fanWith [Scenario.reward Scenario.t2;
                         Scenario.reward Scenario.t3]) in
  match
    RewardReports.getUserRewards Qplus db0
      "0x742D35Cc6634C0532925a3b8D4C0532925a3b8D4" (Some 1) (Some 1)
  with
  | Return report =>
      List.map RewardReports.entry (RewardReports.rewards report)
      = [Scenario.reward Scenario.t3]
  | Throw _ => False
  end.
Proof.
  intro db0.
  pose proof (getUserRewards_report Qplus db0
                "0x742D35Cc6634C0532925a3b8D4C0532925a3b8D4" 1 1
                ltac:(lia) ltac:(lia)) as H.
  destruct (RewardReports.getUserRewards Qplus db0
              "0x742D35Cc6634C0532925a3b8D4C0532925a3b8D4" (Some 1) (Some 1))
    as [report|e].
  - destruct H as (u & Hu & _ & _ & Hpage & _).
    vm_compute in Hu. injection Hu as <-. exact Hpage.
  - destruct H as [_ H]. vm_compute in H. discriminate H.
Defined.

(** ** Statistics of a campaign *)

Section StatsFacts.

Import RewardReports.

Variable number_add : Q -> Q -> Q.













End StatsFacts.

(** ** Requests and the reports after them *)

Section ReportsFollow.

Import RewardReports.

Variable number_add : Q -> Q -> Q.












End ReportsFollow.




(** ** The wallet header and the role *)

Section AuthFacts.

Import Auth.









Lemma validateRewardTokens_throws (svc : BlockchainService.t)
    (rules : list RewardRule.t) (clock : nat -> BlockchainService.Clock) :
  forall (k : nat) (e : AppError.t) (svc' : BlockchainService.t),
    BlockchainService.validateRewardTokens svc rules clock k = (Throw e, svc')
    -> exists use address, e = AppError.TokenNotAllowed use address.
Proof.
  revert svc. induction rules as [|rule rules IH]; intros svc k e svc' H;
    cbn in H; [discriminate H|].
  destruct (BlockchainService.isTokenAllowed svc _ (clock k)) as [valid svc1].
  destruct valid; cbn [negb] in H.
  - exact (IH _ _ _ _ H).
  - injection H as <- _. now eexists _, _.
Qed.

(** X28. Behind [authenticate, authorize(...roles)].  The user the two
    handlers let through is the one [authenticate] found, and its role is
    one of [roles].  So the role checks of the handlers behind them never
    fire: behind [authorize('fan')] neither [participateInCampaign] nor
    [claimReward] answers [Forbidden], and behind [authorize('creator')]
    [createCampaign] does not. *)
Theorem protect_settles_the_role (roles : list Role.t) (db : Db.t)
    (header : option string) (u : User.t) :
  protect roles db header = Return u ->
  authenticate db header = Return u
  /\ List.In (User.role u) roles
  /\ (roles = [Role.fan] ->
      forall (db1 : Db.t) (id : ObjectId) (action proof message : string)
             (pclk : CampaignController.Clock)
             (cclk : RewardController.Clock),
        fst (CampaignController.participateInCampaign db1 u id action proof
               pclk) <> Throw (AppError.Forbidden message)
        /\ fst (RewardController.claimReward db1 u id action proof cclk)
           <> Throw (AppError.Forbidden message))
  /\ (roles = [Role.creator] ->
      forall (schemaValid : Campaign.t -> bool) (svc : BlockchainService.t)
             (db1 : Db.t) (body : CampaignController.CreateBody.t)
             (clock : nat -> BlockchainService.Clock) (newId : ObjectId)
             (createdAt : Z) (message : string),
        fst (fst (CampaignController.createCampaign schemaValid svc db1 u
                    body clock newId createdAt))
        <> Throw (AppError.Forbidden message)).
Proof.
  unfold protect, authorize. intro H.
  destruct (authenticate db header) as [user|e]; [|discriminate H].
  destruct (List.existsb (Role.eqb (User.role user)) roles) eqn:Hrole;
    [|discriminate H].
  cbn [negb] in H. injection H as ->.
  apply List.existsb_exists in Hrole as (r & Hin & Hr).
  apply role_check in Hr. subst r.
  splits; [reflexivity|exact Hin| |].
  - intros -> db1 id action proof message pclk cclk.
    destruct Hin as [Hfan|[]]. symmetry in Hfan.
    apply role_check in Hfan.
    unfold CampaignController.participateInCampaign,
      RewardController.claimReward.
    rewrite Hfan. cbn [negb]. split.
    + destruct (Db.Campaign_findById db1 id) as [c|]; [|discriminate].
      repeat (match goal with
              | |- context [if ?b then _ else _] => destruct b
              | |- context [List.find ?p ?l] => destruct (List.find p l)
              | |- context [VerificationService.verifyAction ?a ?w ?p ?x ?c] =>
                  destruct (VerificationService.verifyAction a w p x c)
                    as [[? ? ? ?|?]|?]
              | |- context [findIndex ?p ?l] => destruct (findIndex p l)
              | |- context [CampaignController.cap_reached ?m ?n] =>
                  destruct (CampaignController.cap_reached m n)
              end; cbn beta iota zeta); discriminate.
    + repeat match goal with
             | |- context [if ?b then _ else _] => destruct b
             | |- context [match ?x with _ => _ end] => destruct x
             end; discriminate.
  - intros -> schemaValid svc db1 body clock newId createdAt message.
    destruct Hin as [Hcreator|[]]. symmetry in Hcreator.
    apply role_check in Hcreator.
    unfold CampaignController.createCampaign. rewrite Hcreator. cbn [negb].
    cbn zeta.
    destruct (_ >=? _); [discriminate|].
    unfold BlockchainService.validateCampaignTokens.
    destruct (BlockchainService.isTokenAllowed svc _ (clock 0%nat))
      as [valid svc1].
    destruct valid; cbn [negb]; [|discriminate].
    destruct (BlockchainService.validateRewardTokens svc1 _ clock 1)
      as [[v|e] svc2] eqn:Hrules.
    + destruct (schemaValid _); discriminate.
    + apply validateRewardTokens_throws in Hrules as (use & address & ->).
      discriminate.
Qed.

(** The fan of the tests behind [authorize('fan')], with the wallet
    address in mixed case. *)
Lemma protect_settles_the_role_witness :
  Auth.protect [Role.fan] (Scenario.db [] [])
    (Some "0x742D35Cc6634C0532925a3b8D4C0532925a3b8D4"%string)
  = Return Scenario.fanUser
  /\ Auth.authenticate (Scenario.db [] [])
       (Some "0x742D35Cc6634C0532925a3b8D4C0532925a3b8D4"%string)
     = Return Scenario.fanUser.
Proof.
  assert (H : Auth.protect [Role.fan] (Scenario.db [] [])
                (Some "0x742D35Cc6634C0532925a3b8D4C0532925a3b8D4"%string)
              = Return Scenario.fanUser) by (vm_compute; reflexivity).
  split; [exact H|].
  exact (proj1 (protect_settles_the_role _ _ _ _ H)).
Defined.

End AuthFacts.

(** ** Connecting to the database *)

Section StartupFacts.

Import Database.

(** X29. The retry loop of [connectDB].  Whatever the outcomes of the
    calls of [mongoose.connect], the loop ends: it returns after the first
    call that resolves, having waited 2, 4, ... seconds after the failed
    calls before it, or, when the first five calls fail, it exits the
    process with code 1 after the fifth, without a fifth wait.  It makes at
    most five calls, waits at most 30 seconds in all, and never leaves the
    loop by its condition. *)
Theorem connectDB_backoff (connect : nat -> bool) (fuel : nat) :
  (5 <= fuel)%nat ->
  exists run,
    connectDB fuel connect = Some run
    /\ match first_success connect 5 with
       | Some k =>
           outcome run = Connected
           /\ attempts run = S k
           /\ waits run = backoff k
       | None =>
           outcome run = Exited 1
           /\ attempts run = 5%nat
           /\ waits run = backoff 4
       end
    /\ (attempts run <= 5)%nat
    /\ total_wait (waits run) <= 30000
    /\ outcome run <> LoopLeft.
Proof.
  intro Hfuel.
  do 5 (destruct fuel as [|fuel]; [lia|]). clear Hfuel.
  unfold connectDB, first_success. cbn [retry List.seq List.find].
  change (0 <? maxRetries)%nat with true.
  change (1 <? maxRetries)%nat with true.
  change (2 <? maxRetries)%nat with true.
  change (3 <? maxRetries)%nat with true.
  change (4 <? maxRetries)%nat with true.
  change (1 =? maxRetries)%nat with false.
  change (2 =? maxRetries)%nat with false.
  change (3 =? maxRetries)%nat with false.
  change (4 =? maxRetries)%nat with false.
  change (5 =? maxRetries)%nat with true.
  cbn iota.
  destruct (connect 0%nat); [|destruct (connect 1%nat);
    [|destruct (connect 2%nat); [|destruct (connect 3%nat);
      [|destruct (connect 4%nat)]]]];
    eexists; (split; [reflexivity|]);
    cbn [outcome attempts waits]; vm_compute;
    repeat split; try lia; try discriminate; intro H; discriminate H.
Qed.

(** Two failures, then a connection. *)
Lemma connectDB_backoff_witness :
  (5 <= 5)%nat
  /\ exists run,
       connectDB 5 (fun i => (2 <=? i)%nat) = Some run
       /\ outcome run = Connected
       /\ attempts run = 3%nat
       /\ waits run = [2000; 4000].
Proof.
  split; [lia|].
  destruct (connectDB_backoff (fun i => (2 <=? i)%nat) 5 ltac:(lia))
    as (run & Hrun & Hfirst & _).
  exists run. split; [exact Hrun|]. exact Hfirst.
Defined.

End StartupFacts.

(** ** Platforms without a verifier *)

Section UnverifiedPlatforms.

(** Where the pair of action and platform has no verifier of its own, the
    verification does not read the proof. *)
Lemma verifyAction_ignores_proof (action contentUrl proof proof' wallet
    : string) (clk : VerificationService.Clock) :
  dedicated action (VerificationService.getPlatformFromUrl contentUrl)
  = false ->
  VerificationService.verifyAction action contentUrl proof wallet clk
  = VerificationService.verifyAction action contentUrl proof' wallet clk.
Proof.
  intro Hded. destruct (recognized action) eqn:Hrec.
  - rewrite !(verifyAction_recognized _ _ _ _ _ Hrec).
    unfold hashed. now rewrite Hded.
  - pose proof (verifyAction_cases action contentUrl proof wallet clk) as H.
    pose proof (verifyAction_cases action contentUrl proof' wallet clk) as H'.
    destruct (VerificationService.verifyAction action contentUrl proof wallet
                clk) as [r|e]; [destruct H; congruence|].
    destruct (VerificationService.verifyAction action contentUrl proof'
                wallet clk) as [r'|e']; [destruct H'; congruence|].
    destruct H as [_ ->], H' as [_ ->]. reflexivity.
Qed.

(** X30. The proof is not read where there is no verifier.  On a campaign
    whose content URL is of a platform that has no verifier of its own for
    the action (a share of a Spotify track, a like on Instagram, any
    action on an unknown site, ...), [participateInCampaign] and
    [claimReward] give the same answer and leave the same store whatever
    proof the request carries. *)
Theorem proof_not_read_without_verifier (db : Db.t) (user : User.t)
    (id : ObjectId) (action proof proof' : string)
    (pclk : CampaignController.Clock) (cclk : RewardController.Clock) :
  (forall c : Campaign.t,
      Db.Campaign_findById db id = Some c ->
      dedicated action
        (VerificationService.getPlatformFromUrl (Campaign.contentUrl c))
      = false) ->
  CampaignController.participateInCampaign db user id action proof pclk
  = CampaignController.participateInCampaign db user id action proof' pclk
  /\ RewardController.claimReward db user id action proof cclk
     = RewardController.claimReward db user id action proof' cclk.
Proof.
  intro Hded.
  unfold CampaignController.participateInCampaign,
    RewardController.claimReward.
  destruct (Db.Campaign_findById db id) as [c|]; [|now split].
  specialize (Hded c eq_refl).
  rewrite (verifyAction_ignores_proof action _ proof proof'
             (User.walletAddress user)
             (CampaignController.verification_clock pclk) Hded).
  rewrite (verifyAction_ignores_proof action _ proof proof'
             (User.walletAddress user)
             (RewardController.verification_clock cclk) Hded).
  now split.
Qed.

(** A share of the Spotify track of the tests: two different proofs, one
    answer. *)
Lemma proof_not_read_without_verifier_witness :
  let db0 := Scenario.db [Scenario.shareRule None] [] in
  CampaignController.participateInCampaign db0 Scenario.fanUser 10%N "share"
    "a proof" (Scenario.participate_at Scenario.t1)
  = CampaignController.participateInCampaign db0 Scenario.fanUser 10%N "share"
      "another proof" (Scenario.participate_at Scenario.t1).
Proof.
  intro db0.
  refine (proj1 (proof_not_read_without_verifier db0 Scenario.fanUser 10%N
                   "share" "a proof" "another proof"
                   (Scenario.participate_at Scenario.t1)
                   (Scenario.claim_at Scenario.t1) _)).
  intros c Hc. vm_compute in Hc. injection Hc as <-. reflexivity.
Defined.

End UnverifiedPlatforms.
